(** * LinkedIn-Scraper: the extraction pipeline of [utils.py]

    A shallow embedding of [utils.py]: the URL validator, the static
    (requests + BeautifulSoup) extractor in both of its definitions, the
    browser-driven (Selenium) extractor and the orchestrator
    [scrape_linkedin_profile], followed by the properties proved about them.

    Conventions of the embedding.
    - A Python [str] is a [string]; one [ascii] stands for one code point
      below 256.
    - A profile record (a Python [dict]) is a [gmap string value].
    - Everything outside the module (the network, the HTML parser and the
      browser) is an oracle; every call to it is recorded in a history,
      and the oracle's answer may depend on the history so far.
    - An exception is a value of [exn]; [try]/[except]/[finally] are
      combinators of the monad [M].
    - Calls to [logger] and to [time.sleep] only write to the log or wait;
      they are left out. *)

From Stdlib Require Import Ascii String NArith Lia DecimalString.
From stdpp Require Import base option list gmap strings.

(** ** Python strings *)

Module Py.

Definition code (c : ascii) : N := N_of_ascii c.

Definition between (lo hi : N) (c : ascii) : bool :=
  ((lo <=? code c) && (code c <=? hi))%N.

(** [str.isspace] on one code point below 256, the set [str.strip()]
    removes. *)
Definition isspace (c : ascii) : bool :=
  between 9 13 c || between 28 32 c || (code c =? 133)%N || (code c =? 160)%N.

Fixpoint lstrip (s : string) : string :=
  match s with
  | String c t => if isspace c then lstrip t else s
  | EmptyString => EmptyString
  end.

Fixpoint rstrip (s : string) : string :=
  match s with
  | String c t =>
      match rstrip t with
      | EmptyString => if isspace c then EmptyString else String c EmptyString
      | t' => String c t'
      end
  | EmptyString => EmptyString
  end.

(** [s.strip()] *)
Definition strip (s : string) : string := rstrip (lstrip s).

(** [str.lower] on one code point below 256. *)
Definition lower_char (c : ascii) : ascii :=
  if between 65 90 c || between 192 214 c || between 216 222 c
  then ascii_of_N (code c + 32) else c.

Fixpoint lower (s : string) : string :=
  match s with
  | String c t => String (lower_char c) (lower t)
  | EmptyString => EmptyString
  end.

Fixpoint startswith (p s : string) : bool :=
  match p, s with
  | EmptyString, _ => true
  | String a p', String b s' => if decide (a = b) then startswith p' s' else false
  | String _ _, EmptyString => false
  end.

(** [needle in hay] *)
Fixpoint contains (needle hay : string) : bool :=
  startswith needle hay ||
  match hay with
  | String _ t => contains needle t
  | EmptyString => false
  end.

(** [len(s)] *)
Definition len (s : string) : nat := String.length s.

(** Truth value of a [str]: non-empty. *)
Definition truthy (s : string) : bool :=
  match s with EmptyString => false | String _ _ => true end.

Fixpoint all_chars (p : ascii → bool) (s : string) : bool :=
  match s with
  | String c t => p c && all_chars p t
  | EmptyString => true
  end.

End Py.

(** ** Regular expressions, as far as [linkedin_pattern] needs them

    [re.match] tries the pattern at the start of the string, with
    backtracking; [$] matches at the end of the string and also just before
    a newline that is the last character. *)

Module Re.

Inductive regex : Type :=
| Bol                          (* ^ *)
| Eol                          (* $ *)
| Str (lit : string)           (* literal characters *)
| Opt (r : regex)              (* r? *)
| Plus (cls : ascii → bool)    (* [...]+ *)
| Cat (r1 r2 : regex).

Definition newline : string := String "010"%char EmptyString.

Fixpoint many1 (cls : ascii → bool) (s : string) (k : string → bool) : bool :=
  match s with
  | String c t => if cls c then many1 cls t k || k t else false
  | EmptyString => false
  end.

(** The rest of [s] after the literal [lit], if [s] starts with it. *)
Fixpoint after (lit s : string) : option string :=
  match lit, s with
  | EmptyString, _ => Some s
  | String a lit', String b s' =>
      if decide (a = b) then after lit' s' else None
  | String _ _, EmptyString => None
  end.

Fixpoint run (r : regex) (pos : nat) (s : string)
    (k : nat → string → bool) : bool :=
  match r with
  | Bol => if decide (pos = 0) then k pos s else false
  | Eol => if decide (s = EmptyString ∨ s = newline) then k pos s else false
  | Str lit =>
      match after lit s with
      | Some t => k (pos + String.length lit) t
      | None => false
      end
  | Opt r' => run r' pos s k || k pos s
  | Plus cls =>
      many1 cls s (λ t, k (pos + (String.length s - String.length t)) t)
  | Cat r1 r2 => run r1 pos s (λ pos' s', run r2 pos' s' k)
  end.

(** [bool(re.match(r, s))] *)
Definition matches (r : regex) (s : string) : bool :=
  run r 0 s (λ _ _, true).

(** What a pattern means: [lang r pos s pos' s'] when [r], tried at offset
    [pos] where [s] remains, can stop at offset [pos'] with [s'] left. *)
Fixpoint lang (r : regex) (pos : nat) (s : string) (pos' : nat) (s' : string)
    : Prop :=
  match r with
  | Bol => pos = 0 ∧ pos' = pos ∧ s' = s
  | Eol => (s = EmptyString ∨ s = newline) ∧ pos' = pos ∧ s' = s
  | Str lit => s = lit +:+ s' ∧ pos' = pos + String.length lit
  | Opt r' => lang r' pos s pos' s' ∨ (pos' = pos ∧ s' = s)
  | Plus cls =>
      ∃ a, a ≠ EmptyString ∧ Py.all_chars cls a = true ∧ s = a +:+ s' ∧
           pos' = pos + (String.length s - String.length s')
  | Cat r1 r2 => ∃ p m, lang r1 pos s p m ∧ lang r2 p m pos' s'
  end.

End Re.

(** ** [is_valid_linkedin_url] *)

(** The class [[a-zA-Z0-9\-]]. *)
Definition slug_class (c : ascii) : bool :=
  Py.between 97 122 c || Py.between 65 90 c || Py.between 48 57 c
  || (Py.code c =? 45)%N.

(** [^https?:\/\/(www\.)?linkedin\.com\/in\/[a-zA-Z0-9\-]+\/?$] *)
Definition linkedin_pattern : Re.regex :=
  Re.Cat Re.Bol
    (Re.Cat (Re.Str "http")
      (Re.Cat (Re.Opt (Re.Str "s"))
        (Re.Cat (Re.Str "://")
          (Re.Cat (Re.Opt (Re.Str "www."))
            (Re.Cat (Re.Str "linkedin.com/in/")
              (Re.Cat (Re.Plus slug_class)
                (Re.Cat (Re.Opt (Re.Str "/")) Re.Eol))))))).

Definition is_valid_linkedin_url (url : string) : bool :=
  Re.matches linkedin_pattern url.

(** The profile-URL shape in the words of the specification:
    [(http|https)://(www.)?linkedin.com/in/<slug>(/)?], the slug being one
    or more alphanumerics or hyphens, and nothing before or after. *)
Inductive profile_url_shape : string → Prop :=
| profile_url_shape_intro (scheme www slug slash : string) :
    scheme = "http" ∨ scheme = "https" →
    www = "" ∨ www = "www." →
    slug ≠ "" →
    Py.all_chars slug_class slug = true →
    slash = "" ∨ slash = "/" →
    profile_url_shape
      (scheme +:+ "://" +:+ www +:+ "linkedin.com/in/" +:+ slug +:+ slash).

(** ** Parsed documents (BeautifulSoup) *)

Module Soup.

(** A parsed document: text nodes and tags with their [id] attribute and
    their list of classes. The [BeautifulSoup] object itself is the root
    node. *)
#[warnings="-register-all"] Inductive node : Type :=
| Text (s : string)
| Elem (tag : string) (id : option string) (classes : list string)
       (children : list node).

(** [n.text], [n.get_text()]: the strings below [n], joined. *)
Fixpoint get_text (n : node) : string :=
  match n with
  | Text s => s
  | Elem _ _ _ children =>
      (fix join (l : list node) : string :=
         match l with
         | [] => EmptyString
         | c :: l' => get_text c +:+ join l'
         end) children
  end.

(** The nodes strictly below [n], in document order. *)
Fixpoint descendants (n : node) : list node :=
  match n with
  | Text _ => []
  | Elem _ _ _ children =>
      (fix walk (l : list node) : list node :=
         match l with
         | [] => []
         | c :: l' => (c :: descendants c) ++ walk l'
         end) children
  end.

Definition mem (x : string) (l : list string) : bool :=
  bool_decide (x ∈ l).

Definition tag_in (tags : list string) (n : node) : bool :=
  match n with
  | Elem tag _ _ _ => mem tag tags
  | Text _ => false
  end.

Definition class_in (names : list string) (n : node) : bool :=
  match n with
  | Elem _ _ classes _ => existsb (λ c, mem c names) classes
  | Text _ => false
  end.

Definition id_is (i : string) (n : node) : bool :=
  match n with
  | Elem _ id _ _ => bool_decide (id = Some i)
  | Text _ => false
  end.

(** [n.find_all(tags, class_=names)] *)
Definition find_all (tags names : list string) (n : node) : list node :=
  filter (λ x, tag_in tags x && class_in names x) (descendants n).

(** [n.find(tags, class_=names)] *)
Definition find (tags names : list string) (n : node) : option node :=
  head (find_all tags names n).

(** [n.find(tag, {'id': i})] *)
Definition find_id (tag i : string) (n : node) : option node :=
  head (filter (λ x, tag_in [tag] x && id_is i x) (descendants n)).

(** A selector group ['t1.c1, t2.c2, ...'] is the list
    [[(t1, c1); (t2, c2); ...]]. *)
Definition css : Type := list (string * string).

Definition selects (sel : css) (n : node) : bool :=
  existsb (λ tc, tag_in [tc.1] n && class_in [tc.2] n) sel.

(** [n.select_one(sel)]: the first node in document order that one of the
    alternatives matches. *)
Definition select_one (sel : css) (n : node) : option node :=
  head (filter (selects sel) (descendants n)).

End Soup.

(** ** Profile records *)

(** The value of a field: a string, or a list of strings. *)
Inductive value : Type :=
| VStr (s : string)
| VList (l : list string).

(** A profile record, the [dict] the extractors build. *)
Abbreviation dict := (gmap string value).

(** ** The outside world and the effects of the module *)

(** Exceptions: [requests.exceptions.RequestException] and its subclasses,
    and every other [Exception]; each carries its message, [str(e)]. *)
Inductive exn : Type :=
| RequestException (msg : string)
| Exception (msg : string).

Definition str (e : exn) : string :=
  match e with
  | RequestException msg => msg
  | Exception msg => msg
  end.

(** What [session.get] returns: the status, the body, and the reason
    phrase and final URL that [raise_for_status] quotes. *)
Record response : Type := Response {
  status_code : nat;
  text : string;
  reason : string;
  final_url : string
}.

(** A [WebElement] of the live page. *)
Definition element : Type := nat.

(** The locator strategies of [By] in use. *)
Inductive locator : Type := TAG_NAME | CSS_SELECTOR.

(** The calls that leave the module. *)
Inductive event : Type :=
| HttpGet (url : string)
| ParseHtml (markup : string)
| ChromeStart
| DriverGet (url : string)
| WaitPresence (timeout : nat) (how : locator) (what : string)
| FindElement (scope : option element) (selector : string)
| FindElements (scope : element) (selector : string)
| ElementText (e : element)
| ExecuteScript (script : string) (e : element)
| SaveScreenshot (filename : string)
| DriverQuit.

Definition history : Type := list event.

(** The answers of the outside world. Each may depend on everything that
    happened before. A browser call either returns or raises an exception
    with the given message; [session_get] may raise either kind. *)
Record world : Type := World {
  session_get : history → string → exn + response;
  html_parser : string → Soup.node;
  chrome_start : history → string + unit;
  driver_get : history → string → string + unit;
  wait_presence : history → nat → locator → string → string + element;
  find_element : history → option element → string → string + element;
  find_elements : history → element → string → string + list element;
  element_text : history → element → string + string;
  execute_script : history → string → element → string + unit;
  save_screenshot : history → string → string + unit;
  driver_quit : history → string + unit
}.

(** Computations: they read and extend the history, and end in a value or
    in an exception. *)
Definition M (A : Type) : Type := history → (exn + A) * history.

#[global] Instance M_ret : MRet M := λ A a h, (inr a, h).

#[global] Instance M_bind : MBind M := λ A B f m h,
  match m h with
  | (inr a, h') => f a h'
  | (inl e, h') => (inl e, h')
  end.

Definition raise {A} (e : exn) : M A := λ h, (inl e, h).

(** [try: m  except Exception as e: handler e] *)
Definition try_except {A} (m : M A) (handler : exn → M A) : M A :=
  λ h, match m h with
       | (inr a, h') => (inr a, h')
       | (inl e, h') => handler e h'
       end.

(** [try: m  finally: cleanup]; an exception of [cleanup] replaces the
    outcome of [m]. *)
Definition try_finally {A} (m : M A) (cleanup : M unit) : M A :=
  λ h, match m h with
       | (r, h') =>
           match cleanup h' with
           | (inr _, h'') => (r, h'')
           | (inl e, h'') => (inl e, h'')
           end
       end.

(** The outcome of [m] as a value. *)
Definition attempt {A} (m : M A) : M (exn + A) :=
  λ h, match m h with (r, h') => (inr r, h') end.

(** [for x in items: acc = body x acc] *)
Fixpoint for_each {A S} (items : list A) (body : A → S → M S) (acc : S) : M S :=
  match items with
  | [] => mret acc
  | x :: rest => acc' ← body x acc; for_each rest body acc'
  end.

(** One call to the outside: the answer is computed from the history, and
    the call is appended to it. *)
Definition call {A} (ev : event) (answer : history → exn + A) : M A :=
  λ h, (answer h, h ++ [ev]).

Definition browser {A} (r : string + A) : exn + A :=
  match r with
  | inl msg => inl (Exception msg)
  | inr a => inr a
  end.

(** ** The extractors *)

Section Extractors.

Variable w : world.

(** *** Calls to the outside *)

(** [create_session()] only configures the client (retries, headers);
    [session.get(url, timeout=30)] is the request. *)
Definition get (url : string) : M response :=
  call (HttpGet url) (λ h, session_get w h url).

Definition BeautifulSoup (markup : string) : M Soup.node :=
  call (ParseHtml markup) (λ _, inr (html_parser w markup)).

Definition Chrome : M unit :=
  call ChromeStart (λ h, browser (chrome_start w h)).

Definition driver_get_url (url : string) : M unit :=
  call (DriverGet url) (λ h, browser (driver_get w h url)).

(** [WebDriverWait(driver, timeout).until(EC.presence_of_element_located((how, what)))] *)
Definition wait_until_present (timeout : nat) (how : locator) (what : string)
    : M element :=
  call (WaitPresence timeout how what)
       (λ h, browser (wait_presence w h timeout how what)).

(** [driver.find_element(By.CSS_SELECTOR, selector)] *)
Definition driver_find_element (selector : string) : M element :=
  call (FindElement None selector) (λ h, browser (find_element w h None selector)).

(** [e.find_element(By.CSS_SELECTOR, selector)] *)
Definition elem_find_element (e : element) (selector : string) : M element :=
  call (FindElement (Some e) selector)
       (λ h, browser (find_element w h (Some e) selector)).

(** [e.find_elements(By.CSS_SELECTOR, selector)] *)
Definition elem_find_elements (e : element) (selector : string)
    : M (list element) :=
  call (FindElements e selector) (λ h, browser (find_elements w h e selector)).

(** [e.text] *)
Definition elem_text (e : element) : M string :=
  call (ElementText e) (λ h, browser (element_text w h e)).

Definition driver_execute_script (script : string) (e : element) : M unit :=
  call (ExecuteScript script e) (λ h, browser (execute_script w h script e)).

Definition driver_save_screenshot (filename : string) : M unit :=
  call (SaveScreenshot filename) (λ h, browser (save_screenshot w h filename)).

Definition quit : M unit :=
  call DriverQuit (λ h, browser (driver_quit w h)).

(** [response.raise_for_status()]: an [HTTPError], which is a
    [RequestException], for a status from 400 to 599. *)
Definition decimal (n : nat) : string :=
  DecimalString.NilZero.string_of_uint (Nat.to_uint n).

Definition raise_for_status (r : response) : M unit :=
  if bool_decide (400 ≤ status_code r < 500) then
    raise (RequestException
             (decimal (status_code r) +:+ " Client Error: " +:+ reason r
              +:+ " for url: " +:+ final_url r))
  else if bool_decide (500 ≤ status_code r < 600) then
    raise (RequestException
             (decimal (status_code r) +:+ " Server Error: " +:+ reason r
              +:+ " for url: " +:+ final_url r))
  else mret ().

(** *** [get_profile_data_with_selenium] *)

(** The click on a "show more" control, when there is one:
    [try: ... except: pass]. *)
Definition click_show_more (selector : string) : M unit :=
  try_except
    (show_more ← driver_find_element selector;
     driver_execute_script "arguments[0].click();" show_more)
    (λ _, mret ()).

(** Lines 218 to 230: the name. *)
Definition extract_name (profile_data : dict) : M dict :=
  try_except
    (name_elem ← wait_until_present 10 CSS_SELECTOR
       "h1.text-heading-xlarge, h1.top-card-layout__title, h1.pv-text-details__left-panel--title";
     t ← elem_text name_elem;
     mret (<["name" := VStr (Py.strip t)]> profile_data))
    (λ _, mret (<["name" := VStr "Not found"]> profile_data)).

(** Lines 232 to 244: the headline. *)
Definition extract_headline (profile_data : dict) : M dict :=
  try_except
    (headline_elem ← wait_until_present 10 CSS_SELECTOR
       "div.text-body-medium, div.pv-text-details__left-panel--subtitle, div.ph5";
     t ← elem_text headline_elem;
     mret (<["headline" := VStr (Py.strip t)]> profile_data))
    (λ _, mret (<["headline" := VStr "Not found"]> profile_data)).

(** Lines 246 to 264: the about section. *)
Definition extract_about (profile_data : dict) : M dict :=
  try_except
    (click_show_more "button.inline-show-more-text__button";;
     about_elem ← driver_find_element
       "div.pv-about-section, div.pv-shared-text-with-see-more";
     t ← elem_text about_elem;
     mret (<["about" := VStr (Py.strip t)]> profile_data))
    (λ _, mret (<["about" := VStr "Not found"]> profile_data)).

(** The text of the first match of [selector] under [item], stripped. *)
Definition sub_text (item : element) (selector : string) : M string :=
  e ← elem_find_element item selector;
  t ← elem_text e;
  mret (Py.strip t).

(** Lines 282 to 298: the body of the loop over the experience items. *)
Definition experience_item (item : element) (experiences : list string)
    : M (list string) :=
  try_except
    (role ← sub_text item "h3.t-16, span.t-bold, span.mr1";
     company ← sub_text item "p.pv-entity__secondary-title, span.t-14";
     mret (experiences ++ [role +:+ " at " +:+ company]))
    (λ _, mret experiences).

(** Lines 266 to 307: the experience section. *)
Definition extract_experience (profile_data : dict) : M dict :=
  try_except
    (experience_section ← driver_find_element
       "section#experience-section, section.experience-section, div#experience";
     driver_execute_script "arguments[0].scrollIntoView();" experience_section;;
     exp_items ← elem_find_elements experience_section
       "li.experience-item, div.pvs-entity--padded";
     experiences ← for_each exp_items experience_item [];
     match experiences with
     | _ :: _ => mret (<["experience" := VList experiences]> profile_data)
     | [] => mret (<["experience" := VList ["No experience information found"]]>
                     profile_data)
     end)
    (λ _, mret (<["experience" := VList ["No experience information found"]]>
                  profile_data)).

(** Lines 317 to 324: the body of the loop over the education items. *)
Definition education_item (item : element) (educations : list string)
    : M (list string) :=
  try_except
    (school ← sub_text item "h3.pv-entity__school-name, span.t-bold";
     degree ← sub_text item "p.pv-entity__secondary-title, span.t-14";
     mret (educations ++ [school +:+ " - " +:+ degree]))
    (λ _, mret educations).

(** Lines 309 to 329: the education section. *)
Definition extract_education (profile_data : dict) : M dict :=
  try_except
    (education_section ← wait_until_present 10 CSS_SELECTOR
       "section#education-section, section.education-section";
     edu_items ← elem_find_elements education_section
       "li.education-item, div.pvs-entity--padded";
     educations ← for_each edu_items education_item [];
     mret (<["education" :=
               VList (match educations with
                      | _ :: _ => educations
                      | [] => ["No education information found"]
                      end)]> profile_data))
    (λ _, mret (<["education" := VList ["No education information found"]]>
                  profile_data)).

(** Lines 355 to 362: the body of the loop over the skill items. *)
Definition skill_item (item : element) (skills : list string)
    : M (list string) :=
  try_except
    (t ← elem_text item;
     let skill := Py.strip t in
     mret (if Py.truthy skill then skills ++ [skill] else skills))
    (λ _, mret skills).

(** Lines 331 to 371: the skills. *)
Definition extract_skills (profile_data : dict) : M dict :=
  try_except
    (click_show_more "button.pv-skills-section__additional-skills";;
     skills_section ← driver_find_element
       "section.pv-skill-categories-section, div#skills";
     driver_execute_script "arguments[0].scrollIntoView();" skills_section;;
     skill_items ← elem_find_elements skills_section
       "span.pv-skill-category-entity__name-text, div.pv-skill-card";
     skills ← for_each skill_items skill_item [];
     match skills with
     | _ :: _ => mret (<["skills" := VList skills]> profile_data)
     | [] => mret (<["skills" := VList ["No skills information found"]]>
                     profile_data)
     end)
    (λ _, mret (<["skills" := VList ["No skills information found"]]>
                  profile_data)).

(** Lines 388 to 402: the body of the loop over the language items. *)
Definition language_item (item : element) (languages : list string)
    : M (list string) :=
  try_except
    (language ← sub_text item "h3, span.t-bold";
     proficiency ← try_except
       (sub_text item "p.pv-entity__secondary-title, span.t-14")
       (λ _, mret "Proficiency not specified");
     mret (languages ++ [language +:+ " - " +:+ proficiency]))
    (λ _, mret languages).

(** Lines 373 to 409: the languages, which are optional: no placeholder. *)
Definition extract_languages (profile_data : dict) : M dict :=
  try_except
    (languages_section ← driver_find_element
       "section#languages-section, div.languages-section";
     driver_execute_script "arguments[0].scrollIntoView();" languages_section;;
     lang_items ← elem_find_elements languages_section
       "li.language-entity, div.pvs-entity--padded";
     languages ← for_each lang_items language_item [];
     match languages with
     | _ :: _ => mret (<["languages" := VList languages]> profile_data)
     | [] => mret profile_data
     end)
    (λ _, mret profile_data).

(** Lines 206 to 415: the body of the outer [try], after the browser has
    started. *)
Definition browse (url : string) : M dict :=
  driver_get_url url;;
  wait_until_present 30 TAG_NAME "body";;
  profile_data ← extract_name ∅;
  profile_data ← extract_headline profile_data;
  profile_data ← extract_about profile_data;
  profile_data ← extract_experience profile_data;
  profile_data ← extract_education profile_data;
  profile_data ← extract_skills profile_data;
  profile_data ← extract_languages profile_data;
  driver_save_screenshot "linkedin_profile_screenshot.png";;
  mret profile_data.

(** Lines 417 to 425: the record of the outer [except Exception as e]. *)
Definition error_record (e : exn) : dict :=
  <["name" := VStr "Error retrieving profile"]>
  (<["headline" := VStr ("Error: " +:+ str e)]>
  (<["experience" := VList ["Unable to retrieve experience information"]]>
  (<["education" := VList ["Unable to retrieve education information"]]>
  (<["skills" := VList ["Unable to retrieve skills information"]]> ∅)))).

(** The options of the browser (headless, a user agent drawn from a fixed
    list) are set before the [try]; they only decide how the browser
    starts, which is the oracle's answer to [Chrome].

    When [webdriver.Chrome] itself raises, [driver] is unbound: the
    [finally] clause's [driver.quit()] raises a [NameError], which its bare
    [except] swallows, and no call reaches the browser. *)
Definition get_profile_data_with_selenium (url : string) : M dict :=
  started ← attempt Chrome;
  match started with
  | inl e => mret (error_record e)
  | inr _ =>
      try_finally
        (try_except (browse url) (λ e, mret (error_record e)))
        (try_except quit (λ _, mret ()))
  end.

(** *** [extract_profile_data]

    The module defines [extract_profile_data] twice. The second definition
    is the one the name is bound to when [scrape_linkedin_profile] runs;
    the first one, which also reads the experience section, is kept in
    [Shadowed]. What the two share is defined once. *)

Definition error_indicators : list string :=
  ["captcha"; "please verify"; "interrupted"; "unavailable"].

(** [for indicator in error_indicators: if indicator in page_text: raise ...] *)
Fixpoint check_indicators (indicators : list string) (page_text : string)
    : M unit :=
  match indicators with
  | [] => mret ()
  | indicator :: rest =>
      if Py.contains indicator page_text
      then raise (Exception ("Access restricted: " +:+ indicator
                             +:+ " check required"))
      else check_indicators rest page_text
  end.

Definition name_selectors : list Soup.css :=
  [ [("h1", "text-heading-xlarge")];
    [("h1", "top-card-layout__title")];
    [("h1", "basic-info__name")] ].

(** Lines 479 to 488 (and 109 to 118): the loop over the name selectors,
    with its flag [name_found]. *)
Fixpoint name_loop (selectors : list Soup.css) (soup : Soup.node)
    (name_found : bool) (profile_data : dict) : bool * dict :=
  match selectors with
  | [] => (name_found, profile_data)
  | selector :: rest =>
      if name_found then (name_found, profile_data)
      else
        match Soup.select_one selector soup with
        | Some name_elem =>
            if Py.truthy (Py.strip (Soup.get_text name_elem))
            then name_loop rest soup true
                   (<["name" := VStr (Py.strip (Soup.get_text name_elem))]>
                      profile_data)
            else name_loop rest soup name_found profile_data
        | None => name_loop rest soup name_found profile_data
        end
  end.

(** The record after the loop. *)
Definition static_name (soup : Soup.node) (profile_data : dict) : dict :=
  (name_loop name_selectors soup false profile_data).2.

(** Lines 490 to 494 (and 120 to 124): the headline. *)
Definition static_headline (soup : Soup.node) (profile_data : dict) : dict :=
  match Soup.select_one
          [("div", "text-body-medium"); ("h2", "top-card-layout__headline");
           ("div", "basic-info__headline")] soup with
  | Some headline_elem =>
      <["headline" := VStr (Py.strip (Soup.get_text headline_elem))]> profile_data
  | None => profile_data
  end.

(** Lines 496 to 500 (and 126 to 130): the about section. *)
Definition static_about (soup : Soup.node) (profile_data : dict) : dict :=
  match Soup.select_one
          [("div", "about-section"); ("div", "summary-section")] soup with
  | Some about_elem =>
      <["about" := VStr (Py.strip (Soup.get_text about_elem))]> profile_data
  | None => profile_data
  end.

(** The two [except] clauses that close both definitions. *)
Definition reraise (e : exn) : M dict :=
  match e with
  | RequestException msg => raise (Exception ("Failed to access profile: " +:+ msg))
  | Exception msg => raise (Exception msg)
  end.

End Extractors.

Module Shadowed.
Section FirstDefinition.

Variable w : world.

(** Lines 140 to 147: [for item in exp_items: ...]. A tag is always true,
    so [role and company] asks that both were found. *)
Fixpoint experience_loop (exp_items : list Soup.node)
    (experiences : list string) : list string :=
  match exp_items with
  | [] => experiences
  | item :: rest =>
      let role := Soup.find ["h3"; "span"] ["title"; "t-bold"] item in
      let company := Soup.find ["p"; "span"] ["company"; "t-normal"] item in
      match role, company with
      | Some role, Some company =>
          experience_loop rest
            (experiences ++ [Py.strip (Soup.get_text role) +:+ " at "
                             +:+ Py.strip (Soup.get_text company)])
      | _, _ => experience_loop rest experiences
      end
  end.

(** Lines 133 and 134: [soup.find(...) or soup.find(...)]. *)
Definition find_experience_section (soup : Soup.node) : option Soup.node :=
  match Soup.find_id "section" "experience-section" soup with
  | Some s => Some s
  | None => Soup.find ["div"] ["experience-section"] soup
  end.

(** Line 138. *)
Definition exp_items_of (experience_section : Soup.node) : list Soup.node :=
  Soup.find_all ["li"; "div"] ["experience-item"; "position-item"]
    experience_section.

(** Lines 132 to 150: the experience section. *)
Definition static_experience (soup : Soup.node) (profile_data : dict) : dict :=
  match find_experience_section soup with
  | Some experience_section =>
      match experience_loop (exp_items_of experience_section) [] with
      | [] => profile_data
      | experiences => <["experience" := VList experiences]> profile_data
      end
  | None => profile_data
  end.

(** The first definition (lines 62 to 164). *)
Definition extract_profile_data (url : string) : M dict :=
  try_except
    (response ← get w url;
     if bool_decide (status_code response = 999)
     then get_profile_data_with_selenium w url
     else
       raise_for_status response;;
       let content_length := Py.len (text response) in
       if bool_decide (content_length < 1000)
       then raise (Exception "Invalid response content")
       else
         soup ← BeautifulSoup w (text response);
         let page_text := Py.lower (Soup.get_text soup) in
         check_indicators error_indicators page_text;;
         let profile_data := static_name soup ∅ in
         let profile_data := static_headline soup profile_data in
         let profile_data := static_about soup profile_data in
         let profile_data := static_experience soup profile_data in
         if bool_decide (profile_data = ∅)
         then raise (Exception "Failed to extract any profile data")
         else mret profile_data)
    reraise.

End FirstDefinition.
End Shadowed.

(** The second definition (lines 432 to 516), the one in force. *)
Definition extract_profile_data (w : world) (url : string) : M dict :=
  try_except
    (response ← get w url;
     if bool_decide (status_code response = 999)
     then get_profile_data_with_selenium w url
     else
       raise_for_status response;;
       let content_length := Py.len (text response) in
       if bool_decide (content_length < 1000)
       then raise (Exception "Invalid response content")
       else
         soup ← BeautifulSoup w (text response);
         let page_text := Py.lower (Soup.get_text soup) in
         check_indicators error_indicators page_text;;
         let profile_data := static_name soup ∅ in
         let profile_data := static_headline soup profile_data in
         let profile_data := static_about soup profile_data in
         if bool_decide (profile_data = ∅)
         then raise (Exception "Failed to extract any profile data")
         else mret profile_data)
    reraise.

(** ** [scrape_linkedin_profile] *)

Module Orchestrator.
Section Bindings.

(** What the names [get_profile_data_with_selenium] and
    [extract_profile_data] are bound to when the function runs. *)
Variable get_profile_data_with_selenium extract_profile_data : string → M dict.

Definition scrape_linkedin_profile (url : string) : M dict :=
  if negb (is_valid_linkedin_url url)
  then raise (Exception "Invalid LinkedIn profile URL")
  else
    try_except (get_profile_data_with_selenium url)
      (λ e,
         try_except (extract_profile_data url)
           (λ fallback_error,
              raise (Exception ("Failed to extract profile data: " +:+ str e)))).

End Bindings.
End Orchestrator.

(** The function with the module's own two extractors. *)
Definition scrape_linkedin_profile (w : world) (url : string) : M dict :=
  Orchestrator.scrape_linkedin_profile
    (get_profile_data_with_selenium w) (extract_profile_data w) url.

(** ** Properties in the words of the specification *)

(** A present field is non-empty: a non-empty string, or a non-empty list of
    strings. *)
Definition nonempty_value (v : value) : Prop :=
  match v with
  | VStr s => s ≠ ""
  | VList l => l ≠ []
  end.

(** A list-valued field is a non-empty list of non-empty strings; nothing
    is asked of a string. *)
Definition list_value_ok (v : value) : Prop :=
  match v with
  | VStr _ => True
  | VList l => l ≠ [] ∧ Forall (λ s, s ≠ "") l
  end.

(** What a name selector yields: the trimmed text of its first match, when
    that text is not empty. *)
Definition yields (soup : Soup.node) (selector : Soup.css) : option string :=
  match Soup.select_one selector soup with
  | Some name_elem =>
      if Py.truthy (Py.strip (Soup.get_text name_elem))
      then Some (Py.strip (Soup.get_text name_elem))
      else None
  | None => None
  end.

(** The first selector, in priority order, that yields something. *)
Definition first_yield (soup : Soup.node) (selectors : list Soup.css)
    : option string :=
  head (omap (yields soup) selectors).

(** An experience item is complete when it has both sub-elements. *)
Definition role_of (item : Soup.node) : option Soup.node :=
  Soup.find ["h3"; "span"] ["title"; "t-bold"] item.

Definition company_of (item : Soup.node) : option Soup.node :=
  Soup.find ["p"; "span"] ["company"; "t-normal"] item.

Definition complete (item : Soup.node) : bool :=
  bool_decide (is_Some (role_of item) ∧ is_Some (company_of item)).

(** An item with a role element and no company element. *)
Definition lacks_company (item : Soup.node) : bool :=
  bool_decide (is_Some (role_of item) ∧ company_of item = None).

Definition experience_entry (item : Soup.node) : option string :=
  match role_of item, company_of item with
  | Some role, Some company =>
      Some (Py.strip (Soup.get_text role) +:+ " at "
            +:+ Py.strip (Soup.get_text company))
  | _, _ => None
  end.

(** A character other than the newline. *)
Definition not_newline (c : ascii) : bool :=
  negb (bool_decide (c = "010"%char)).

(** The calls that go to the browser. *)
Definition browser_event (ev : event) : Prop :=
  match ev with
  | HttpGet _ | ParseHtml _ => False
  | _ => True
  end.

(** The five keys of the degraded record. *)
Definition core_keys : list string :=
  ["name"; "headline"; "experience"; "education"; "skills"].

Definition has_core_keys (d : dict) : Prop :=
  Forall (λ k, is_Some (d !! k)) core_keys.

Definition skills_selector : string :=
  "section.pv-skill-categories-section, div#skills".

Definition name_selector : string :=
  "h1.text-heading-xlarge, h1.top-card-layout__title, h1.pv-text-details__left-panel--title".

Definition headline_selector : string :=
  "div.text-body-medium, div.pv-text-details__left-panel--subtitle, div.ph5".

Definition about_selector : string :=
  "div.pv-about-section, div.pv-shared-text-with-see-more".

(** ** Sample worlds *)

Module Samples.

(** No browser can be started and the network is down. *)
Definition offline : world := {|
  session_get := λ _ _, inl (RequestException "Connection refused");
  html_parser := λ _, Soup.Elem "[document]" None [] [];
  chrome_start := λ _, inl "Message: chromedriver not found";
  driver_get := λ _ _, inl "Message: no session";
  wait_presence := λ _ _ _ _, inl "Message: timeout";
  find_element := λ _ _ _, inl "Message: no such element";
  find_elements := λ _ _ _, inl "Message: no session";
  element_text := λ _ _, inl "Message: no session";
  execute_script := λ _ _ _, inl "Message: no session";
  save_screenshot := λ _ _, inl "Message: no session";
  driver_quit := λ _, inl "Message: no session"
|}.

(** The browser works and shows a page with a body and nothing else; the
    screenshot is taken or not. *)
Definition empty_page (screenshot : string + unit) : world := {|
  session_get := λ _ _, inl (RequestException "Connection refused");
  html_parser := λ _, Soup.Elem "[document]" None [] [];
  chrome_start := λ _, inr ();
  driver_get := λ _ _, inr ();
  wait_presence := λ _ _ how _,
    match how with
    | TAG_NAME => inr 0
    | CSS_SELECTOR => inl "Message: timeout"
    end;
  find_element := λ _ _ _, inl "Message: no such element";
  find_elements := λ _ _ _, inr [];
  element_text := λ _ _, inr "";
  execute_script := λ _ _ _, inr ();
  save_screenshot := λ _ _, screenshot;
  driver_quit := λ _, inr ()
|}.

(** The fetch answers [r], whose body parses to [doc]; the browser is as in
    [empty_page]. *)
Definition fetched (r : response) (doc : Soup.node) : world := {|
  session_get := λ _ _, inr r;
  html_parser := λ _, doc;
  chrome_start := λ _, inr ();
  driver_get := λ _ _, inr ();
  wait_presence := λ _ _ how _,
    match how with
    | TAG_NAME => inr 0
    | CSS_SELECTOR => inl "Message: timeout"
    end;
  find_element := λ _ _ _, inl "Message: no such element";
  find_elements := λ _ _ _, inr [];
  element_text := λ _ _, inr "";
  execute_script := λ _ _ _, inr ();
  save_screenshot := λ _ _, inr ();
  driver_quit := λ _, inr ()
|}.

Fixpoint spaces (n : nat) : string :=
  match n with
  | 0 => EmptyString
  | S n' => String " "%char (spaces n')
  end.

Definition document (children : list Soup.node) : Soup.node :=
  Soup.Elem "[document]" None [] children.

Definition url : string := "https://www.linkedin.com/in/john-doe".

(** A page of more than 1000 characters with a name, a headline and an
    experience section of three items: a complete one, one without a
    company, and a complete one. *)
Definition profile_markup : string :=
  "<h1 class='text-heading-xlarge'> Ada Lovelace </h1>"
  +:+ "<div class='text-body-medium'>Analyst</div>"
  +:+ "<section id='experience-section'>"
  +:+ "<li class='experience-item'><h3 class='title'>Engineer</h3><p class='company'>Acme</p></li>"
  +:+ "<li class='experience-item'><h3 class='title'>Intern</h3></li>"
  +:+ "<li class='experience-item'><h3 class='title'>Clerk</h3><p class='company'>Bank</p></li>"
  +:+ "</section>" +:+ spaces 1000.

Definition item (role : string) (company : option string) : Soup.node :=
  Soup.Elem "li" None ["experience-item"]
    (Soup.Elem "h3" None ["title"] [Soup.Text role]
     :: match company with
        | Some c => [Soup.Elem "p" None ["company"] [Soup.Text c]]
        | None => []
        end).

Definition profile_doc : Soup.node :=
  document
    [ Soup.Elem "h1" None ["text-heading-xlarge"] [Soup.Text " Ada Lovelace "];
      Soup.Elem "div" None ["text-body-medium"] [Soup.Text "Analyst"];
      Soup.Elem "section" (Some "experience-section") []
        [ item "Engineer" (Some "Acme"); item "Intern" None;
          item "Clerk" (Some "Bank") ];
      Soup.Text (spaces 1000) ].

Definition profile_world : world :=
  fetched (Response 200 profile_markup "OK" url) profile_doc.

(** A short page. *)
Definition short_world : world :=
  fetched (Response 200 "<h1 class='text-heading-xlarge'>Ada</h1>" "OK" url)
    (document [Soup.Elem "h1" None ["text-heading-xlarge"] [Soup.Text "Ada"]]).

(** A long page that asks the visitor to verify, around a full name. *)
Definition verify_markup : string :=
  "<h1 class='text-heading-xlarge'>Ada</h1><p>Please Verify you are human</p>"
  +:+ spaces 1000.

Definition verify_doc : Soup.node :=
  document
    [ Soup.Elem "h1" None ["text-heading-xlarge"] [Soup.Text "Ada"];
      Soup.Elem "p" None [] [Soup.Text "Please Verify you are human"];
      Soup.Text (spaces 1000) ].

Definition verify_world : world :=
  fetched (Response 200 verify_markup "OK" url) verify_doc.

(** A long page whose headline element is empty. *)
Definition empty_headline_markup : string :=
  "<div class='text-body-medium'></div>" +:+ spaces 1000.

Definition empty_headline_doc : Soup.node :=
  document
    [ Soup.Elem "div" None ["text-body-medium"] []; Soup.Text (spaces 1000) ].

Definition empty_headline_world : world :=
  fetched (Response 200 empty_headline_markup "OK" url) empty_headline_doc.

(** The browser shows an empty page and is gone when the screenshot is
    asked for. *)
Definition session_lost : world :=
  empty_page (inl "Message: invalid session id").

(** The browser shows an empty page and stays. *)
Definition empty_world : world := empty_page (inr ()).

(** The anti-bot answer. *)
Definition blocked_world : world :=
  fetched (Response 999 "" "Request denied" url) (document []).

(** Two extractors that fail. *)
Definition failing_browser : string → M dict :=
  λ _, raise (Exception "chrome crashed").

Definition failing_static : string → M dict :=
  λ _, raise (Exception "Invalid response content").

End Samples.

(** ** What the browser-driven extractor returns *)

(** The browser cannot find [selector] on the page, whenever it is asked. *)
Definition cannot_find (w : world) (selector : string) : Prop :=
  ∀ h, ∃ msg, find_element w h None selector = inl msg.

(** The bounded wait for [selector] times out, whenever it is tried. *)
Definition never_appears (w : world) (selector : string) : Prop :=
  ∀ h, ∃ msg, wait_presence w h 10 CSS_SELECTOR selector = inl msg.

Definition ok_list (l : list string) : Prop :=
  l ≠ [] ∧ Forall (λ s, s ≠ "") l.

(** The values the field steps of a completed run have set. *)
Record fields : Type := Fields {
  f_name : string;
  f_headline : string;
  f_about : string;
  f_experience : list string;
  f_education : list string;
  f_skills : list string;
  f_languages : option (list string)
}.

Definition record_of (f : fields) : dict :=
  let d :=
    <["skills" := VList (f_skills f)]>
    (<["education" := VList (f_education f)]>
    (<["experience" := VList (f_experience f)]>
    (<["about" := VStr (f_about f)]>
    (<["headline" := VStr (f_headline f)]>
    (<["name" := VStr (f_name f)]> ∅))))) in
  match f_languages f with
  | Some l => <["languages" := VList l]> d
  | None => d
  end.

Definition lists_ok (f : fields) : Prop :=
  ok_list (f_experience f) ∧ ok_list (f_education f) ∧ ok_list (f_skills f) ∧
  match f_languages f with Some l => ok_list l | None => True end.

(** The placeholder policy: a field that cannot be located holds its
    placeholder. *)
Definition placeholders (w : world) (f : fields) : Prop :=
  (never_appears w name_selector → f_name f = "Not found") ∧
  (never_appears w headline_selector → f_headline f = "Not found") ∧
  (cannot_find w about_selector → f_about f = "Not found") ∧
  (cannot_find w skills_selector → f_skills f = ["No skills information found"]).

(** A record of a completed run. *)
Definition completed (w : world) (d : dict) : Prop :=
  ∃ f, d = record_of f ∧ lists_ok f ∧ placeholders w f.

(** The degraded record. *)
Definition degraded (d : dict) : Prop := ∃ e, d = error_record e.

(** None of the steps outside the per-field handlers fails: the browser
    starts, the page loads, its body appears and the screenshot is taken. *)
Definition runs_through (w : world) : Prop :=
  (∀ h, chrome_start w h = inr ()) ∧
  (∀ h url, driver_get w h url = inr ()) ∧
  (∀ h, ∃ e, wait_presence w h 30 TAG_NAME "body" = inr e) ∧
  (∀ h filename, save_screenshot w h filename = inr ()).

(** ** The page ([main.py], lines 37 to 164)

    The script runs top to bottom each time the visitor submits the form.
    What it does with the submitted [url] is modelled: the calls it makes
    to Streamlit, in order, and the calls that leave through
    [scrape_linkedin_profile]. The title, the notes above and below the
    form and the style sheet do not depend on [url] and are left out.
    Texts of the page are kept as their UTF-8 bytes. The Streamlit and
    pandas calls are taken to return. *)

Module Main.

(** One call to Streamlit. [st_markdown] takes the object it is given: a
    string, or the field itself. *)
Inductive widget : Type :=
| st_error (body : string)
| st_info (body : string)
| st_success (body : string)
| st_markdown (body : value)
| st_subheader (body : string)
| st_spinner (text : string)
| st_progress (value : nat)
| st_empty
| progress_bar_progress (value : nat)
| progress_text_text (body : string)
| progress_bar_empty
| progress_text_empty
| st_expander (label : string) (expanded : bool)
| st_columns (spec : nat)
| st_download_button (label data file_name mime help : string).

(** [for x in v]: the entries of a list, the characters of a string. *)
Fixpoint chars (s : string) : list string :=
  match s with
  | String c t => String c EmptyString :: chars t
  | EmptyString => []
  end.

Definition iterate (v : value) : list string :=
  match v with
  | VList l => l
  | VStr s => chars s
  end.

Definition nl : string := String "010"%char EmptyString.

Definition indent : string := "            ".

(** The text of lines 160 to 166. *)
Definition troubleshooting : string :=
  nl +:+ indent +:+ "**Troubleshooting Tips:**"
  +:+ nl +:+ indent +:+ "- Verify that the profile is public and accessible"
  +:+ nl +:+ indent +:+ "- Double-check the URL format"
  +:+ nl +:+ indent +:+ "- Try again in a few minutes"
  +:+ nl +:+ indent +:+ "- If the issue persists, try a different profile"
  +:+ nl +:+ indent.

(** Lines 144 to 166: [except Exception as e]. *)
Definition on_error (e : exn) : list widget :=
  let error_message := Py.lower (str e) in
  [ if Py.contains "rate limit" error_message then
      st_error "⚠️ LinkedIn is temporarily blocking requests. Please try again in a few minutes."
    else if Py.contains "private" error_message then
      st_error "🔒 This profile appears to be private or requires authentication."
    else if Py.contains "not found" error_message then
      st_error "❌ Profile not found. Please check if the URL is correct."
    else if Py.contains "access denied" error_message then
      st_error "🚫 Unable to access the profile. LinkedIn may be blocking automated access."
    else
      st_error ("❌ An error occurred: " +:+ str e);
    st_info troubleshooting ].

Section Page.

(** [str(l)] of a list, as an f-string formats it, and the two exports of
    the one-row data frame: [pd.DataFrame([profile_data]).to_csv(index=False)]
    and [.to_json(orient='records')]. *)
Variable repr_list : list string → string.
Variables to_csv to_json : dict → string.

(** [f"{v}"] *)
Definition format (v : value) : string :=
  match v with
  | VStr s => s
  | VList l => repr_list l
  end.

(** Lines 97 to 117: one of the three list sections. *)
Definition list_section (label key missing : string) (profile_data : dict)
    : list widget :=
  st_expander label true
  :: match profile_data !! key with
     | Some v => (λ x, st_markdown (VStr ("• " +:+ x))) <$> iterate v
     | None => [st_info missing]
     end.

(** Lines 79 to 95: the basic information, in two columns. *)
Definition basic_information (profile_data : dict) : list widget :=
  [st_expander "📋 Basic Information" true; st_columns 2]
  ++ match profile_data !! "name" with
     | Some v => [st_markdown (VStr ("### " +:+ format v))]
     | None => []
     end
  ++ match profile_data !! "headline" with
     | Some v => [st_markdown (VStr ("**" +:+ format v +:+ "**"))]
     | None => []
     end
  ++ match profile_data !! "about" with
     | Some v => [st_markdown (VStr "### About"); st_markdown v]
     | None => []
     end
  ++ match profile_data !! "languages" with
     | Some v =>
         st_markdown (VStr "### Languages")
         :: ((λ lang, st_markdown (VStr ("• " +:+ lang))) <$> iterate v)
     | None => []
     end.

(** Lines 118 to 143: the export. *)
Definition export_options (profile_data : dict) : list widget :=
  [ st_markdown (VStr "---");
    st_subheader "📥 Export Options";
    st_columns 2;
    st_download_button "Download as CSV" (to_csv profile_data)
      "linkedin_profile.csv" "text/csv"
      "Download the profile data in CSV format";
    st_download_button "Download as JSON" (to_json profile_data)
      "linkedin_profile.json" "application/json"
      "Download the profile data in JSON format" ].

(** Lines 75 to 143: [if profile_data: ...]. *)
Definition show_profile (profile_data : dict) : list widget :=
  if bool_decide (profile_data = ∅) then []
  else
    st_success "✅ Profile data retrieved successfully!"
    :: basic_information profile_data
    ++ list_section "💼 Professional Experience" "experience"
         "No experience information found" profile_data
    ++ list_section "🎓 Education" "education"
         "No education information found" profile_data
    ++ list_section "🔧 Skills" "skills"
         "No skills information found" profile_data
    ++ export_options profile_data.

(** Lines 44 to 58: the spinner and the progress up to the scraping. *)
Definition before_scraping : list widget :=
  [ st_spinner "Fetching profile data... Please wait while we process your request.";
    st_progress 0; st_empty;
    progress_text_text "Initializing scraper..."; progress_bar_progress 10;
    progress_text_text "Requesting profile data..."; progress_bar_progress 30 ].

(** Lines 63 to 73: the progress after it. *)
Definition after_scraping : list widget :=
  [ progress_text_text "Processing extracted data..."; progress_bar_progress 70;
    progress_text_text "Finalizing results..."; progress_bar_progress 100;
    progress_bar_empty; progress_text_empty ].

(** Lines 37 to 164, over the binding of [scrape_linkedin_profile]: the
    widgets shown, and the history the scraping leaves. *)
Definition page_with (scrape : string → M dict) (url : string) (h : history)
    : list widget * history :=
  if Py.truthy url then
    if negb (is_valid_linkedin_url url) then
      ([ st_error "Please enter a valid LinkedIn profile URL (e.g., https://www.linkedin.com/in/username)";
         st_info "Make sure the URL follows the correct format and points to a LinkedIn profile." ],
       h)
    else
      match scrape url h with
      | (inr profile_data, h') =>
          (before_scraping ++ after_scraping ++ show_profile profile_data, h')
      | (inl e, h') => (before_scraping ++ on_error e, h')
      end
  else ([], h).

(** The page with the function [utils.py] exports. *)
Definition page (w : world) : string → history → list widget * history :=
  page_with (scrape_linkedin_profile w).

End Page.

Definition is_error (x : widget) : Prop :=
  match x with st_error _ => True | _ => False end.

Definition is_info (x : widget) : Prop :=
  match x with st_info _ => True | _ => False end.

End Main.

(** ** More to state properties with *)

(** The calls made on the page of a running browser: all the calls of the
    browser but its start and its end. *)
Definition page_event (ev : event) : Prop :=
  match ev with
  | HttpGet _ | ParseHtml _ | ChromeStart | DriverQuit => False
  | _ => True
  end.

Definition languages_selector : string :=
  "section#languages-section, div.languages-section".

Definition experience_selector : string :=
  "section#experience-section, section.experience-section, div#experience".

Definition experience_items_selector : string :=
  "li.experience-item, div.pvs-entity--padded".

Definition role_selector : string := "h3.t-16, span.t-bold, span.mr1".

Definition company_selector : string :=
  "p.pv-entity__secondary-title, span.t-14".

Definition skill_items_selector : string :=
  "span.pv-skill-category-entity__name-text, div.pv-skill-card".

Definition scroll_into_view : string := "arguments[0].scrollIntoView();".

(** A list field as the browser-driven extractor stores it: the entries,
    or the placeholder when there is none. *)
Definition or_placeholder (entries : list string) (placeholder : string)
    : list string :=
  match entries with
  | [] => [placeholder]
  | _ :: _ => entries
  end.

(** The seven fields of a profile record. *)
Definition recognized_keys : list string :=
  ["name"; "headline"; "about"; "experience"; "education"; "skills";
   "languages"].

(** The record of the static extractor in force, from a parsed page. *)
Definition static_record (soup : Soup.node) : dict :=
  static_about soup (static_headline soup (static_name soup ∅)).

Definition headline_css : Soup.css :=
  [("div", "text-body-medium"); ("h2", "top-card-layout__headline");
   ("div", "basic-info__headline")].

Definition about_css : Soup.css :=
  [("div", "about-section"); ("div", "summary-section")].

(** The message [raise_for_status] gives for an error status. *)
Definition http_error_message (r : response) : string :=
  decimal (status_code r)
  +:+ (if bool_decide (status_code r < 500)
       then " Client Error: " else " Server Error: ")
  +:+ reason r +:+ " for url: " +:+ final_url r.

Module MoreSamples.

Definition ada : dict := <["name" := VStr "Ada Lovelace"]> ∅.

(** A static extractor that succeeds. *)
Definition working_static : string → M dict := λ _, mret ada.

(** A page that is long enough and has none of the fields. *)
Definition bare_world : world :=
  Samples.fetched
    (Response 200 (Samples.spaces 1000) "OK" Samples.url)
    (Samples.document [Soup.Text (Samples.spaces 1000)]).

(** The profile is gone. *)
Definition missing_world : world :=
  Samples.fetched
    (Response 404 EmptyString "Not Found" Samples.url)
    (Samples.document []).

(** The texts of the elements of [live_world]. *)
Definition live_text (e : element) : string :=
  if decide (e = 1) then " Ada Lovelace "
  else if decide (e = 2) then "Analyst "
  else if decide (e = 31) then " Mathematics"
  else if decide (e = 32) then "  "
  else if decide (e = 33) then "Engines"
  else if decide (e = 51) then "Engineer "
  else if decide (e = 61) then " Acme"
  else if decide (e = 52) then "Clerk"
  else if decide (e = 62) then "Bank"
  else EmptyString.

(** A page in the browser with a name (element 1), a headline (element
    2), a skills section (element 3) with three items (a skill, a blank
    one and a skill) and an experience section (element 4) with two
    items, whose roles and companies are the elements 10 and 20 above
    the item. *)
Definition live_world : world := {|
  session_get := λ _ _, inl (RequestException "Connection refused");
  html_parser := λ _, Soup.Elem "[document]" None [] [];
  chrome_start := λ _, inr ();
  driver_get := λ _ _, inr ();
  wait_presence := λ _ _ how what,
    match how with
    | TAG_NAME => inr 0
    | CSS_SELECTOR =>
        if decide (what = name_selector) then inr 1
        else if decide (what = headline_selector) then inr 2
        else inl "Message: timeout"
    end;
  find_element := λ _ scope selector,
    match scope with
    | None =>
        if decide (selector = skills_selector) then inr 3
        else if decide
                  (selector = "section#experience-section, section.experience-section, div#experience")
        then inr 4
        else inl "Message: no such element"
    | Some item =>
        if decide (selector = "h3.t-16, span.t-bold, span.mr1")
        then inr (item + 10)
        else inr (item + 20)
    end;
  find_elements := λ _ e _,
    if decide (e = 3) then inr [31; 32; 33]
    else if decide (e = 4) then inr [41; 42]
    else inr [];
  element_text := λ _ e, inr (live_text e);
  execute_script := λ _ _ _, inr ();
  save_screenshot := λ _ _, inr ();
  driver_quit := λ _, inr ()
|}.

(** A page on which every lookup made right at the start would succeed,
    and every later one fails. *)
Definition late_world : world := {|
  session_get := λ _ _, inl (RequestException "Connection refused");
  html_parser := λ _, Soup.Elem "[document]" None [] [];
  chrome_start := λ _, inr ();
  driver_get := λ _ _, inr ();
  wait_presence := λ h _ how _,
    match how, h with
    | TAG_NAME, _ => inr 0
    | CSS_SELECTOR, [] => inr 1
    | CSS_SELECTOR, _ :: _ => inl "Message: timeout"
    end;
  find_element := λ h _ _,
    match h with
    | [] => inr 2
    | _ :: _ => inl "Message: no such element"
    end;
  find_elements := λ _ _ _, inr [];
  element_text := λ _ _, inr "";
  execute_script := λ _ _ _, inr ();
  save_screenshot := λ _ _, inr ();
  driver_quit := λ _, inr ()
|}.

(** A long page whose [h1.text-heading-xlarge] is blank and which has the
    two other name elements. *)
Definition second_name_markup : string :=
  "<h1 class='text-heading-xlarge'>   </h1>"
  +:+ "<h1 class='top-card-layout__title'> Grace Hopper </h1>"
  +:+ "<h1 class='basic-info__name'>G. Hopper</h1>" +:+ Samples.spaces 1000.

Definition second_name_doc : Soup.node :=
  Samples.document
    [ Soup.Elem "h1" None ["text-heading-xlarge"] [Soup.Text "   "];
      Soup.Elem "h1" None ["top-card-layout__title"]
        [Soup.Text " Grace Hopper "];
      Soup.Elem "h1" None ["basic-info__name"] [Soup.Text "G. Hopper"];
      Soup.Text (Samples.spaces 1000) ].

Definition second_name_world : world :=
  Samples.fetched (Response 200 second_name_markup "OK" Samples.url)
    second_name_doc.

(** The record of the browser-driven extractor on [live_world]. *)
Definition live_record : dict :=
  <["skills" := VList ["Mathematics"; "Engines"]]>
  (<["education" := VList ["No education information found"]]>
  (<["experience" := VList ["Engineer at Acme"; "Clerk at Bank"]]>
  (<["about" := VStr "Not found"]>
  (<["headline" := VStr "Analyst"]>
  (<["name" := VStr "Ada Lovelace"]> ∅))))).

(** Its record on an empty page. *)
Definition empty_record : dict :=
  <["skills" := VList ["No skills information found"]]>
  (<["education" := VList ["No education information found"]]>
  (<["experience" := VList ["No experience information found"]]>
  (<["about" := VStr "Not found"]>
  (<["headline" := VStr "Not found"]>
  (<["name" := VStr "Not found"]> ∅))))).

(** The record of the static extractor on [profile_world]. *)
Definition static_profile_record : dict :=
  <["headline" := VStr "Analyst"]> (<["name" := VStr "Ada Lovelace"]> ∅).

Definition repr_list : list string → string := λ _, "[...]".

Definition to_csv : dict → string := λ _, "csv".

Definition to_json : dict → string := λ _, "json".

End MoreSamples.

(** ** The name, in the words of the specification *)

(** White space: the code points below 256 that Python's [str.strip]
    removes (tab, line feed, vertical tab, form feed, carriage return,
    the separators 28 to 31, space, next line and no-break space). *)
Definition white (c : ascii) : Prop :=
  Py.code c ∈ [9; 10; 11; 12; 13; 28; 29; 30; 31; 32; 133; 160]%N.

Fixpoint all_white (s : string) : Prop :=
  match s with
  | String c t => white c ∧ all_white t
  | EmptyString => True
  end.

Definition starts_white (s : string) : Prop :=
  match s with
  | String c _ => white c
  | EmptyString => False
  end.

Fixpoint ends_white (s : string) : Prop :=
  match s with
  | String c EmptyString => white c
  | String _ t => ends_white t
  | EmptyString => False
  end.

(** [t] is the trimmed text of [raw]: [raw] without the white space at its
    two ends. *)
Definition trimmed_text (raw t : string) : Prop :=
  ∃ before after,
    raw = before +:+ t +:+ after ∧ all_white before ∧ all_white after ∧
    ¬ starts_white t ∧ ¬ ends_white t.

(** A selector gives no name: it matches nothing, or the text of its first
    match is white space only, so that its trimmed text is empty. *)
Definition gives_no_name (soup : Soup.node) (selector : Soup.css) : Prop :=
  ∀ e, Soup.select_one selector soup = Some e → all_white (Soup.get_text e).

(** [name] comes from the first selector of the list, in its order, whose
    first match has a non-empty trimmed text: the selectors before it give
    no name, and [name] is that text. *)
Definition first_name_from (soup : Soup.node) (selectors : list Soup.css)
    (name : string) : Prop :=
  ∃ skipped selector rest e,
    selectors = skipped ++ selector :: rest ∧
    Forall (gives_no_name soup) skipped ∧
    Soup.select_one selector soup = Some e ∧
    trimmed_text (Soup.get_text e) name ∧
    name ≠ "".

(** ** The run of the browser-driven extractor, call by call *)

(** What the outside answered to one call. *)
Inductive answer : Type :=
| Raised (msg : string)
| Returned
| Found (e : element)
| FoundAll (l : list element)
| Read (s : string)
| Fetched (r : response)
| FetchRaised (e : exn)
| Parsed (doc : Soup.node).

Definition of_browser {A} (inj : A → answer) (r : string + A) : answer :=
  match r with
  | inl msg => Raised msg
  | inr a => inj a
  end.

(** The answer of [w] to the call [ev] made after [h]. *)
Definition reply (w : world) (h : history) (ev : event) : answer :=
  match ev with
  | HttpGet url =>
      match session_get w h url with
      | inl e => FetchRaised e
      | inr r => Fetched r
      end
  | ParseHtml markup => Parsed (html_parser w markup)
  | ChromeStart => of_browser (λ _, Returned) (chrome_start w h)
  | DriverGet url => of_browser (λ _, Returned) (driver_get w h url)
  | WaitPresence timeout how what =>
      of_browser Found (wait_presence w h timeout how what)
  | FindElement scope selector =>
      of_browser Found (find_element w h scope selector)
  | FindElements scope selector =>
      of_browser FoundAll (find_elements w h scope selector)
  | ElementText e => of_browser Read (element_text w h e)
  | ExecuteScript script e =>
      of_browser (λ _, Returned) (execute_script w h script e)
  | SaveScreenshot filename =>
      of_browser (λ _, Returned) (save_screenshot w h filename)
  | DriverQuit => of_browser (λ _, Returned) (driver_quit w h)
  end.

(** The calls of a run, each with the answer it got. *)
Definition log : Type := list (event * answer).

(** The log of the calls [t] made one after the other from [h] on. *)
Fixpoint annotate (w : world) (h : history) (t : list event) : log :=
  match t with
  | [] => []
  | ev :: rest => (ev, reply w h ev) :: annotate w (h ++ [ev]) rest
  end.

(** The calls outside the per-field handlers: the start of the browser,
    the navigation, the wait for the body (the only wait by tag name) and
    the screenshot. *)
Definition fatal (ev : event) : bool :=
  match ev with
  | ChromeStart | DriverGet _ | SaveScreenshot _
  | WaitPresence _ TAG_NAME _ => true
  | _ => false
  end.

Definition is_raised (a : answer) : bool :=
  match a with
  | Raised _ => true
  | _ => false
  end.

(** None of the calls outside the per-field handlers raised in the run. *)
Definition went_through (l : log) : Prop :=
  Forall (λ x, fatal x.1 && is_raised x.2 = false) l.

(** One of them did. *)
Definition aborted (l : log) : Prop :=
  Exists (λ x, fatal x.1 && is_raised x.2 = true) l.

(** The run made the call [ev]. *)
Definition called (l : log) (ev : event) : Prop := ev ∈ l.*1.

(** Each call [ev] of the run raised. *)
Definition raises_in (l : log) (ev : event) : Prop :=
  Forall (λ x, x.1 = ev → is_raised x.2 = true) l.

(** Each call [ev] of the run was answered [a]. *)
Definition answers_in (l : log) (ev : event) (a : answer) : Prop :=
  Forall (λ x, x.1 = ev → x.2 = a) l.

(** [traced w m Q]: run from any history, [m] ends in a result [r], and [Q]
    holds of [r] and of the log of the calls this run made. *)
Definition traced {A} (w : world) (m : M A) (Q : exn + A → log → Prop) : Prop :=
  ∀ h, ∃ r t, m h = (r, h ++ t) ∧ Q r (annotate w h t).

(** [m] returns, and [S] holds of its value and of the log of the run. *)
Definition returns {A} (S : A → log → Prop) : exn + A → log → Prop :=
  λ r l, ∃ a, r = inr a ∧ S a l.

(** What each step leaves alone. *)
Definition sets_key (key : string) (d d' : dict) : Prop :=
  ∃ v, d' = <[key := v]> d.

(** What the run of a step that locates one element with the call [ev] and
    reads its text into [key] shows: the call was made; when it raised,
    the field holds "Not found"; when it returned an element whose text
    was read, the field holds that text, trimmed. *)
Definition located_text (key : string) (ev : event) (d d' : dict) (l : log)
    : Prop :=
  ∃ v, d' = <[key := VStr v]> d ∧ called l ev ∧
       (raises_in l ev → v = "Not found") ∧
       (∀ e s, answers_in l ev (Found e) →
               answers_in l (ElementText e) (Read s) → v = Py.strip s).

(** What the loop over the skill items shows: when each item was read, the
    entries are the trimmed texts that are not empty, in order. *)
Definition skill_entries (items : list element) (l : log)
    (entries : list string) : Prop :=
  ∀ text_of : element → string,
    (∀ item, item ∈ items →
             answers_in l (ElementText item) (Read (text_of item))) →
    entries = filter (λ s, s ≠ "") ((λ item, Py.strip (text_of item)) <$> items).

(** What the loop over the experience items shows: when the role and the
    company of each item were found and read, there is one entry for each
    item, in order. *)
Definition experience_entries (items : list element) (l : log)
    (entries : list string) : Prop :=
  ∀ (role_elem company_elem : element → element) (text_of : element → string),
    (∀ item, item ∈ items →
             answers_in l (FindElement (Some item) role_selector)
               (Found (role_elem item))) →
    (∀ item, item ∈ items →
             answers_in l (FindElement (Some item) company_selector)
               (Found (company_elem item))) →
    (∀ e, answers_in l (ElementText e) (Read (text_of e))) →
    entries = (λ item, Py.strip (text_of (role_elem item)) +:+ " at "
                       +:+ Py.strip (text_of (company_elem item))) <$> items.

(** Nothing is asked of the entries of the other loops. *)
Definition any_entries (items : list element) (l : log)
    (entries : list string) : Prop := True.

(** What the run of a step shows that finds a section with [selector],
    scrolls to it, lists its items with [items_selector] and loops over
    them: the lookup of the section was made; when it raised, the step
    returned [d_missing]; when the three calls returned, it returned
    [d_with entries], for the entries its loop made of the items. It
    returns nothing else. *)
Definition section_read (selector items_selector : string)
    (loop : list element → log → list string → Prop)
    (d_missing : dict) (d_with : list string → dict)
    (d' : dict) (l : log) : Prop :=
  called l (FindElement None selector) ∧
  (raises_in l (FindElement None selector) → d' = d_missing) ∧
  (∀ section items,
     answers_in l (FindElement None selector) (Found section) →
     answers_in l (ExecuteScript scroll_into_view section) Returned →
     answers_in l (FindElements section items_selector) (FoundAll items) →
     ∃ entries, loop items l entries ∧ d' = d_with entries) ∧
  (d' = d_missing ∨ ∃ entries, d' = d_with entries).

Definition skills_read (d d' : dict) (l : log) : Prop :=
  section_read skills_selector skill_items_selector skill_entries
    (<["skills" := VList ["No skills information found"]]> d)
    (λ entries,
       <["skills" := VList (or_placeholder entries
                              "No skills information found")]> d)
    d' l.

Definition experience_read (d d' : dict) (l : log) : Prop :=
  section_read experience_selector experience_items_selector
    experience_entries
    (<["experience" := VList ["No experience information found"]]> d)
    (λ entries,
       <["experience" := VList (or_placeholder entries
                                  "No experience information found")]> d)
    d' l.

Definition languages_read (d d' : dict) (l : log) : Prop :=
  section_read languages_selector "li.language-entity, div.pvs-entity--padded"
    any_entries d
    (λ entries,
       match entries with
       | _ :: _ => <["languages" := VList entries]> d
       | [] => d
       end)
    d' l.

(** The calls of such a step and what they were answered, when its body
    raised and when it returned. *)
Definition section_shape (selector items_selector : string)
    (loop : list element → log → list string → Prop)
    (d_with : list string → dict) (r : exn + dict) (l : log) : Prop :=
  match r with
  | inl _ =>
      (∃ msg, l = [(FindElement None selector, Raised msg)]) ∨
      (∃ section msg,
         l = [(FindElement None selector, Found section);
              (ExecuteScript scroll_into_view section, Raised msg)]) ∨
      (∃ section msg,
         l = [(FindElement None selector, Found section);
              (ExecuteScript scroll_into_view section, Returned);
              (FindElements section items_selector, Raised msg)])
  | inr d' =>
      ∃ section items l' entries,
        l = [(FindElement None selector, Found section);
             (ExecuteScript scroll_into_view section, Returned);
             (FindElements section items_selector, FoundAll items)] ++ l' ∧
        loop items l' entries ∧ d' = d_with entries
  end.

(** The calls of [sub_text] and what they were answered. *)
Definition sub_text_shape (item : element) (selector : string)
    (r : exn + string) (l : log) : Prop :=
  match r with
  | inl _ =>
      (∃ msg, l = [(FindElement (Some item) selector, Raised msg)]) ∨
      (∃ e msg, l = [(FindElement (Some item) selector, Found e);
                     (ElementText e, Raised msg)])
  | inr t =>
      ∃ e s, l = [(FindElement (Some item) selector, Found e);
                  (ElementText e, Read s)] ∧ t = Py.strip s
  end.

(** The calls of a step that locates an element and reads its text. *)
Definition located_shape (key : string) (ev : event) (d : dict)
    (r : exn + dict) (l : log) : Prop :=
  match r with
  | inr d' => ∃ e s, l = [(ev, Found e); (ElementText e, Read s)] ∧
                     d' = <[key := VStr (Py.strip s)]> d
  | inl _ => (∃ msg, l = [(ev, Raised msg)]) ∨
             ∃ e msg, l = [(ev, Found e); (ElementText e, Raised msg)]
  end.

(** The log and the record of a run whose seven field steps were all
    made, with what each step shows. *)
Definition seven_steps (Sn Sh Sa Sx Se Ss Sl : dict → dict → log → Prop)
    (d : dict) (l : log) : Prop :=
  ∃ d1 d2 d3 d4 d5 d6 l0 l1 l2 l3 l4 l5 l6 l7 l8,
    l = l0 ++ l1 ++ l2 ++ l3 ++ l4 ++ l5 ++ l6 ++ l7 ++ l8 ∧
    Sn ∅ d1 l1 ∧ Sh d1 d2 l2 ∧ Sa d2 d3 l3 ∧ Sx d3 d4 l4 ∧
    Se d4 d5 l5 ∧ Ss d5 d6 l6 ∧ Sl d6 d l7.

(** ** A program logic for [M]

    [outcome P m Q E]: run from any history, [m] makes only calls that
    satisfy [P], and ends in a value that satisfies [Q] or in an exception
    that satisfies [E]. *)
Definition outcome {A} (P : event → Prop) (m : M A)
    (Q : A → Prop) (E : exn → Prop) : Prop :=
  ∀ h, ∃ r t, m h = (r, h ++ t) ∧ Forall P t ∧
              match r with inr a => Q a | inl e => E e end.

(** [m] cannot raise. *)
Abbreviation total P m Q := (outcome P m Q (λ _, False)).

Section Logic.

Context {A B : Type} (P : event → Prop).

Lemma outcome_ret (a : A) (Q : A → Prop) E : Q a → outcome P (mret a) Q E.
Proof. intros Ha h. exists (inr a), []. by rewrite app_nil_r. Qed.

Lemma outcome_raise (e : exn) (Q : A → Prop) (E : exn → Prop) :
  E e → outcome P (raise e) Q E.
Proof. intros He h. exists (inl e), []. by rewrite app_nil_r. Qed.

Lemma outcome_weaken (m : M A) (Q Q' : A → Prop) (E E' : exn → Prop) :
  outcome P m Q E → (∀ a, Q a → Q' a) → (∀ e, E e → E' e) →
  outcome P m Q' E'.
Proof.
  intros Hm HQ HE h. destruct (Hm h) as (r & t & Hr & Ht & Hp).
  exists r, t. destruct r; auto.
Qed.

Lemma outcome_bind (m : M A) (f : A → M B) (Q1 : A → Prop) (Q : B → Prop) E :
  outcome P m Q1 E → (∀ a, Q1 a → outcome P (f a) Q E) →
  outcome P (m ≫= f) Q E.
Proof.
  intros Hm Hf h. destruct (Hm h) as (r & t & Hr & Ht & Hp).
  unfold mbind, M_bind. rewrite Hr. destruct r as [e|a].
  - by exists (inl e), t.
  - destruct (Hf a Hp (h ++ t)) as (r' & t' & Hr' & Ht' & Hp').
    exists r', (t ++ t'). rewrite Hr', app_assoc. split_and!; [done| |done].
    by apply Forall_app.
Qed.

Lemma outcome_try_except (m : M A) (handler : exn → M A)
    (Q : A → Prop) (E1 E : exn → Prop) :
  outcome P m Q E1 → (∀ e, E1 e → outcome P (handler e) Q E) →
  outcome P (try_except m handler) Q E.
Proof.
  intros Hm Hh h. destruct (Hm h) as (r & t & Hr & Ht & Hp).
  unfold try_except. rewrite Hr. destruct r as [e|a].
  - destruct (Hh e Hp (h ++ t)) as (r' & t' & Hr' & Ht' & Hp').
    exists r', (t ++ t'). rewrite Hr', app_assoc. split_and!; [done| |done].
    by apply Forall_app.
  - by exists (inr a), t.
Qed.

Lemma outcome_try_finally (m : M A) (cleanup : M unit) (Q : A → Prop) E :
  outcome P m Q E → total P cleanup (λ _, True) →
  outcome P (try_finally m cleanup) Q E.
Proof.
  intros Hm Hc h. destruct (Hm h) as (r & t & Hr & Ht & Hp).
  destruct (Hc (h ++ t)) as (r' & t' & Hr' & Ht' & Hp').
  unfold try_finally. rewrite Hr, Hr'. destruct r' as [e|[]]; [done|].
  exists r, (t ++ t'). rewrite app_assoc. split_and!; [done| |done].
  by apply Forall_app.
Qed.

Lemma outcome_attempt (m : M A) (Q : A → Prop) (E : exn → Prop) E' :
  outcome P m Q E →
  outcome P (attempt m)
    (λ r, match r with inr a => Q a | inl e => E e end) E'.
Proof.
  intros Hm h. destruct (Hm h) as (r & t & Hr & Ht & Hp).
  unfold attempt. rewrite Hr. by exists (inr r), t.
Qed.

Lemma outcome_call (ev : event) (answer : history → exn + A)
    (Q : A → Prop) (E : exn → Prop) :
  P ev →
  (∀ h, match answer h with inr a => Q a | inl e => E e end) →
  outcome P (call ev answer) Q E.
Proof.
  intros Hev Hans h. exists (answer h), [ev]. split_and!; [done| |apply Hans].
  by apply Forall_singleton.
Qed.

Lemma outcome_browser_call (ev : event) (answer : history → string + A)
    (Q : A → Prop) :
  P ev →
  (∀ h a, answer h = inr a → Q a) →
  outcome P (call ev (λ h, browser (answer h))) Q (λ _, True).
Proof.
  intros Hev Hans. apply outcome_call; [done|]. intros h.
  specialize (Hans h). destruct (answer h); simpl; auto.
Qed.

Lemma outcome_fatal_call (ev : event) (answer : history → string + A)
    (E : Prop) :
  P ev →
  (∀ h msg, answer h = inl msg → E) →
  outcome P (call ev (λ h, browser (answer h))) (λ _, True) (λ _, E).
Proof.
  intros Hev Hans. apply outcome_call; [done|]. intros h.
  specialize (Hans h). destruct (answer h); simpl; eauto.
Qed.

End Logic.

Lemma outcome_for_each {A S} P (body : A → S → M S) (I : S → Prop) E items acc :
  I acc → (∀ x s, I s → outcome P (body x s) I E) →
  outcome P (for_each items body acc) I E.
Proof.
  intros Hacc Hbody. revert acc Hacc.
  induction items as [|x items IH]; intros acc Hacc; simpl.
  - by apply outcome_ret.
  - eapply outcome_bind; [by apply Hbody|]. intros acc' Hacc'. by apply IH.
Qed.

(** ** Facts about strings *)

Lemma append_nonempty (a b : string) : b ≠ "" → a +:+ b ≠ "".
Proof. intros Hb. destruct a; [done|]. by cbv [String.append]. Qed.

Lemma truthy_nonempty (s : string) : Py.truthy s = true ↔ s ≠ "".
Proof. by destruct s. Qed.

(** *** Trimming

    [str.strip] against its description: the white space at the two ends
    is removed, and nothing else. *)

Lemma white_decide c : bool_decide (white c) = Py.isspace c.
Proof. by destruct c as [[] [] [] [] [] [] [] []]. Qed.

Lemma white_isspace c : white c ↔ Py.isspace c = true.
Proof. by rewrite <- white_decide, bool_decide_eq_true. Qed.

Lemma not_white_isspace c : ¬ white c ↔ Py.isspace c = false.
Proof. by rewrite <- white_decide, bool_decide_eq_false. Qed.

Lemma lstrip_white before s :
  all_white before → Py.lstrip (before +:+ s) = Py.lstrip s.
Proof.
  induction before as [|c before IH]; simpl; [done|].
  intros [Hc Hb]. apply white_isspace in Hc. rewrite Hc. auto.
Qed.

Lemma lstrip_keeps s : ¬ starts_white s → Py.lstrip s = s.
Proof.
  destruct s as [|c s]; simpl; [done|].
  intros Hc. apply not_white_isspace in Hc. by rewrite Hc.
Qed.

Lemma rstrip_all_white s : all_white s → Py.rstrip s = "".
Proof.
  induction s as [|c s IH]; simpl; [done|].
  intros [Hc Hs]. rewrite (IH Hs). apply white_isspace in Hc. by rewrite Hc.
Qed.

Lemma rstrip_white t after :
  all_white after → Py.rstrip (t +:+ after) = Py.rstrip t.
Proof.
  intros Ha. induction t as [|c t IH]; simpl.
  - by apply rstrip_all_white.
  - by rewrite IH.
Qed.

Lemma rstrip_keeps t : ¬ ends_white t → Py.rstrip t = t.
Proof.
  induction t as [|c t IH]; [done|].
  destruct t as [|c' t].
  - simpl. intros Hc. apply not_white_isspace in Hc. by rewrite Hc.
  - intros Ht. change (Py.rstrip (String c (String c' t)))
      with (match Py.rstrip (String c' t) with
            | EmptyString =>
                if Py.isspace c then EmptyString else String c EmptyString
            | t' => String c t'
            end).
    by rewrite IH.
Qed.

(** [str.strip] gives the trimmed text, and nothing else is one. *)
Lemma trimmed_text_strip raw t : trimmed_text raw t → t = Py.strip raw.
Proof.
  intros (before & after & -> & Hb & Ha & Hs & He).
  unfold Py.strip. rewrite lstrip_white by done.
  destruct t as [|c t].
  - simpl. clear Hs He. induction after as [|c after IH]; [done|].
    destruct Ha as [Hc Ha]. simpl. apply white_isspace in Hc. rewrite Hc.
    auto.
  - rewrite lstrip_keeps by done.
    by rewrite rstrip_white, rstrip_keeps.
Qed.

Lemma lstrip_split s :
  ∃ before, s = before +:+ Py.lstrip s ∧ all_white before ∧
            ¬ starts_white (Py.lstrip s).
Proof.
  induction s as [|c s (before & Hs & Hb & Hl)]; simpl.
  - exists "". split_and!; [done..|]. by intros [].
  - destruct (Py.isspace c) eqn:Hc.
    + exists (String c before).
      split_and!; [by rewrite Hs at 1| |done].
      split; [by apply white_isspace|done].
    + exists "". split_and!; [done..|]. simpl. by apply not_white_isspace.
Qed.

Lemma rstrip_split s :
  ∃ after, s = Py.rstrip s +:+ after ∧ all_white after ∧
           ¬ ends_white (Py.rstrip s).
Proof.
  induction s as [|c s (after & Hs & Ha & Hr)]; simpl.
  - exists "". split_and!; [done..|]. by intros [].
  - destruct (Py.rstrip s) as [|c' t] eqn:Ht.
    + cbv [String.append] in Hs. subst after. destruct (Py.isspace c) eqn:Hc.
      * exists (String c s). split_and!; [done| |by intros []].
        split; [by apply white_isspace|done].
      * exists s. split_and!; [done..|]. simpl. by apply not_white_isspace.
    + exists after. split_and!; [by rewrite Hs at 1|done..].
Qed.

Lemma rstrip_start s : ¬ starts_white s → ¬ starts_white (Py.rstrip s).
Proof.
  destruct s as [|c s]; simpl; [done|]. intros Hc.
  destruct (Py.rstrip s); [|done].
  apply not_white_isspace in Hc as Hc'. by rewrite Hc'.
Qed.

Lemma strip_trimmed_text raw : trimmed_text raw (Py.strip raw).
Proof.
  destruct (lstrip_split raw) as (before & Hraw & Hb & Hl).
  destruct (rstrip_split (Py.lstrip raw)) as (after & Hmid & Ha & Hr).
  exists before, after. unfold Py.strip.
  split_and!; [by rewrite <- Hmid|done..|by apply rstrip_start|done].
Qed.

Lemma trimmed_text_iff raw t : trimmed_text raw t ↔ t = Py.strip raw.
Proof.
  split; [apply trimmed_text_strip|]. intros ->. apply strip_trimmed_text.
Qed.

Lemma all_white_strip s : all_white s → Py.strip s = "".
Proof.
  intros Hs. symmetry. apply trimmed_text_strip.
  exists "", s. split_and!; [done..| |]; by intros [].
Qed.

(** ** The browser-driven extractor, step by step *)

Section Browser.

Variable w : world.

Local Ltac browser_call :=
  apply outcome_browser_call; [exact I | try done].

Lemma click_show_more_total selector :
  total browser_event (click_show_more w selector) (λ _, True).
Proof.
  unfold click_show_more.
  eapply outcome_try_except with (E1 := λ _, True).
  - eapply outcome_bind with (Q1 := λ _, True); [browser_call|].
    intros e _. browser_call.
  - intros e _. by apply outcome_ret.
Qed.

Lemma sub_text_outcome item selector :
  outcome browser_event (sub_text w item selector) (λ _, True) (λ _, True).
Proof.
  unfold sub_text.
  eapply outcome_bind with (Q1 := λ _, True); [browser_call|]. intros e _.
  eapply outcome_bind with (Q1 := λ _, True); [browser_call|]. intros t _.
  by apply outcome_ret.
Qed.

Lemma wait_outcome selector :
  outcome browser_event (wait_until_present w 10 CSS_SELECTOR selector)
    (λ _, ¬ never_appears w selector) (λ _, True).
Proof.
  browser_call. intros h a Ha Hnever. destruct (Hnever h) as [msg Hmsg].
  congruence.
Qed.

Lemma find_outcome selector :
  outcome browser_event (driver_find_element w selector)
    (λ _, ¬ cannot_find w selector) (λ _, True).
Proof.
  browser_call. intros h a Ha Hnever. destruct (Hnever h) as [msg Hmsg].
  congruence.
Qed.

Lemma extract_name_total d :
  total browser_event (extract_name w d)
    (λ d', ∃ s, d' = <["name" := VStr s]> d ∧
                (never_appears w name_selector → s = "Not found")).
Proof.
  unfold extract_name.
  eapply outcome_try_except with (E1 := λ _, True).
  - eapply outcome_bind; [apply wait_outcome|]. intros e He.
    eapply outcome_bind with (Q1 := λ _, True); [browser_call|]. intros t _.
    apply outcome_ret. eexists. split; [done|]. intros Hn. by destruct He.
  - intros e _. apply outcome_ret. by eexists.
Qed.

Lemma extract_headline_total d :
  total browser_event (extract_headline w d)
    (λ d', ∃ s, d' = <["headline" := VStr s]> d ∧
                (never_appears w headline_selector → s = "Not found")).
Proof.
  unfold extract_headline.
  eapply outcome_try_except with (E1 := λ _, True).
  - eapply outcome_bind; [apply wait_outcome|]. intros e He.
    eapply outcome_bind with (Q1 := λ _, True); [browser_call|]. intros t _.
    apply outcome_ret. eexists. split; [done|]. intros Hn. by destruct He.
  - intros e _. apply outcome_ret. by eexists.
Qed.

Lemma extract_about_total d :
  total browser_event (extract_about w d)
    (λ d', ∃ s, d' = <["about" := VStr s]> d ∧
                (cannot_find w about_selector → s = "Not found")).
Proof.
  unfold extract_about.
  eapply outcome_try_except with (E1 := λ _, True).
  - eapply outcome_bind with (Q1 := λ _, True).
    { eapply outcome_weaken; [apply click_show_more_total|done..]. }
    intros _ _.
    eapply outcome_bind; [apply find_outcome|]. intros e He.
    eapply outcome_bind with (Q1 := λ _, True); [browser_call|]. intros t _.
    apply outcome_ret. eexists. split; [done|]. intros Hn. by destruct He.
  - intros e _. apply outcome_ret. by eexists.
Qed.

Lemma ok_list_snoc (l : list string) (s : string) :
  Forall (λ s, s ≠ "") l → s ≠ "" → Forall (λ s, s ≠ "") (l ++ [s]).
Proof. intros Hl Hs. apply Forall_app. split; [done|]. by apply Forall_singleton. Qed.

Lemma experience_item_total item experiences :
  Forall (λ s, s ≠ "") experiences →
  total browser_event (experience_item w item experiences)
    (Forall (λ s, s ≠ "")).
Proof.
  intros Hl. unfold experience_item.
  eapply outcome_try_except with (E1 := λ _, True).
  - eapply outcome_bind; [apply sub_text_outcome|]. intros role _.
    eapply outcome_bind; [apply sub_text_outcome|]. intros company _.
    apply outcome_ret. apply ok_list_snoc; [done|]. by apply append_nonempty.
  - intros e _. by apply outcome_ret.
Qed.

Lemma education_item_total item educations :
  Forall (λ s, s ≠ "") educations →
  total browser_event (education_item w item educations)
    (Forall (λ s, s ≠ "")).
Proof.
  intros Hl. unfold education_item.
  eapply outcome_try_except with (E1 := λ _, True).
  - eapply outcome_bind; [apply sub_text_outcome|]. intros school _.
    eapply outcome_bind; [apply sub_text_outcome|]. intros degree _.
    apply outcome_ret. apply ok_list_snoc; [done|]. by apply append_nonempty.
  - intros e _. by apply outcome_ret.
Qed.

Lemma skill_item_total item skills :
  Forall (λ s, s ≠ "") skills →
  total browser_event (skill_item w item skills) (Forall (λ s, s ≠ "")).
Proof.
  intros Hl. unfold skill_item.
  eapply outcome_try_except with (E1 := λ _, True).
  - eapply outcome_bind with (Q1 := λ _, True); [browser_call|]. intros t _.
    apply outcome_ret. destruct (Py.truthy (Py.strip t)) eqn:Ht; [|done].
    apply ok_list_snoc; [done|]. by apply truthy_nonempty.
  - intros e _. by apply outcome_ret.
Qed.

Lemma language_item_total item languages :
  Forall (λ s, s ≠ "") languages →
  total browser_event (language_item w item languages)
    (Forall (λ s, s ≠ "")).
Proof.
  intros Hl. unfold language_item.
  eapply outcome_try_except with (E1 := λ _, True).
  - eapply outcome_bind; [apply sub_text_outcome|]. intros language _.
    eapply outcome_bind with (Q1 := λ _, True).
    { eapply outcome_try_except; [apply sub_text_outcome|].
      intros e _. by apply outcome_ret. }
    intros proficiency _.
    apply outcome_ret. apply ok_list_snoc; [done|]. by apply append_nonempty.
  - intros e _. by apply outcome_ret.
Qed.

Lemma placeholder_ok (s : string) : s ≠ "" → ok_list [s].
Proof. intros Hs. split; [done|]. by apply Forall_singleton. Qed.

Lemma extract_experience_total d :
  total browser_event (extract_experience w d)
    (λ d', ∃ l, d' = <["experience" := VList l]> d ∧ ok_list l).
Proof.
  unfold extract_experience.
  eapply outcome_try_except with (E1 := λ _, True).
  - eapply outcome_bind with (Q1 := λ _, True); [browser_call|]. intros sec _.
    eapply outcome_bind with (Q1 := λ _, True); [browser_call|]. intros _ _.
    eapply outcome_bind with (Q1 := λ _, True); [browser_call|]. intros items _.
    eapply outcome_bind with (Q1 := Forall (λ s, s ≠ "")).
    { apply outcome_for_each; [done|]. intros x s Hs.
      eapply outcome_weaken; [by apply experience_item_total|done..]. }
    intros [|x l] Hl; apply outcome_ret; eexists; split; try done.
    by apply placeholder_ok.
  - intros e _. apply outcome_ret. eexists. split; [done|].
    by apply placeholder_ok.
Qed.

Lemma extract_education_total d :
  total browser_event (extract_education w d)
    (λ d', ∃ l, d' = <["education" := VList l]> d ∧ ok_list l).
Proof.
  unfold extract_education.
  eapply outcome_try_except with (E1 := λ _, True).
  - eapply outcome_bind with (Q1 := λ _, True); [browser_call|]. intros sec _.
    eapply outcome_bind with (Q1 := λ _, True); [browser_call|]. intros items _.
    eapply outcome_bind with (Q1 := Forall (λ s, s ≠ "")).
    { apply outcome_for_each; [done|]. intros x s Hs.
      eapply outcome_weaken; [by apply education_item_total|done..]. }
    intros [|x l] Hl; apply outcome_ret; eexists; split; try done.
    by apply placeholder_ok.
  - intros e _. apply outcome_ret. eexists. split; [done|].
    by apply placeholder_ok.
Qed.

Lemma extract_skills_total d :
  total browser_event (extract_skills w d)
    (λ d', ∃ l, d' = <["skills" := VList l]> d ∧ ok_list l ∧
                (cannot_find w skills_selector →
                 l = ["No skills information found"])).
Proof.
  unfold extract_skills.
  eapply outcome_try_except with (E1 := λ _, True).
  - eapply outcome_bind with (Q1 := λ _, True).
    { eapply outcome_weaken; [apply click_show_more_total|done..]. }
    intros _ _.
    eapply outcome_bind; [apply find_outcome|]. intros sec Hsec.
    eapply outcome_bind with (Q1 := λ _, True); [browser_call|]. intros _ _.
    eapply outcome_bind with (Q1 := λ _, True); [browser_call|]. intros items _.
    eapply outcome_bind with (Q1 := Forall (λ s, s ≠ "")).
    { apply outcome_for_each; [done|]. intros x s Hs.
      eapply outcome_weaken; [by apply skill_item_total|done..]. }
    intros [|x l] Hl; apply outcome_ret; eexists; split_and!; try done.
    by apply placeholder_ok.
  - intros e _. apply outcome_ret. eexists. split_and!; [done| |done].
    by apply placeholder_ok.
Qed.

Lemma extract_languages_total d :
  total browser_event (extract_languages w d)
    (λ d', d' = d ∨ ∃ l, d' = <["languages" := VList l]> d ∧ ok_list l).
Proof.
  unfold extract_languages.
  eapply outcome_try_except with (E1 := λ _, True).
  - eapply outcome_bind with (Q1 := λ _, True); [browser_call|]. intros sec _.
    eapply outcome_bind with (Q1 := λ _, True); [browser_call|]. intros _ _.
    eapply outcome_bind with (Q1 := λ _, True); [browser_call|]. intros items _.
    eapply outcome_bind with (Q1 := Forall (λ s, s ≠ "")).
    { apply outcome_for_each; [done|]. intros x s Hs.
      eapply outcome_weaken; [by apply language_item_total|done..]. }
    intros [|x l] Hl; apply outcome_ret; [by left|].
    right. eexists. by split.
  - intros e _. apply outcome_ret. by left.
Qed.

Lemma browse_outcome url :
  outcome browser_event (browse w url) (completed w) (λ _, ¬ runs_through w).
Proof.
  unfold browse.
  eapply outcome_bind with (Q1 := λ _, True).
  { apply outcome_fatal_call; [done|].
    intros h msg Hmsg (_ & Hget & _). specialize (Hget h url). congruence. }
  intros _ _.
  eapply outcome_bind with (Q1 := λ _, True).
  { apply outcome_fatal_call; [done|].
    intros h msg Hmsg (_ & _ & Hbody & _). destruct (Hbody h). congruence. }
  intros _ _.
  eapply outcome_bind.
  { eapply outcome_weaken; [apply extract_name_total|done..]. }
  intros d1 (name & -> & Hname).
  eapply outcome_bind.
  { eapply outcome_weaken; [apply extract_headline_total|done..]. }
  intros d2 (headline & -> & Hheadline).
  eapply outcome_bind.
  { eapply outcome_weaken; [apply extract_about_total|done..]. }
  intros d3 (about & -> & Habout).
  eapply outcome_bind.
  { eapply outcome_weaken; [apply extract_experience_total|done..]. }
  intros d4 (experience & -> & Hexperience).
  eapply outcome_bind.
  { eapply outcome_weaken; [apply extract_education_total|done..]. }
  intros d5 (education & -> & Heducation).
  eapply outcome_bind.
  { eapply outcome_weaken; [apply extract_skills_total|done..]. }
  intros d6 (skills & -> & Hskills & Hplaceholder).
  eapply outcome_bind.
  { eapply outcome_weaken; [apply extract_languages_total|done..]. }
  intros d7 Hd7.
  eapply outcome_bind with (Q1 := λ _, True).
  { apply outcome_fatal_call; [done|].
    intros h msg Hmsg (_ & _ & _ & Hshot). specialize (Hshot h). congruence. }
  intros _ _.
  apply outcome_ret.
  destruct Hd7 as [->|(languages & -> & Hlanguages)].
  - by exists (Fields name headline about experience education skills None).
  - by exists (Fields name headline about experience education skills
                 (Some languages)).
Qed.

(** The extractor always returns a record, and it only talks to the
    browser. The record is a completed one, or the degraded one when a
    step outside the per-field handlers failed. *)
Lemma get_profile_data_with_selenium_total url :
  total browser_event (get_profile_data_with_selenium w url)
    (λ d, completed w d ∨ (degraded d ∧ ¬ runs_through w)).
Proof.
  unfold get_profile_data_with_selenium.
  eapply outcome_bind.
  { apply outcome_attempt with (Q := λ _, True) (E := λ _, ¬ runs_through w)
                               (E' := λ _, False).
    apply outcome_fatal_call; [done|].
    intros h msg Hmsg (Hstart & _). specialize (Hstart h). congruence. }
  intros [e|[]] He.
  - apply outcome_ret. right. split; [by exists e|done].
  - apply outcome_try_finally.
    + eapply outcome_try_except with (E1 := λ _, ¬ runs_through w).
      { eapply outcome_weaken; [apply browse_outcome| |done]. by left. }
      intros e Hfail. apply outcome_ret. right. split; [by exists e|done].
    + eapply outcome_try_except with (E1 := λ _, True); [browser_call|].
      intros e _. by apply outcome_ret.
Qed.

End Browser.

(** ** The records of the browser-driven extractor *)

Lemma error_record_core_keys e : has_core_keys (error_record e).
Proof. unfold has_core_keys, core_keys, error_record. repeat constructor; by eexists. Qed.

Lemma record_of_core_keys f : has_core_keys (record_of f).
Proof.
  unfold has_core_keys, core_keys, record_of.
  destruct (f_languages f); repeat constructor; by eexists.
Qed.

Lemma record_of_skills f : record_of f !! "skills" = Some (VList (f_skills f)).
Proof. unfold record_of. by destruct (f_languages f). Qed.

Lemma record_of_name f : record_of f !! "name" = Some (VStr (f_name f)).
Proof. unfold record_of. by destruct (f_languages f). Qed.

Lemma record_of_headline f :
  record_of f !! "headline" = Some (VStr (f_headline f)).
Proof. unfold record_of. by destruct (f_languages f). Qed.

Lemma record_of_about f : record_of f !! "about" = Some (VStr (f_about f)).
Proof. unfold record_of. by destruct (f_languages f). Qed.

Lemma error_record_skills e :
  error_record e !! "skills"
  = Some (VList ["Unable to retrieve skills information"]).
Proof. done. Qed.

Lemma error_record_lists_ok e :
  map_Forall (λ _, list_value_ok) (error_record e).
Proof.
  unfold error_record.
  repeat (apply map_Forall_insert_2; [by try apply placeholder_ok|]).
  apply map_Forall_empty.
Qed.

Lemma record_of_lists_ok f :
  lists_ok f → map_Forall (λ _, list_value_ok) (record_of f).
Proof.
  intros (Hx & He & Hs & Hl). unfold record_of.
  destruct (f_languages f);
    repeat (apply map_Forall_insert_2; [done|]); apply map_Forall_empty.
Qed.

Lemma try_except_total {A} P (m : M A) (Q : A → Prop) handler h :
  total P m Q → try_except m handler h = m h.
Proof.
  intros Hm. destruct (Hm h) as (r & t & Hr & _ & Hq).
  unfold try_except. rewrite Hr. by destruct r.
Qed.

Lemma selenium_start_failure w url h msg :
  chrome_start w h = inl msg →
  get_profile_data_with_selenium w url h
  = (inr (error_record (Exception msg)), h ++ [ChromeStart]).
Proof.
  intros Hstart.
  unfold get_profile_data_with_selenium, mbind, M_bind, attempt, Chrome, call.
  by rewrite Hstart.
Qed.


Lemma scrape_valid_is_browser w url h :
  is_valid_linkedin_url url = true →
  scrape_linkedin_profile w url h = get_profile_data_with_selenium w url h.
Proof.
  intros Hvalid.
  unfold scrape_linkedin_profile, Orchestrator.scrape_linkedin_profile.
  rewrite Hvalid. simpl.
  eapply try_except_total, get_profile_data_with_selenium_total.
Qed.

Lemma completed_or_degraded_core_keys w d :
  completed w d ∨ (degraded d ∧ ¬ runs_through w) → has_core_keys d.
Proof.
  intros [(f & -> & _)|[(e & ->) _]].
  - apply record_of_core_keys.
  - apply error_record_core_keys.
Qed.



(** ** The static extractor, step by step *)

Lemma check_indicators_pass indicators page_text h :
  Forall (λ i, Py.contains i page_text = false) indicators →
  check_indicators indicators page_text h = (inr (), h).
Proof.
  induction 1 as [|i l Hi _ IH]; simpl; [done|]. by rewrite Hi.
Qed.

Lemma check_indicators_raise pre found post page_text h :
  Forall (λ i, Py.contains i page_text = false) pre →
  Py.contains found page_text = true →
  check_indicators (pre ++ found :: post) page_text h
  = (inl (Exception ("Access restricted: " +:+ found +:+ " check required")),
     h).
Proof.
  intros Hpre Hfound. induction Hpre as [|i l Hi _ IH]; simpl.
  - by rewrite Hfound.
  - by rewrite Hi.
Qed.

(** The first indicator of the list that the text contains. *)
Lemma first_indicator indicators page_text indicator :
  indicator ∈ indicators →
  Py.contains indicator page_text = true →
  ∃ pre found post,
    indicators = pre ++ found :: post ∧
    Forall (λ i, Py.contains i page_text = false) pre ∧
    Py.contains found page_text = true.
Proof.
  intros Hin Hc. induction indicators as [|i l IH]; [by apply elem_of_nil in Hin|].
  destruct (Py.contains i page_text) eqn:Hi.
  - by exists [], i, l.
  - apply elem_of_cons in Hin as [->|Hin]; [congruence|].
    destruct (IH Hin) as (pre & found & post & -> & Hpre & Hfound).
    exists (i :: pre), found, post. split_and!; [done| |done].
    by constructor.
Qed.

Section Static.

Variables (w : world) (url : string) (h : history) (resp : response).

Hypothesis fetched : session_get w h url = inr resp.
Hypothesis not_blocked : status_code resp ≠ 999.
Hypothesis no_http_error : ¬ 400 ≤ status_code resp < 600.

Lemma raise_for_status_pass h' :
  raise_for_status resp h' = (inr (), h').
Proof.
  unfold raise_for_status.
  rewrite !bool_decide_eq_false_2; [done|lia..].
Qed.

Lemma extract_short :
  Py.len (text resp) < 1000 →
  extract_profile_data w url h
  = (inl (Exception "Invalid response content"), h ++ [HttpGet url]).
Proof.
  intros Hshort.
  unfold extract_profile_data, try_except, mbind, M_bind, get, call.
  rewrite fetched, bool_decide_eq_false_2 by done.
  rewrite raise_for_status_pass.
  by rewrite bool_decide_eq_true_2.
Qed.

Lemma extract_restricted pre found post :
  1000 ≤ Py.len (text resp) →
  error_indicators = pre ++ found :: post →
  Forall (λ i, Py.contains i
                 (Py.lower (Soup.get_text (html_parser w (text resp)))) = false)
         pre →
  Py.contains found (Py.lower (Soup.get_text (html_parser w (text resp))))
  = true →
  extract_profile_data w url h
  = (inl (Exception ("Access restricted: " +:+ found +:+ " check required")),
     h ++ [HttpGet url; ParseHtml (text resp)]).
Proof.
  intros Hlong Hlist Hpre Hfound.
  unfold extract_profile_data, try_except, mbind, M_bind, get, call.
  rewrite fetched, bool_decide_eq_false_2 by done.
  rewrite raise_for_status_pass.
  rewrite bool_decide_eq_false_2 by lia.
  unfold BeautifulSoup, call. rewrite Hlist.
  rewrite check_indicators_raise by done.
  by rewrite <- app_assoc.
Qed.

Lemma extract_fields :
  1000 ≤ Py.len (text resp) →
  Forall (λ i, Py.contains i
                 (Py.lower (Soup.get_text (html_parser w (text resp)))) = false)
         error_indicators →
  extract_profile_data w url h
  = (let soup := html_parser w (text resp) in
     let profile_data :=
       static_about soup (static_headline soup (static_name soup ∅)) in
     if bool_decide (profile_data = ∅)
     then inl (Exception "Failed to extract any profile data")
     else inr profile_data,
     h ++ [HttpGet url; ParseHtml (text resp)]).
Proof.
  intros Hlong Hclean.
  unfold extract_profile_data, try_except, mbind, M_bind, get, call.
  rewrite fetched, bool_decide_eq_false_2 by done.
  rewrite raise_for_status_pass.
  rewrite bool_decide_eq_false_2 by lia.
  unfold BeautifulSoup, call.
  rewrite check_indicators_pass by done.
  rewrite <- app_assoc. simpl.
  by case_bool_decide.
Qed.

End Static.

Lemma extract_blocked w url h resp :
  session_get w h url = inr resp →
  status_code resp = 999 →
  extract_profile_data w url h
  = get_profile_data_with_selenium w url (h ++ [HttpGet url]).
Proof.
  intros Hget Hblocked.
  destruct (get_profile_data_with_selenium_total w url (h ++ [HttpGet url]))
    as ([e|d] & t & Hr & Ht & Hd); [done|].
  unfold extract_profile_data, try_except, mbind, M_bind, get, call.
  rewrite Hget, bool_decide_eq_true_2 by done. by rewrite Hr.
Qed.

(** *** The static fields *)

Lemma name_loop_found selectors soup d :
  name_loop selectors soup true d = (true, d).
Proof. by destruct selectors. Qed.

(** The loop over the name selectors stops at the first selector that
    yields a non-empty trimmed text. *)
Lemma name_loop_first_yield selectors soup d :
  (name_loop selectors soup false d).2
  = match first_yield soup selectors with
    | Some s => <["name" := VStr s]> d
    | None => d
    end.
Proof.
  induction selectors as [|selector rest IH]; [done|].
  unfold first_yield in *. simpl. unfold yields at 1.
  destruct (Soup.select_one selector soup) as [name_elem|]; [|exact IH].
  destruct (Py.truthy (Py.strip (Soup.get_text name_elem))); [|exact IH].
  simpl. by rewrite name_loop_found.
Qed.

Lemma yields_nonempty soup selector s : yields soup selector = Some s → s ≠ "".
Proof.
  unfold yields. destruct (Soup.select_one selector soup) as [e|]; [|done].
  destruct (Py.truthy _) eqn:Ht; [|done].
  intros [= <-]. by apply truthy_nonempty.
Qed.

Lemma first_yield_nonempty soup selectors s :
  first_yield soup selectors = Some s → s ≠ "".
Proof.
  unfold first_yield. induction selectors as [|selector rest IH]; [done|].
  simpl. destruct (yields soup selector) eqn:Hy; [|exact IH].
  simpl. intros [= <-]. by eapply yields_nonempty.
Qed.

Lemma static_name_lookup soup :
  static_name soup ∅ !! "name" = VStr <$> first_yield soup name_selectors.
Proof.
  unfold static_name. rewrite name_loop_first_yield.
  by destruct (first_yield soup name_selectors).
Qed.

Lemma static_headline_other soup d k :
  k ≠ "headline" → static_headline soup d !! k = d !! k.
Proof.
  intros Hk. unfold static_headline. destruct (Soup.select_one _ _); [|done].
  by rewrite lookup_insert_ne.
Qed.

Lemma static_about_other soup d k :
  k ≠ "about" → static_about soup d !! k = d !! k.
Proof.
  intros Hk. unfold static_about. destruct (Soup.select_one _ _); [|done].
  by rewrite lookup_insert_ne.
Qed.

Lemma static_fields_name soup :
  static_about soup (static_headline soup (static_name soup ∅)) !! "name"
  = VStr <$> first_yield soup name_selectors.
Proof.
  by rewrite static_about_other, static_headline_other, static_name_lookup.
Qed.

Lemma static_fields_lists_ok soup :
  map_Forall (λ _, list_value_ok)
    (static_about soup (static_headline soup (static_name soup ∅))).
Proof.
  unfold static_about, static_headline, static_name.
  rewrite name_loop_first_yield.
  destruct (Soup.select_one _ _), (Soup.select_one _ _),
    (first_yield soup name_selectors);
    repeat (apply map_Forall_insert_2; [done|]); apply map_Forall_empty.
Qed.

(** The only keys the static extractor in force can set. *)
Lemma static_fields_keys soup k :
  k ∉ ["name"; "headline"; "about"] →
  static_about soup (static_headline soup (static_name soup ∅)) !! k = None.
Proof.
  intros Hk. rewrite !not_elem_of_cons in Hk. destruct Hk as (? & ? & ? & _).
  rewrite static_about_other, static_headline_other by done.
  unfold static_name. rewrite name_loop_first_yield.
  destruct (first_yield soup name_selectors); [|done].
  by rewrite lookup_insert_ne.
Qed.

Lemma first_selector_yields soup e :
  Soup.select_one [("h1", "text-heading-xlarge")] soup = Some e →
  Py.strip (Soup.get_text e) ≠ "" →
  first_yield soup name_selectors = Some (Py.strip (Soup.get_text e)).
Proof.
  intros He Ht. unfold first_yield, name_selectors. simpl.
  unfold yields at 1. rewrite He.
  apply truthy_nonempty in Ht. by rewrite Ht.
Qed.

(** ** The claims about the static extractor *)

(** C4. When the fetch answers with status 999, [extract_profile_data]
    hands the URL to the browser-driven extractor and returns its record:
    it does not raise, and after the fetch only the browser is called, so
    the body is never parsed. *)
Theorem blocked_fetch_routes_to_browser
    (w : world) (url : string) (h : history) (resp : response) :
  session_get w h url = inr resp →
  status_code resp = 999 →
  extract_profile_data w url h
  = get_profile_data_with_selenium w url (h ++ [HttpGet url]) ∧
  ∃ d t, extract_profile_data w url h = (inr d, h ++ HttpGet url :: t) ∧
         Forall browser_event t.
Proof.
  intros Hget Hblocked.
  pose proof (extract_blocked w url h resp Hget Hblocked) as Heq.
  split; [done|].
  destruct (get_profile_data_with_selenium_total w url (h ++ [HttpGet url]))
    as ([e|d] & t & Hr & Ht & Hd); [done|].
  exists d, t. by rewrite Heq, Hr, <- app_assoc.
Qed.

Lemma blocked_fetch_routes_to_browser_witness :
  extract_profile_data Samples.blocked_world Samples.url []
  = get_profile_data_with_selenium Samples.blocked_world Samples.url
      [HttpGet Samples.url].
Proof.
  apply (blocked_fetch_routes_to_browser Samples.blocked_world Samples.url []
           (Response 999 "" "Request denied" Samples.url)); reflexivity.
Defined.

(** C5. A fetched body of fewer than 1000 characters makes the static
    extractor raise "Invalid response content" right after the fetch:
    the body is not parsed, whatever the parser would find in it. *)
Theorem short_body_is_invalid_content
    (w : world) (url : string) (h : history) (resp : response) :
  session_get w h url = inr resp →
  status_code resp ≠ 999 →
  ¬ 400 ≤ status_code resp < 600 →
  Py.len (text resp) < 1000 →
  extract_profile_data w url h
  = (inl (Exception "Invalid response content"), h ++ [HttpGet url]).
Proof. apply extract_short. Qed.

Lemma short_body_is_invalid_content_witness :
  Soup.select_one [("h1", "text-heading-xlarge")]
    (html_parser Samples.short_world
       "<h1 class='text-heading-xlarge'>Ada</h1>") ≠ None ∧
  extract_profile_data Samples.short_world Samples.url []
  = (inl (Exception "Invalid response content"), [HttpGet Samples.url]).
Proof.
  split; [done|].
  apply (short_body_is_invalid_content Samples.short_world Samples.url []
           (Response 200 "<h1 class='text-heading-xlarge'>Ada</h1>" "OK"
              Samples.url)).
  - reflexivity.
  - simpl. lia.
  - simpl. lia.
  - vm_compute. lia.
Defined.

(** C6. When the lower-cased text of a fetched document of at least 1000
    characters contains one of the block indicators, the static extractor
    raises "Access restricted: <indicator> check required", naming the
    first indicator of the list that the text contains, right after
    parsing: no field is extracted, whatever the selectors would match. *)
Theorem block_indicator_restricts_access
    (w : world) (url : string) (h : history) (resp : response)
    (indicator : string) :
  session_get w h url = inr resp →
  status_code resp ≠ 999 →
  ¬ 400 ≤ status_code resp < 600 →
  1000 ≤ Py.len (text resp) →
  indicator ∈ ["captcha"; "please verify"; "interrupted"; "unavailable"] →
  Py.contains indicator
    (Py.lower (Soup.get_text (html_parser w (text resp)))) = true →
  ∃ pre found post,
    error_indicators = pre ++ found :: post ∧
    Forall (λ i, Py.contains i
                   (Py.lower (Soup.get_text (html_parser w (text resp))))
                 = false) pre ∧
    Py.contains found
      (Py.lower (Soup.get_text (html_parser w (text resp)))) = true ∧
    extract_profile_data w url h
    = (inl (Exception ("Access restricted: " +:+ found +:+ " check required")),
       h ++ [HttpGet url; ParseHtml (text resp)]).
Proof.
  intros Hget Hblocked Herror Hlong Hin Hcontains.
  destruct (first_indicator error_indicators _ indicator Hin Hcontains)
    as (pre & found & post & Hlist & Hpre & Hfound).
  exists pre, found, post. split_and!; [done..|].
  by eapply extract_restricted.
Qed.

Lemma block_indicator_restricts_access_witness :
  Soup.select_one [("h1", "text-heading-xlarge")] Samples.verify_doc ≠ None ∧
  ∃ pre found post,
    error_indicators = pre ++ found :: post ∧
    Forall (λ i, Py.contains i
                   (Py.lower (Soup.get_text Samples.verify_doc)) = false) pre ∧
    Py.contains found (Py.lower (Soup.get_text Samples.verify_doc)) = true ∧
    extract_profile_data Samples.verify_world Samples.url []
    = (inl (Exception ("Access restricted: " +:+ found +:+ " check required")),
       [HttpGet Samples.url; ParseHtml Samples.verify_markup]).
Proof.
  split; [done|].
  apply (block_indicator_restricts_access Samples.verify_world Samples.url []
           (Response 200 Samples.verify_markup "OK" Samples.url) "please verify").
  - reflexivity.
  - simpl. lia.
  - simpl. lia.
  - vm_compute. lia.
  - apply list_elem_of_further, list_elem_of_here.
  - vm_compute. reflexivity.
Defined.

Lemma gives_no_name_yields soup selector :
  gives_no_name soup selector → yields soup selector = None.
Proof.
  intros Hno. unfold yields.
  destruct (Soup.select_one selector soup) as [e|] eqn:He; [|done].
  by rewrite (all_white_strip _ (Hno e He)).
Qed.

Lemma first_name_from_first_yield soup selectors name :
  first_name_from soup selectors name →
  first_yield soup selectors = Some name.
Proof.
  intros (skipped & selector & rest & e & -> & Hskipped & He
          & ->%trimmed_text_strip & Hne).
  unfold first_yield.
  induction Hskipped as [|s skipped Hs _ IH]; simpl.
  - unfold yields at 1. rewrite He.
    apply truthy_nonempty in Hne. by rewrite Hne.
  - by rewrite (gives_no_name_yields soup s Hs).
Qed.

Lemma no_name_first_yield soup selectors :
  Forall (gives_no_name soup) selectors → first_yield soup selectors = None.
Proof.
  unfold first_yield. induction 1 as [|s l Hs _ IH]; simpl; [done|].
  by rewrite (gives_no_name_yields soup s Hs).
Qed.

(** C7. Past the gates of the static extractor, the name is taken from the
    first selector of ['h1.text-heading-xlarge',
    'h1.top-card-layout__title', 'h1.basic-info__name'], in that order,
    whose first match has a non-empty trimmed text: the selectors before
    it matched nothing or an element whose text is white space only, and
    the selectors after it are not looked at. When no selector has such a
    match, no name is set. In particular, when [h1.text-heading-xlarge]
    matches an element with a non-empty trimmed text, the extractor
    returns a record whose [name] is that text. The trimmed text is the
    text without the white space at its two ends. *)
Theorem name_selector_priority
    (w : world) (url : string) (h : history) (resp : response) :
  session_get w h url = inr resp →
  status_code resp ≠ 999 →
  ¬ 400 ≤ status_code resp < 600 →
  1000 ≤ Py.len (text resp) →
  Forall (λ i, Py.contains i
                 (Py.lower (Soup.get_text (html_parser w (text resp)))) = false)
         error_indicators →
  (∀ name,
     first_name_from (html_parser w (text resp))
       [ [("h1", "text-heading-xlarge")];
         [("h1", "top-card-layout__title")];
         [("h1", "basic-info__name")] ] name →
     ∃ d, extract_profile_data w url h
          = (inr d, h ++ [HttpGet url; ParseHtml (text resp)]) ∧
          d !! "name" = Some (VStr name)) ∧
  (Forall (gives_no_name (html_parser w (text resp)))
     [ [("h1", "text-heading-xlarge")];
       [("h1", "top-card-layout__title")];
       [("h1", "basic-info__name")] ] →
   ∀ d h', extract_profile_data w url h = (inr d, h') → d !! "name" = None) ∧
  (∀ e name,
     Soup.select_one [("h1", "text-heading-xlarge")]
       (html_parser w (text resp)) = Some e →
     trimmed_text (Soup.get_text e) name →
     name ≠ "" →
     ∃ d, extract_profile_data w url h
          = (inr d, h ++ [HttpGet url; ParseHtml (text resp)]) ∧
          d !! "name" = Some (VStr name)).
Proof.
  intros Hget Hblocked Herror Hlong Hclean.
  pose proof (extract_fields w url h resp Hget Hblocked Herror Hlong Hclean)
    as Hrun. simpl in Hrun.
  assert (∀ s, first_yield (html_parser w (text resp)) name_selectors = Some s →
               ∃ d, extract_profile_data w url h
                    = (inr d, h ++ [HttpGet url; ParseHtml (text resp)]) ∧
                    d !! "name" = Some (VStr s)) as Hfirst.
  { intros s Hs. eexists. rewrite Hrun. split.
    - rewrite bool_decide_eq_false_2; [done|].
      intros Hempty.
      pose proof (static_fields_name (html_parser w (text resp))) as Hname.
      rewrite Hempty, Hs, lookup_empty in Hname. done.
    - by rewrite static_fields_name, Hs. }
  split_and!.
  - intros name Hname. apply Hfirst.
    by apply first_name_from_first_yield.
  - intros Hnone d h'. rewrite Hrun. case_bool_decide; [done|].
    intros [= <- _]. rewrite static_fields_name.
    by rewrite (no_name_first_yield _ name_selectors Hnone).
  - intros e name He Hname Hne. apply Hfirst.
    apply first_name_from_first_yield.
    by exists [], [("h1", "text-heading-xlarge")],
         [[("h1", "top-card-layout__title")]; [("h1", "basic-info__name")]], e.
Qed.

Lemma name_selector_priority_witness :
  (∃ d, extract_profile_data MoreSamples.second_name_world Samples.url []
        = (inr d, [] ++ [HttpGet Samples.url;
                         ParseHtml MoreSamples.second_name_markup]) ∧
        d !! "name" = Some (VStr "Grace Hopper")) ∧
  (∃ d, extract_profile_data Samples.profile_world Samples.url []
        = (inr d, [] ++ [HttpGet Samples.url;
                         ParseHtml Samples.profile_markup]) ∧
        d !! "name" = Some (VStr "Ada Lovelace")) ∧
  ((extract_profile_data Samples.empty_headline_world Samples.url []).1
   = inr (<["headline" := VStr ""]> ∅) ∧
   (<["headline" := VStr ""]> ∅ : dict) !! "name" = None).
Proof.
  split_and!.
  - destruct (name_selector_priority MoreSamples.second_name_world
                Samples.url []
                (Response 200 MoreSamples.second_name_markup "OK" Samples.url))
      as (H & _ & _).
    + reflexivity.
    + simpl. lia.
    + simpl. lia.
    + vm_compute. lia.
    + repeat constructor.
    + apply (H "Grace Hopper").
      exists [[("h1", "text-heading-xlarge")]],
        [("h1", "top-card-layout__title")], [[("h1", "basic-info__name")]],
        (Soup.Elem "h1" None ["top-card-layout__title"]
           [Soup.Text " Grace Hopper "]).
      split_and!.
      * reflexivity.
      * apply Forall_cons_2; [|apply Forall_nil_2].
        intros e He. vm_compute in He. injection He as <-.
        simpl. split_and!; try apply white_isspace; reflexivity.
      * reflexivity.
      * exists " ", " ". simpl.
        split_and!; try (apply white_isspace; reflexivity);
          try reflexivity; intros Hw%white_isspace; discriminate Hw.
      * discriminate.
  - destruct (name_selector_priority Samples.profile_world Samples.url []
                (Response 200 Samples.profile_markup "OK" Samples.url))
      as (_ & _ & H).
    + reflexivity.
    + simpl. lia.
    + simpl. lia.
    + vm_compute. lia.
    + repeat constructor.
    + apply (H (Soup.Elem "h1" None ["text-heading-xlarge"]
                  [Soup.Text " Ada Lovelace "]) "Ada Lovelace").
      * reflexivity.
      * exists " ", " ". simpl.
        split_and!; try (apply white_isspace; reflexivity);
          try reflexivity; intros Hw%white_isspace; discriminate Hw.
      * discriminate.
  - vm_compute. reflexivity.
  - destruct (name_selector_priority Samples.empty_headline_world
                Samples.url []
                (Response 200 Samples.empty_headline_markup "OK" Samples.url))
      as (_ & H & _).
    + reflexivity.
    + simpl. lia.
    + simpl. lia.
    + vm_compute. lia.
    + repeat constructor.
    + apply (H ltac:(repeat (apply Forall_cons_2;
                              [intros e He; vm_compute in He; discriminate He|]);
                     apply Forall_nil_2)
               (<["headline" := VStr ""]> ∅)
               [HttpGet Samples.url;
                ParseHtml Samples.empty_headline_markup]).
      vm_compute. reflexivity.
Defined.

(** ** Every way [extract_profile_data] can return a record *)

Lemma check_indicators_cases indicators page_text h :
  check_indicators indicators page_text h = (inr (), h) ∨
  ∃ msg, check_indicators indicators page_text h = (inl (Exception msg), h).
Proof.
  induction indicators as [|i l IH]; simpl; [by left|].
  destruct (Py.contains i page_text); [|done]. right. by eexists.
Qed.

Lemma extract_profile_data_cases w url h d h' :
  extract_profile_data w url h = (inr d, h') →
  ∃ resp, session_get w h url = inr resp ∧
    ((status_code resp = 999 ∧
      get_profile_data_with_selenium w url (h ++ [HttpGet url]) = (inr d, h'))
     ∨
     (status_code resp ≠ 999 ∧
      h' = h ++ [HttpGet url; ParseHtml (text resp)] ∧
      d = static_about (html_parser w (text resp))
            (static_headline (html_parser w (text resp))
               (static_name (html_parser w (text resp)) ∅)))).
Proof.
  destruct (session_get w h url) as [e|resp] eqn:Hget.
  { unfold extract_profile_data, try_except, mbind, M_bind, get, call.
    rewrite Hget. by destruct e. }
  intros Hrun. exists resp. split; [done|].
  destruct (decide (status_code resp = 999)) as [Hblocked|Hblocked].
  { left. split; [done|]. by rewrite <- (extract_blocked w url h resp). }
  right. split; [done|]. revert Hrun.
  unfold extract_profile_data, try_except, mbind, M_bind, get, call.
  rewrite Hget, bool_decide_eq_false_2 by done.
  unfold raise_for_status.
  repeat case_bool_decide; try done.
  unfold BeautifulSoup, call, mret, M_ret.
  destruct (check_indicators_cases error_indicators
              (Py.lower (Soup.get_text (html_parser w (text resp))))
              ((h ++ [HttpGet url]) ++ [ParseHtml (text resp)]))
    as [Hc|[msg Hc]]; rewrite Hc; [|done].
  simpl. case_bool_decide; [done|].
  intros [= <- <-]. by rewrite <- app_assoc.
Qed.

(** ** The claim about non-empty fields *)

(** C9, as the code has it. In a record returned by either extractor every
    list-valued field is a non-empty list of non-empty strings, and a
    [name] set by the static extractor is a non-empty string. (A scalar
    field whose element was located is set even when its trimmed text is
    empty.) *)
Theorem present_lists_nonempty
    (w : world) (url : string) (h : history) (d : dict) (h' : history) :
  (get_profile_data_with_selenium w url h = (inr d, h') →
   map_Forall (λ _, list_value_ok) d) ∧
  (extract_profile_data w url h = (inr d, h') →
   map_Forall (λ _, list_value_ok) d ∧
   ∀ resp s, session_get w h url = inr resp → status_code resp ≠ 999 →
             d !! "name" = Some (VStr s) → s ≠ "").
Proof.
  assert (∀ h0 d0 h1, get_profile_data_with_selenium w url h0 = (inr d0, h1) →
                      map_Forall (λ _, list_value_ok) d0) as Hbrowser.
  { intros h0 d0 h1 Hrun.
    destruct (get_profile_data_with_selenium_total w url h0)
      as (r & t & Hr & _ & Hd).
    rewrite Hrun in Hr. injection Hr as <- _.
    destruct Hd as [(f & -> & Hok & _)|[(e & ->) _]].
    - by apply record_of_lists_ok.
    - apply error_record_lists_ok. }
  split; [apply Hbrowser|].
  intros Hrun.
  destruct (extract_profile_data_cases w url h d h' Hrun)
    as (resp & Hget & [[Hblocked Hsel]|(Hblocked & -> & ->)]).
  - split; [by eapply Hbrowser|].
    intros resp' s Hget' Hnot. congruence.
  - split; [apply static_fields_lists_ok|].
    intros resp' s Hget' _. rewrite static_fields_name.
    destruct (first_yield _ _) as [s'|] eqn:Hy; [|done].
    intros [= <-]. by eapply first_yield_nonempty.
Qed.

Lemma present_lists_nonempty_witness :
  ((get_profile_data_with_selenium MoreSamples.live_world Samples.url []).1
   = inr MoreSamples.live_record ∧
   map_Forall (λ _, list_value_ok) MoreSamples.live_record) ∧
  ((extract_profile_data Samples.blocked_world Samples.url []).1
   = inr MoreSamples.empty_record ∧
   map_Forall (λ _, list_value_ok) MoreSamples.empty_record) ∧
  ((extract_profile_data Samples.profile_world Samples.url []).1
   = inr MoreSamples.static_profile_record ∧
   map_Forall (λ _, list_value_ok) MoreSamples.static_profile_record ∧
   "Ada Lovelace" ≠ "").
Proof.
  split_and!.
  - vm_compute. reflexivity.
  - apply (proj1 (present_lists_nonempty MoreSamples.live_world Samples.url
                    [] MoreSamples.live_record
                    (get_profile_data_with_selenium MoreSamples.live_world
                       Samples.url []).2)).
    vm_compute. reflexivity.
  - vm_compute. reflexivity.
  - apply (proj2 (present_lists_nonempty Samples.blocked_world Samples.url
                    [] MoreSamples.empty_record
                    (extract_profile_data Samples.blocked_world
                       Samples.url []).2)).
    vm_compute. reflexivity.
  - vm_compute. reflexivity.
  - apply (proj2 (present_lists_nonempty Samples.profile_world Samples.url
                    [] MoreSamples.static_profile_record
                    [HttpGet Samples.url; ParseHtml Samples.profile_markup])).
    vm_compute. reflexivity.
  - destruct (proj2 (present_lists_nonempty Samples.profile_world Samples.url
                       [] MoreSamples.static_profile_record
                       [HttpGet Samples.url; ParseHtml Samples.profile_markup]))
      as [_ Hname]; [vm_compute; reflexivity|].
    apply (Hname (Response 200 Samples.profile_markup "OK" Samples.url)).
    + reflexivity.
    + simpl. lia.
    + reflexivity.
Defined.

(** C9, as stated, fails: a long page whose headline element is empty makes
    the static extractor return a record whose [headline] is the empty
    string. *)
Lemma empty_headline_is_returned :
  ∃ d h', extract_profile_data Samples.empty_headline_world Samples.url []
          = (inr d, h') ∧
          d !! "headline" = Some (VStr "") ∧
          ¬ map_Forall (λ _, nonempty_value) d.
Proof.
  eexists _, _. split; [vm_compute; reflexivity|].
  split; [by vm_compute|].
  intros Hall. by apply (Hall "headline" (VStr "")).
Qed.

(** ** The URL validator *)

Example is_valid_plain :
  is_valid_linkedin_url "https://www.linkedin.com/in/john-doe" = true.
Proof. reflexivity. Qed.

Example is_valid_slash :
  is_valid_linkedin_url "http://linkedin.com/in/a1/" = true.
Proof. reflexivity. Qed.

Example is_valid_rejects_path :
  is_valid_linkedin_url "https://www.linkedin.com/in/john/detail" = false.
Proof. reflexivity. Qed.

Example is_valid_rejects_empty_slug :
  is_valid_linkedin_url "https://www.linkedin.com/in/" = false.
Proof. reflexivity. Qed.

Lemma append_cons c (a b : string) : String c a +:+ b = String c (a +:+ b).
Proof. done. Qed.

Lemma append_assoc (a b c : string) : (a +:+ b) +:+ c = a +:+ (b +:+ c).
Proof. induction a as [|x a IH]; [done|]. by rewrite !append_cons, IH. Qed.

Lemma append_empty_r (a : string) : a +:+ "" = a.
Proof. induction a as [|x a IH]; [done|]. by rewrite append_cons, IH. Qed.

Lemma after_spec lit s t : Re.after lit s = Some t ↔ s = lit +:+ t.
Proof.
  revert s. induction lit as [|a lit IH]; intros s; simpl.
  - split; [by intros [= ->]|by intros ->].
  - destruct s as [|b s]; [done|]. rewrite append_cons.
    case_decide as Hab.
    + subst b. rewrite IH. split; [by intros ->|by intros [= ->]].
    + split; [done|]. intros [= -> _]. done.
Qed.

Lemma many1_spec cls s k :
  Re.many1 cls s k = true ↔
  ∃ a t, a ≠ "" ∧ Py.all_chars cls a = true ∧ s = a +:+ t ∧ k t = true.
Proof.
  induction s as [|c s IH]; simpl.
  - split; [done|]. intros ([|x a] & t & Ha & _ & Hs & _); done.
  - destruct (cls c) eqn:Hc.
    + rewrite orb_true_iff, IH. split.
      * intros [(a & t & Ha & Hall & -> & Hk)|Hk].
        -- exists (String c a), t. simpl. by rewrite Hc, Hall.
        -- exists (String c ""), s. simpl. by rewrite Hc.
      * intros ([|x a] & t & Ha & Hall & Hs & Hk); [done|].
        rewrite append_cons in Hs. injection Hs as <- ->.
        simpl in Hall. apply andb_true_iff in Hall as [_ Hall].
        destruct a as [|y a]; [by right|].
        left. by exists (String y a), t.
    + split; [done|]. intros ([|x a] & t & Ha & Hall & Hs & _); [done|].
      rewrite append_cons in Hs. injection Hs as <- ->.
      simpl in Hall. by rewrite Hc in Hall.
Qed.

(** The matcher decides the meaning of the pattern. *)
Lemma run_spec r : ∀ pos s k,
  Re.run r pos s k = true ↔
  ∃ pos' s', Re.lang r pos s pos' s' ∧ k pos' s' = true.
Proof.
  induction r as [| |lit|r IH|cls|r1 IH1 r2 IH2]; intros pos s k; simpl.
  - case_decide as Hpos.
    + split; [by exists pos, s|]. by intros (? & ? & (_ & -> & ->) & Hk).
    + split; [done|]. by intros (? & ? & (? & _) & _).
  - case_decide as Hs.
    + split; [by exists pos, s|]. by intros (? & ? & (_ & -> & ->) & Hk).
    + split; [done|]. by intros (? & ? & (? & _) & _).
  - destruct (Re.after lit s) as [t|] eqn:Hafter.
    + apply after_spec in Hafter as ->. split.
      * intros Hk. by exists (pos + String.length lit), t.
      * intros (? & t' & (Heq & ->) & Hk).
        by apply (inj (String.app lit)) in Heq as <-.
    + split; [done|]. intros (? & t' & (Heq & _) & _).
      apply after_spec in Heq. congruence.
  - rewrite orb_true_iff, IH. split.
    + intros [(p & t & Hl & Hk)|Hk]; [exists p, t|exists pos, s]; auto.
    + intros (p & t & [Hl|[-> ->]] & Hk); [left|right]; eauto.
  - rewrite many1_spec. split.
    + intros (a & t & Ha & Hall & -> & Hk). eexists _, t. split; [|exact Hk].
      by exists a.
    + intros (p & t & (a & Ha & Hall & -> & ->) & Hk). by exists a, t.
  - rewrite IH1. split.
    + intros (p & m & Hl1 & Hrun). apply IH2 in Hrun as (p' & t & Hl2 & Hk).
      exists p', t. split; [|done]. by exists p, m.
    + intros (p' & t & (p & m & Hl1 & Hl2) & Hk). exists p, m.
      split; [done|]. apply IH2. by exists p', t.
Qed.

Lemma profile_url_shape_eq url scheme www slug slash :
  scheme = "http" ∨ scheme = "https" →
  www = "" ∨ www = "www." →
  slug ≠ "" →
  Py.all_chars slug_class slug = true →
  slash = "" ∨ slash = "/" →
  url = scheme +:+ "://" +:+ www +:+ "linkedin.com/in/" +:+ slug +:+ slash →
  profile_url_shape url.
Proof. intros ????? ->. by constructor. Qed.

(** What the validator accepts: the profile-URL shape, and the same
    followed by one newline. *)
Lemma is_valid_linkedin_url_spec url :
  is_valid_linkedin_url url = true ↔
  profile_url_shape url ∨ ∃ u, url = u +:+ Re.newline ∧ profile_url_shape u.
Proof.
  unfold is_valid_linkedin_url, Re.matches. rewrite run_spec. split.
  - intros (pos' & s' & Hlang & _). simpl in Hlang.
    destruct Hlang as (p0 & m0 & (_ & -> & ->) & p1 & m1 & (-> & ->)
      & p2 & m2 & Hs & p3 & m3 & (-> & ->) & p4 & m4 & Hw
      & p5 & m5 & (-> & ->) & p6 & m6 & (slug & Hslug & Hall & -> & ->)
      & p7 & m7 & Hslash & Heol & -> & ->).
    assert (∃ scheme, (scheme = "http" ∨ scheme = "https") ∧
                      "http" +:+ m1 = scheme +:+ "://" +:+ m3)
      as (scheme & Hscheme & ->).
    { destruct Hs as [[-> ->]|[-> ->]]; [by exists "https"; auto|].
      exists "http"; auto. }
    assert (∃ www, (www = "" ∨ www = "www.") ∧
                   m3 = www +:+ "linkedin.com/in/" +:+ slug +:+ m6)
      as (www & Hwww & ->).
    { destruct Hw as [[-> ->]|[-> ->]]; [by exists "www."; auto|].
      exists ""; auto. }
    assert (∃ slash, (slash = "" ∨ slash = "/") ∧ m6 = slash +:+ m7)
      as (slash & Hsl & ->).
    { destruct Hslash as [[-> ->]|[-> ->]]; [by exists "/"; auto|].
      exists ""; auto. }
    destruct Heol as [->| ->].
    + left. eapply profile_url_shape_eq; [done..|].
      by rewrite append_empty_r.
    + right. eexists. split; [|by eapply profile_url_shape_eq].
      by rewrite !append_assoc.
  - intros Hshape.
    assert (∃ u tail, (tail = "" ∨ tail = Re.newline) ∧ url = u +:+ tail ∧
                      profile_url_shape u) as (u & tail & Htail & -> & Hu).
    { destruct Hshape as [Hu|(u & -> & Hu)].
      - exists url, "". by rewrite append_empty_r; auto.
      - exists u, Re.newline. auto. }
    destruct Hu as [scheme www slug slash Hscheme Hwww Hslug Hall Hslash].
    destruct Hscheme as [-> | ->], Hwww as [-> | ->], Hslash as [-> | ->];
      (eexists _, tail; split; [|done]; simpl;
       eexists 0, _; split; [by rewrite !append_assoc|];
       eexists _, _; split; [done|];
       eexists _, ("://" +:+ _); split; [first [by left|by right]|];
       eexists _, _; split; [done|];
       eexists _, ("linkedin.com/in/" +:+ _); split; [first [by left|by right]|];
       eexists _, _; split; [done|];
       eexists _, _; split; [by exists slug|];
       eexists _, tail; split; [first [by left|by right]|done]).
Qed.

Lemma all_chars_app p (a b : string) :
  Py.all_chars p (a +:+ b) = Py.all_chars p a && Py.all_chars p b.
Proof.
  induction a as [|c a IH]; [done|].
  rewrite append_cons. simpl. by rewrite IH, andb_assoc.
Qed.

Lemma all_chars_impl (p q : ascii → bool) s :
  (∀ c, p c = true → q c = true) →
  Py.all_chars p s = true → Py.all_chars q s = true.
Proof.
  intros Hpq. induction s as [|c s IH]; [done|]. simpl.
  rewrite !andb_true_iff. intros [Hc Hs]. auto.
Qed.

Lemma slug_class_not_newline c : slug_class c = true → not_newline c = true.
Proof.
  unfold not_newline. case_bool_decide as Hc; [|done]. by subst c.
Qed.

(** A string of the profile-URL shape holds no newline. *)
Lemma profile_url_shape_no_newline u :
  profile_url_shape u → Py.all_chars not_newline u = true.
Proof.
  intros [scheme www slug slash Hscheme Hwww Hslug Hall Hslash].
  rewrite !all_chars_app, !andb_true_iff.
  split_and!.
  - by destruct Hscheme as [-> | ->].
  - done.
  - by destruct Hwww as [-> | ->].
  - done.
  - eapply all_chars_impl; [apply slug_class_not_newline|done].
  - by destruct Hslash as [-> | ->].
Qed.

(** The validator computes the spec's shape on strings without a newline,
    and every rejected URL fails at once: nothing is called. *)
Lemma invalid_url_fails_fast w url h :
  is_valid_linkedin_url url = false →
  scrape_linkedin_profile w url h
  = (inl (Exception "Invalid LinkedIn profile URL"), h).
Proof.
  intros Hinvalid.
  unfold scrape_linkedin_profile, Orchestrator.scrape_linkedin_profile.
  by rewrite Hinvalid.
Qed.

Lemma is_valid_without_newline url :
  Py.all_chars not_newline url = true →
  is_valid_linkedin_url url = true ↔ profile_url_shape url.
Proof.
  intros Hclean. rewrite is_valid_linkedin_url_spec. split; [|by left].
  intros [Hshape|(u & -> & _)]; [done|].
  rewrite all_chars_app, andb_true_iff in Hclean. by destruct Hclean.
Qed.

(** C3, the defect. The validator accepts a profile URL followed by a
    newline, which is not of the shape
    [(http|https)://(www.)?linkedin.com/in/<slug>(/)?]: [$] also matches
    before a final newline. [scrape_linkedin_profile] then starts the
    browser for it. *)
Theorem trailing_newline_passes_validation :
  is_valid_linkedin_url (Samples.url +:+ Re.newline) = true ∧
  ¬ profile_url_shape (Samples.url +:+ Re.newline) ∧
  ∃ d t, scrape_linkedin_profile Samples.offline
           (Samples.url +:+ Re.newline) []
         = (inr d, ChromeStart :: t).
Proof.
  split_and!.
  - reflexivity.
  - intros Hshape%profile_url_shape_no_newline. by vm_compute in Hshape.
  - eexists _, _. vm_compute. reflexivity.
Qed.

(** ** The orchestrator *)

(** With the module's own extractors the browser attempt never fails: the
    two handlers of [scrape_linkedin_profile] are never entered. *)
Lemma browser_attempt_never_fails w url h e h' :
  get_profile_data_with_selenium w url h ≠ (inl e, h').
Proof.
  destruct (get_profile_data_with_selenium_total w url h)
    as ([e'|d] & t & Hr & _ & Hd); [done|]. by rewrite Hr.
Qed.

(** X19. In [scrape_linkedin_profile], for a valid URL and whatever the two
    extractor names are bound to: when the browser attempt raises [e] and
    the fallback raises too, one exception is raised, after the calls the
    two attempts made; its message is "Failed to extract profile data: "
    followed by the message of [e]. *)
Theorem double_failure_reports_browser_error
    (get_profile_data_with_selenium extract_profile_data : string → M dict)
    (url : string) (h h1 h2 : history) (e fallback_error : exn) :
  is_valid_linkedin_url url = true →
  get_profile_data_with_selenium url h = (inl e, h1) →
  extract_profile_data url h1 = (inl fallback_error, h2) →
  Orchestrator.scrape_linkedin_profile
    get_profile_data_with_selenium extract_profile_data url h
  = (inl (Exception ("Failed to extract profile data: " +:+ str e)), h2).
Proof.
  intros Hvalid Hbrowser Hstatic.
  unfold Orchestrator.scrape_linkedin_profile. rewrite Hvalid. simpl.
  unfold try_except. by rewrite Hbrowser, Hstatic.
Qed.

Lemma double_failure_reports_browser_error_witness :
  Orchestrator.scrape_linkedin_profile
    Samples.failing_browser Samples.failing_static Samples.url []
  = (inl (Exception "Failed to extract profile data: chrome crashed"), []).
Proof.
  apply (double_failure_reports_browser_error
           Samples.failing_browser Samples.failing_static Samples.url [] [] []
           (Exception "chrome crashed")
           (Exception "Invalid response content")); reflexivity.
Defined.

(** On two extractors bound to functions that fail, the message of the one
    exception raised holds the message of the first failure and not that
    of the second. *)
Lemma fallback_message_is_dropped :
  Samples.failing_browser Samples.url [] = (inl (Exception "chrome crashed"), []) ∧
  Samples.failing_static Samples.url []
  = (inl (Exception "Invalid response content"), []) ∧
  ∃ msg,
    Orchestrator.scrape_linkedin_profile
      Samples.failing_browser Samples.failing_static Samples.url []
    = (inl (Exception msg), []) ∧
    Py.contains "chrome crashed" msg = true ∧
    Py.contains "Invalid response content" msg = false.
Proof. split_and!; [done..|]. eexists. by vm_compute. Qed.

(** ** The experience section *)

(** The first definition: every complete item contributes its entry, in
    document order. *)
Lemma experience_loop_entries exp_items experiences :
  Shadowed.experience_loop exp_items experiences
  = experiences ++ omap experience_entry exp_items.
Proof.
  revert experiences.
  induction exp_items as [|item rest IH]; intros experiences; simpl.
  - by rewrite app_nil_r.
  - unfold experience_entry at 1. unfold role_of, company_of.
    destruct (Soup.find ["h3"; "span"] ["title"; "t-bold"] item) as [role|],
             (Soup.find ["p"; "span"] ["company"; "t-normal"] item)
               as [company|];
      rewrite IH; [|done..].
    by rewrite <- app_assoc.
Qed.

Lemma experience_entry_complete item :
  is_Some (experience_entry item) ↔ complete item = true.
Proof.
  unfold experience_entry, complete. rewrite bool_decide_eq_true.
  destruct (role_of item), (company_of item); split;
    try (by intros [? ?]); try (by intros [[? ?] [? ?]]); by eauto.
Qed.

(** With a role in every item, the entries are as many as the items less
    those without a company. *)
Lemma experience_count exp_items :
  Forall (λ item, is_Some (role_of item)) exp_items →
  length (Shadowed.experience_loop exp_items [])
  + length (filter (λ item, lacks_company item = true) exp_items)
  = length exp_items.
Proof.
  rewrite experience_loop_entries. simpl.
  induction 1 as [|item rest [role Hrole] _ IH]; [done|].
  simpl. rewrite filter_cons.
  destruct (company_of item) as [company|] eqn:Hcompany.
  - assert (is_Some (experience_entry item)) as [entry ->].
    { unfold experience_entry. rewrite Hrole, Hcompany. by eexists. }
    assert (lacks_company item = false) as Hlacks.
    { apply bool_decide_eq_false. rewrite Hcompany. by intros [_ ?]. }
    rewrite decide_False by (by rewrite Hlacks). simpl. unfold omap in IH. lia.
  - assert (experience_entry item = None) as ->.
    { unfold experience_entry. by rewrite Hrole, Hcompany. }
    assert (lacks_company item = true) as Hlacks.
    { apply bool_decide_eq_true. rewrite Hrole, Hcompany. by split; [eexists|]. }
    rewrite decide_True by done. simpl. unfold omap in IH. lia.
Qed.

Lemma shadowed_extract_fields w url h resp :
  session_get w h url = inr resp →
  status_code resp ≠ 999 →
  ¬ 400 ≤ status_code resp < 600 →
  1000 ≤ Py.len (text resp) →
  Forall (λ i, Py.contains i
                 (Py.lower (Soup.get_text (html_parser w (text resp)))) = false)
         error_indicators →
  Shadowed.extract_profile_data w url h
  = (let soup := html_parser w (text resp) in
     let profile_data :=
       Shadowed.static_experience soup
         (static_about soup (static_headline soup (static_name soup ∅))) in
     if bool_decide (profile_data = ∅)
     then inl (Exception "Failed to extract any profile data")
     else inr profile_data,
     h ++ [HttpGet url; ParseHtml (text resp)]).
Proof.
  intros Hget Hblocked Herror Hlong Hclean.
  unfold Shadowed.extract_profile_data, try_except, mbind, M_bind, get, call.
  rewrite Hget, bool_decide_eq_false_2 by done.
  rewrite raise_for_status_pass by done.
  rewrite bool_decide_eq_false_2 by lia.
  unfold BeautifulSoup, call.
  rewrite check_indicators_pass by done.
  rewrite <- app_assoc. simpl.
  by case_bool_decide.
Qed.

(** The first definition does what C2 says: past the gates, with an
    experience section that has a complete item, the record's
    [experience] is the list of the entries of the complete items. *)
Lemma shadowed_definition_keeps_experience w url h resp section :
  session_get w h url = inr resp →
  status_code resp ≠ 999 →
  ¬ 400 ≤ status_code resp < 600 →
  1000 ≤ Py.len (text resp) →
  Forall (λ i, Py.contains i
                 (Py.lower (Soup.get_text (html_parser w (text resp)))) = false)
         error_indicators →
  Shadowed.find_experience_section (html_parser w (text resp)) = Some section →
  omap experience_entry (Shadowed.exp_items_of section) ≠ [] →
  ∃ d, Shadowed.extract_profile_data w url h
       = (inr d, h ++ [HttpGet url; ParseHtml (text resp)]) ∧
       d !! "experience"
       = Some (VList (omap experience_entry (Shadowed.exp_items_of section))).
Proof.
  intros Hget Hblocked Herror Hlong Hclean Hsection Hentries.
  rewrite (shadowed_extract_fields w url h resp) by done. simpl.
  unfold Shadowed.static_experience. rewrite Hsection.
  rewrite experience_loop_entries. simpl.
  destruct (omap experience_entry (Shadowed.exp_items_of section))
    as [|entry entries] eqn:Hlist; [done|].
  eexists. split.
  - rewrite bool_decide_eq_false_2; [done|].
    intros Hempty. apply (f_equal (λ m : dict, m !! "experience")) in Hempty.
    by rewrite lookup_insert_eq, lookup_empty in Hempty.
  - by rewrite lookup_insert_eq.
Qed.

(** The definition in force never sets [experience] on the static path. *)
Lemma extract_profile_data_never_experience w url h d h' resp :
  extract_profile_data w url h = (inr d, h') →
  session_get w h url = inr resp →
  status_code resp ≠ 999 →
  d !! "experience" = None.
Proof.
  intros Hrun Hget Hblocked.
  destruct (extract_profile_data_cases w url h d h' Hrun)
    as (resp' & Hget' & [[Hb _]|(_ & _ & ->)]); [congruence|].
  apply static_fields_keys.
  rewrite !not_elem_of_cons. split_and!; try done. apply not_elem_of_nil.
Qed.

(** C2, the defect. On a page whose experience section has two complete
    items and one without a company, the first definition returns the
    two entries, and the definition in force, which stops after the about
    section, returns a record without an [experience] key. *)
Theorem second_definition_drops_experience :
  (∃ d h', Shadowed.extract_profile_data Samples.profile_world Samples.url []
           = (inr d, h') ∧
           d !! "experience"
           = Some (VList ["Engineer at Acme"; "Clerk at Bank"])) ∧
  (∃ d h', extract_profile_data Samples.profile_world Samples.url []
           = (inr d, h') ∧
           d !! "experience" = None).
Proof.
  split; eexists _, _; (split; [vm_compute; reflexivity|by vm_compute]).
Qed.

(** * Further properties of [utils.py] *)

(** ** The validator and the entry check *)

(** X1. [is_valid_linkedin_url] accepts exactly the strings of the shape
    [(http|https)://(www.)?linkedin.com/in/<slug>(/)?] and those strings
    followed by one newline. *)
Theorem validator_accepts_exactly (url : string) :
  is_valid_linkedin_url url = true ↔
  profile_url_shape url ∨ ∃ u, url = u +:+ Re.newline ∧ profile_url_shape u.
Proof. apply is_valid_linkedin_url_spec. Qed.

(** X2. A URL the validator rejects makes [scrape_linkedin_profile] raise
    "Invalid LinkedIn profile URL" at once: the history is unchanged, so
    neither the browser nor the network was asked. *)
Theorem rejected_url_raises_at_once (w : world) (url : string) (h : history) :
  is_valid_linkedin_url url = false →
  scrape_linkedin_profile w url h
  = (inl (Exception "Invalid LinkedIn profile URL"), h).
Proof. apply invalid_url_fails_fast. Qed.

Lemma rejected_url_raises_at_once_witness :
  scrape_linkedin_profile Samples.empty_world
    "https://www.linkedin.com/company/acme" []
  = (inl (Exception "Invalid LinkedIn profile URL"), []).
Proof.
  apply (rejected_url_raises_at_once Samples.empty_world
           "https://www.linkedin.com/company/acme" []).
  reflexivity.
Defined.

(** ** The fallback of the orchestrator *)

(** X3. For a valid URL: when the browser attempt returns a record, it is
    the result and the fallback is not run; when the browser attempt
    raises and the fallback returns a record, that record is the result. *)
Theorem fallback_only_after_browser_failure
    (get_profile_data_with_selenium extract_profile_data : string → M dict)
    (url : string) (h : history) :
  is_valid_linkedin_url url = true →
  (∀ d h1, get_profile_data_with_selenium url h = (inr d, h1) →
           Orchestrator.scrape_linkedin_profile
             get_profile_data_with_selenium extract_profile_data url h
           = (inr d, h1)) ∧
  (∀ e h1 d h2, get_profile_data_with_selenium url h = (inl e, h1) →
                extract_profile_data url h1 = (inr d, h2) →
                Orchestrator.scrape_linkedin_profile
                  get_profile_data_with_selenium extract_profile_data url h
                = (inr d, h2)).
Proof.
  intros Hvalid.
  unfold Orchestrator.scrape_linkedin_profile. rewrite Hvalid. simpl.
  unfold try_except. split.
  - intros d h1 Hd. by rewrite Hd.
  - intros e h1 d h2 He Hd. by rewrite He, Hd.
Qed.

Lemma fallback_only_after_browser_failure_witness :
  Orchestrator.scrape_linkedin_profile
    Samples.failing_browser MoreSamples.working_static Samples.url []
  = (inr MoreSamples.ada, []).
Proof.
  destruct (fallback_only_after_browser_failure
              Samples.failing_browser MoreSamples.working_static
              Samples.url []) as [_ Hfallback]; [reflexivity|].
  apply (Hfallback (Exception "chrome crashed") []); reflexivity.
Defined.

(** ** The failures of the static extractor *)

(** X4. When the fetch itself raises, [extract_profile_data] raises a plain
    exception right after it: with the message "Failed to access
    profile: " followed by the original message for a request exception,
    with the original message for any other exception. *)
Theorem fetch_failure_is_wrapped
    (w : world) (url : string) (h : history) (e : exn) :
  session_get w h url = inl e →
  extract_profile_data w url h
  = (inl (Exception (match e with
                     | RequestException msg =>
                         "Failed to access profile: " +:+ msg
                     | Exception msg => msg
                     end)),
     h ++ [HttpGet url]).
Proof.
  intros Hget.
  unfold extract_profile_data, try_except, mbind, M_bind, get, call.
  rewrite Hget. by destruct e.
Qed.

Lemma fetch_failure_is_wrapped_witness :
  extract_profile_data Samples.offline Samples.url []
  = (inl (Exception "Failed to access profile: Connection refused"),
     [HttpGet Samples.url]).
Proof.
  apply (fetch_failure_is_wrapped Samples.offline Samples.url []
           (RequestException "Connection refused")).
  reflexivity.
Defined.

(** X5. A fetch that answers with a status from 400 to 599 makes
    [extract_profile_data] raise "Failed to access profile: <status>
    Client Error: <reason> for url: <url>" ("Server Error" from 500 on),
    whatever the body is: the body is not parsed. *)
Theorem error_status_is_reported
    (w : world) (url : string) (h : history) (resp : response) :
  session_get w h url = inr resp →
  400 ≤ status_code resp < 600 →
  extract_profile_data w url h
  = (inl (Exception ("Failed to access profile: "
                     +:+ http_error_message resp)),
     h ++ [HttpGet url]).
Proof.
  intros Hget Hstatus.
  unfold extract_profile_data, try_except, mbind, M_bind, get, call.
  rewrite Hget, bool_decide_eq_false_2 by lia.
  unfold raise_for_status, http_error_message.
  destruct (decide (status_code resp < 500)) as [Hclient|Hserver].
  - rewrite (bool_decide_eq_true_2 (400 ≤ status_code resp < 500)) by lia.
    by rewrite (bool_decide_eq_true_2 (status_code resp < 500)) by lia.
  - rewrite (bool_decide_eq_false_2 (400 ≤ status_code resp < 500)) by lia.
    rewrite (bool_decide_eq_true_2 (500 ≤ status_code resp < 600)) by lia.
    by rewrite (bool_decide_eq_false_2 (status_code resp < 500)) by lia.
Qed.

Lemma error_status_is_reported_witness :
  extract_profile_data MoreSamples.missing_world Samples.url []
  = (inl (Exception "Failed to access profile: 404 Client Error: Not Found for url: https://www.linkedin.com/in/john-doe"),
     [HttpGet Samples.url]).
Proof.
  apply (error_status_is_reported MoreSamples.missing_world Samples.url []
           (Response 404 EmptyString "Not Found" Samples.url)).
  - reflexivity.
  - simpl. lia.
Defined.

Lemma static_record_empty soup :
  static_record soup = ∅ ↔
  first_yield soup name_selectors = None ∧
  Soup.select_one headline_css soup = None ∧
  Soup.select_one about_css soup = None.
Proof.
  unfold static_record, static_about, static_headline, static_name,
    headline_css, about_css.
  rewrite name_loop_first_yield.
  destruct (Soup.select_one [("div", "about-section"); _] soup),
    (Soup.select_one [("div", "text-body-medium"); _; _] soup),
    (first_yield soup name_selectors); split;
    try (by intros ?%insert_non_empty); try (by intros (? & ? & ?)); done.
Qed.

(** X6. Past its gates (the fetch answered, no error status, at least 1000
    characters, no block indicator) the static extractor returns a record
    exactly when the name loop, the headline selector or the about
    selector finds something; when none does, it raises "Failed to
    extract any profile data". *)
Theorem empty_extraction_is_a_failure
    (w : world) (url : string) (h : history) (resp : response) :
  session_get w h url = inr resp →
  status_code resp ≠ 999 →
  ¬ 400 ≤ status_code resp < 600 →
  1000 ≤ Py.len (text resp) →
  Forall (λ i, Py.contains i
                 (Py.lower (Soup.get_text (html_parser w (text resp)))) = false)
         error_indicators →
  (first_yield (html_parser w (text resp)) name_selectors = None ∧
   Soup.select_one headline_css (html_parser w (text resp)) = None ∧
   Soup.select_one about_css (html_parser w (text resp)) = None →
   extract_profile_data w url h
   = (inl (Exception "Failed to extract any profile data"),
      h ++ [HttpGet url; ParseHtml (text resp)])) ∧
  (¬ (first_yield (html_parser w (text resp)) name_selectors = None ∧
      Soup.select_one headline_css (html_parser w (text resp)) = None ∧
      Soup.select_one about_css (html_parser w (text resp)) = None) →
   extract_profile_data w url h
   = (inr (static_record (html_parser w (text resp))),
      h ++ [HttpGet url; ParseHtml (text resp)])).
Proof.
  intros Hget Hblocked Herror Hlong Hclean.
  rewrite (extract_fields w url h resp) by done. simpl.
  fold (static_record (html_parser w (text resp))).
  split; intros Hnone.
  - by rewrite bool_decide_eq_true_2 by by apply static_record_empty.
  - rewrite bool_decide_eq_false_2; [done|].
    by rewrite static_record_empty.
Qed.

Lemma empty_extraction_is_a_failure_witness :
  extract_profile_data MoreSamples.bare_world Samples.url []
  = (inl (Exception "Failed to extract any profile data"),
     [] ++ [HttpGet Samples.url; ParseHtml (Samples.spaces 1000)]).
Proof.
  destruct (empty_extraction_is_a_failure MoreSamples.bare_world Samples.url []
              (Response 200 (Samples.spaces 1000) "OK" Samples.url))
    as [Hnone _].
  - reflexivity.
  - simpl. lia.
  - simpl. lia.
  - vm_compute. lia.
  - repeat constructor.
  - apply Hnone. by vm_compute.
Defined.

(** ** The browser session *)

Local Ltac page_step :=
  cbv beta;
  lazymatch goal with
  | |- outcome _ (mret _) _ _ => apply outcome_ret; exact I
  | |- outcome _ (_ ≫= _) _ _ =>
      eapply outcome_bind with (Q1 := λ _, True); [|intros ? _]
  | |- outcome _ (try_except _ _) _ _ =>
      eapply outcome_try_except with (E1 := λ _, True); [|intros ? _]
  | |- outcome _ (call _ _) _ _ => apply outcome_browser_call; [exact I|done]
  | |- outcome _ (for_each _ _ _) _ _ =>
      apply outcome_for_each; [exact I|intros ? ? _]
  | |- outcome _ (match ?l with _ => _ end) _ _ => destruct l
  end.

(** Between its start and its end, the browser is only asked about the
    page. *)
Lemma browse_page_calls w url :
  outcome page_event (browse w url) (λ _, True) (λ _, True).
Proof.
  unfold browse, extract_name, extract_headline, extract_about,
    extract_experience, extract_education, extract_skills, extract_languages,
    experience_item, education_item, skill_item, language_item, sub_text,
    click_show_more, driver_get_url, wait_until_present, driver_find_element,
    elem_find_element, elem_find_elements, elem_text, driver_execute_script,
    driver_save_screenshot.
  repeat page_step.
Qed.

(** X7. The browser is released exactly when it was acquired: when
    [webdriver.Chrome] raises, nothing else is called; when it returns,
    [driver.quit()] is called once, as the last call, whatever happened
    in between, and between the two only the page is queried. *)
Theorem browser_is_quit_once (w : world) (url : string) (h : history) :
  (∀ msg, chrome_start w h = inl msg →
          (get_profile_data_with_selenium w url h).2 = h ++ [ChromeStart]) ∧
  (chrome_start w h = inr () →
   ∃ t, (get_profile_data_with_selenium w url h).2
        = h ++ ChromeStart :: t ++ [DriverQuit] ∧
        Forall page_event t).
Proof.
  split.
  - intros msg Hstart. by rewrite (selenium_start_failure w url h msg).
  - intros Hstart.
    unfold get_profile_data_with_selenium, mbind, M_bind, attempt, Chrome, call.
    rewrite Hstart. simpl.
    destruct (browse_page_calls w url (h ++ [ChromeStart]))
      as (r & t & Hr & Ht & _).
    exists t. split; [|done].
    unfold try_finally, try_except at 1. rewrite Hr.
    assert (∀ r' : exn + dict,
              (let (r0, h') := (r', (h ++ [ChromeStart]) ++ t) in
               match try_except (quit w) (λ _, mret ()) h' with
               | (inl e, h'') => (inl e, h'')
               | (inr _, h'') => (r0, h'')
               end).2 = h ++ ChromeStart :: t ++ [DriverQuit]) as Hquit.
    { intros r'. unfold try_except, quit, call.
      destruct (browser (driver_quit w _)) as [e|[]]; simpl;
        by rewrite <- !app_assoc. }
    destruct r as [e|d]; apply Hquit.
Qed.

Lemma browser_is_quit_once_witness :
  ∃ t, (get_profile_data_with_selenium Samples.session_lost Samples.url []).2
       = [] ++ ChromeStart :: t ++ [DriverQuit] ∧
       Forall page_event t.
Proof.
  destruct (browser_is_quit_once Samples.session_lost Samples.url [])
    as [_ Hquit].
  apply Hquit. reflexivity.
Defined.

(** ** The keys of a record *)

Lemma record_of_keys f k :
  is_Some (record_of f !! k) → k ∈ recognized_keys.
Proof.
  intros Hk. destruct (decide (k ∈ recognized_keys)) as [|Hnot]; [done|].
  unfold recognized_keys in Hnot. rewrite !not_elem_of_cons in Hnot.
  destruct Hnot as (? & ? & ? & ? & ? & ? & ? & _).
  unfold record_of in Hk. destruct (f_languages f);
    rewrite !lookup_insert_ne, lookup_empty in Hk by done;
    by destruct Hk.
Qed.

Lemma error_record_keys e k :
  is_Some (error_record e !! k) → k ∈ recognized_keys.
Proof.
  intros Hk. destruct (decide (k ∈ recognized_keys)) as [|Hnot]; [done|].
  unfold recognized_keys in Hnot. rewrite !not_elem_of_cons in Hnot.
  destruct Hnot as (? & ? & ? & ? & ? & ? & ? & _).
  unfold error_record in Hk.
  rewrite !lookup_insert_ne, lookup_empty in Hk by done. by destruct Hk.
Qed.

(** X9. A record returned by either extractor has no key outside [name],
    [headline], [about], [experience], [education], [skills] and
    [languages]; on the static path (status other than 999) the only keys
    are [name], [headline] and [about]. *)
Theorem record_keys_are_recognized
    (w : world) (url : string) (h : history) (d : dict) (h' : history)
    (k : string) :
  (get_profile_data_with_selenium w url h = (inr d, h') →
   is_Some (d !! k) → k ∈ recognized_keys) ∧
  (extract_profile_data w url h = (inr d, h') →
   is_Some (d !! k) →
   k ∈ recognized_keys ∧
   ∀ resp, session_get w h url = inr resp → status_code resp ≠ 999 →
           k ∈ ["name"; "headline"; "about"]).
Proof.
  assert (∀ h0 h1, get_profile_data_with_selenium w url h0 = (inr d, h1) →
                   is_Some (d !! k) → k ∈ recognized_keys) as Hbrowser.
  { intros h0 h1 Hrun Hk.
    destruct (get_profile_data_with_selenium_total w url h0)
      as (r & t & Hr & _ & Hd).
    rewrite Hrun in Hr. injection Hr as <- _.
    destruct Hd as [(f & -> & _)|[(e & ->) _]].
    - by eapply record_of_keys.
    - by eapply error_record_keys. }
  split; [apply Hbrowser|].
  intros Hrun Hk.
  destruct (extract_profile_data_cases w url h d h' Hrun)
    as (resp & Hget & [[Hblocked Hsel]|(Hblocked & -> & ->)]).
  - split; [by eapply Hbrowser|]. intros resp' Hget'. congruence.
  - assert (k ∈ ["name"; "headline"; "about"]) as Hin.
    { destruct (decide (k ∈ ["name"; "headline"; "about"])) as [|Hnot];
        [done|].
      rewrite static_fields_keys in Hk by done. by destruct Hk. }
    split; [|done].
    apply list_elem_of_In in Hin. apply list_elem_of_In.
    simpl in *. tauto.
Qed.

Lemma record_keys_are_recognized_witness :
  "headline" ∈ recognized_keys.
Proof.
  destruct (record_keys_are_recognized Samples.profile_world Samples.url []
              (<["name" := VStr "Ada Lovelace"]>
                 (<["headline" := VStr "Analyst"]> ∅))
              [HttpGet Samples.url; ParseHtml Samples.profile_markup]
              "headline") as [_ Hstatic].
  apply Hstatic.
  - vm_compute. reflexivity.
  - by eexists.
Defined.

(** ** The two definitions of [extract_profile_data] *)

(** X10. The first definition, past its gates, on a page whose experience
    section has at least one complete item: the record's [experience] is
    the list of "<role> at <company>" entries of the items that have both
    a role and a company, in document order; an item contributes exactly
    when it is complete; and when every item has a role, the entries are
    as many as the items less those without a company. *)
Theorem first_definition_lists_complete_items
    (w : world) (url : string) (h : history) (resp : response)
    (section : Soup.node) :
  session_get w h url = inr resp →
  status_code resp ≠ 999 →
  ¬ 400 ≤ status_code resp < 600 →
  1000 ≤ Py.len (text resp) →
  Forall (λ i, Py.contains i
                 (Py.lower (Soup.get_text (html_parser w (text resp)))) = false)
         error_indicators →
  Shadowed.find_experience_section (html_parser w (text resp)) = Some section →
  Exists (λ item, complete item = true) (Shadowed.exp_items_of section) →
  ∃ d, Shadowed.extract_profile_data w url h
       = (inr d, h ++ [HttpGet url; ParseHtml (text resp)]) ∧
       d !! "experience"
       = Some (VList (omap experience_entry (Shadowed.exp_items_of section))) ∧
       (∀ item, is_Some (experience_entry item) ↔ complete item = true) ∧
       (Forall (λ item, is_Some (role_of item)) (Shadowed.exp_items_of section) →
        length (omap experience_entry (Shadowed.exp_items_of section))
        + length (filter (λ item, lacks_company item = true)
                    (Shadowed.exp_items_of section))
        = length (Shadowed.exp_items_of section)).
Proof.
  intros Hget Hblocked Herror Hlong Hclean Hsection Hcomplete.
  destruct (shadowed_definition_keeps_experience w url h resp section)
    as (d & Hrun & Hd); try done.
  { apply Exists_exists in Hcomplete as (item & Hin & Hitem).
    apply experience_entry_complete in Hitem as [entry Hentry].
    intros Hnil.
    assert (entry ∈ omap experience_entry (Shadowed.exp_items_of section))
      as Hmem by (apply list_elem_of_omap; eauto).
    rewrite Hnil in Hmem. by apply elem_of_nil in Hmem. }
  exists d. split_and!; [done..| |].
  - apply experience_entry_complete.
  - intros Hroles. rewrite <- (experience_count _ Hroles).
    by rewrite experience_loop_entries.
Qed.

Lemma first_definition_lists_complete_items_witness :
  ∃ d, Shadowed.extract_profile_data Samples.profile_world Samples.url []
       = (inr d, [] ++ [HttpGet Samples.url; ParseHtml Samples.profile_markup]) ∧
       d !! "experience" = Some (VList ["Engineer at Acme"; "Clerk at Bank"]).
Proof.
  destruct (first_definition_lists_complete_items
              Samples.profile_world Samples.url []
              (Response 200 Samples.profile_markup "OK" Samples.url)
              (Soup.Elem "section" (Some "experience-section") []
                 [ Samples.item "Engineer" (Some "Acme");
                   Samples.item "Intern" None;
                   Samples.item "Clerk" (Some "Bank") ]))
    as (d & Hrun & Hd & _).
  - reflexivity.
  - simpl. lia.
  - simpl. lia.
  - vm_compute. lia.
  - repeat constructor.
  - reflexivity.
  - apply Exists_cons_hd. reflexivity.
  - exists d. split; [exact Hrun|]. rewrite Hd. reflexivity.
Defined.

Lemma no_complete_item_no_entry exp_items :
  Forall (λ item, complete item = false) exp_items →
  omap experience_entry exp_items = [].
Proof.
  induction 1 as [|item rest Hitem _ IH]; [done|]. simpl.
  destruct (experience_entry item) as [entry|] eqn:Hentry; [|exact IH].
  assert (complete item = true) as Hc
    by (apply experience_entry_complete; by eexists).
  congruence.
Qed.

(** X11. The two definitions differ by the experience section only: on a
    fetch whose page has no experience section, or one without a complete
    item, the first definition and the one in force give the same outcome
    and leave the same history; so they do when the fetch fails. *)
Theorem definitions_agree_without_experience
    (w : world) (url : string) (h : history) :
  (∀ resp section,
     session_get w h url = inr resp →
     Shadowed.find_experience_section (html_parser w (text resp))
     = Some section →
     Forall (λ item, complete item = false) (Shadowed.exp_items_of section)) →
  Shadowed.extract_profile_data w url h = extract_profile_data w url h.
Proof.
  intros Hnone.
  unfold Shadowed.extract_profile_data, extract_profile_data, try_except,
    mbind, M_bind, get, call.
  destruct (session_get w h url) as [e|resp] eqn:Hget; [done|].
  case_bool_decide; [done|].
  destruct (raise_for_status resp (h ++ [HttpGet url])) as [[e|[]] h1]; [done|].
  case_bool_decide; [done|].
  unfold BeautifulSoup, call.
  destruct (check_indicators error_indicators _ _) as [[e|[]] h2]; [done|].
  assert (∀ d, Shadowed.static_experience (html_parser w (text resp)) d = d)
    as ->; [|done].
  intros d. unfold Shadowed.static_experience.
  destruct (Shadowed.find_experience_section _) as [section|] eqn:Hsection;
    [|done].
  rewrite experience_loop_entries.
  by rewrite (no_complete_item_no_entry _ (Hnone resp section eq_refl Hsection)).
Qed.

Lemma definitions_agree_without_experience_witness :
  Shadowed.extract_profile_data Samples.empty_headline_world Samples.url []
  = extract_profile_data Samples.empty_headline_world Samples.url [].
Proof.
  apply (definitions_agree_without_experience
           Samples.empty_headline_world Samples.url []).
  intros resp section _. simpl. discriminate.
Defined.

(** * Properties of the page ([main.py]) *)

Section PageProperties.

Variable repr_list : list string → string.
Variables to_csv to_json : dict → string.

Lemma valid_url_nonempty url :
  is_valid_linkedin_url url = true → Py.truthy url = true.
Proof. by destruct url. Qed.

Lemma page_of_valid_url w url h d h' :
  is_valid_linkedin_url url = true →
  get_profile_data_with_selenium w url h = (inr d, h') →
  Main.page repr_list to_csv to_json w url h
  = (Main.before_scraping ++ Main.after_scraping
     ++ Main.show_profile repr_list to_csv to_json d, h').
Proof.
  intros Hvalid Hrun. unfold Main.page, Main.page_with.
  rewrite (valid_url_nonempty url Hvalid), Hvalid. simpl negb. cbv iota.
  by rewrite scrape_valid_is_browser, Hrun.
Qed.

Lemma core_keys_nonempty (d : dict) : has_core_keys d → d ≠ ∅.
Proof.
  intros Hkeys ->. apply Forall_cons in Hkeys as [[v Hv] _].
  by rewrite lookup_empty in Hv.
Qed.

(** No widget of the list is of the excluded kind, piece by piece. *)
Local Ltac widgets :=
  repeat first
    [ apply Forall_nil_2
    | apply Forall_cons_2; [by intros []|]
    | apply Forall_app_2
    | apply Forall_fmap, Forall_forall; by intros ? _ []
    | match goal with
      | |- Forall _ (match ?o with _ => _ end) => destruct o
      end ].

Lemma show_profile_no_error d :
  Forall (λ x, ¬ Main.is_error x)
    (Main.show_profile repr_list to_csv to_json d).
Proof.
  unfold Main.show_profile, Main.basic_information, Main.list_section,
    Main.export_options.
  case_bool_decide; widgets.
Qed.

(** X12. An input the validator rejects is answered without scraping: an
    empty input shows nothing, any other one shows the format error and
    its hint; the history is unchanged. *)
Theorem rejected_input_shows_format_error
    (w : world) (url : string) (h : history) :
  is_valid_linkedin_url url = false →
  Main.page repr_list to_csv to_json w url h
  = (if Py.truthy url
     then [ Main.st_error "Please enter a valid LinkedIn profile URL (e.g., https://www.linkedin.com/in/username)";
            Main.st_info "Make sure the URL follows the correct format and points to a LinkedIn profile." ]
     else [],
     h).
Proof.
  intros Hinvalid. unfold Main.page, Main.page_with. rewrite Hinvalid.
  by destruct (Py.truthy url).
Qed.

(** X13. For a URL that passes the validation the page always reports
    success: in every world the scraping returns a record, the success
    banner is shown and no [st.error] is, so the handler of lines 144 to
    166 never runs. This holds also when the browser cannot be started:
    the page then shows "### Error retrieving profile" under the success
    banner. *)
Theorem valid_url_always_shows_success
    (w : world) (url : string) (h : history) :
  is_valid_linkedin_url url = true →
  ∃ d t,
    scrape_linkedin_profile w url h = (inr d, h ++ t) ∧
    Main.page repr_list to_csv to_json w url h
    = (Main.before_scraping ++ Main.after_scraping
       ++ Main.show_profile repr_list to_csv to_json d, h ++ t) ∧
    Main.st_success "✅ Profile data retrieved successfully!"
    ∈ (Main.page repr_list to_csv to_json w url h).1 ∧
    Forall (λ x, ¬ Main.is_error x)
      (Main.page repr_list to_csv to_json w url h).1 ∧
    (∀ msg, chrome_start w h = inl msg →
            Main.st_markdown (VStr "### Error retrieving profile")
            ∈ (Main.page repr_list to_csv to_json w url h).1).
Proof.
  intros Hvalid.
  destruct (get_profile_data_with_selenium_total w url h)
    as ([e|d] & t & Hr & _ & Hd); [done|].
  exists d, t.
  rewrite (page_of_valid_url w url h d (h ++ t)) by done.
  rewrite scrape_valid_is_browser by done.
  assert (d ≠ ∅) as Hne
    by by eapply core_keys_nonempty, completed_or_degraded_core_keys.
  split_and!; [done..| | |].
  - cbv [fst]. unfold Main.show_profile.
    rewrite bool_decide_eq_false_2 by done.
    rewrite !elem_of_app. right. right. apply list_elem_of_here.
  - cbv [fst]. apply Forall_app_2; [|apply Forall_app_2].
    + unfold Main.before_scraping. widgets.
    + unfold Main.after_scraping. widgets.
    + apply show_profile_no_error.
  - intros msg Hstart.
    rewrite (selenium_start_failure w url h msg Hstart) in Hr.
    injection Hr as <- _.
    cbv [fst]. rewrite !elem_of_app. right. right.
    unfold Main.show_profile. rewrite bool_decide_eq_false_2 by done.
    apply list_elem_of_further. rewrite !elem_of_app. left.
    unfold Main.basic_information. rewrite !elem_of_app. right. left.
    apply list_elem_of_here.
Qed.

Lemma core_lists w d key :
  completed w d ∨ (degraded d ∧ ¬ runs_through w) →
  key ∈ ["experience"; "education"; "skills"] →
  ∃ l, d !! key = Some (VList l) ∧ l ≠ [].
Proof.
  intros Hd Hkey. apply list_elem_of_In in Hkey. simpl in Hkey.
  destruct Hd as [(f & -> & (Hx & He & Hs & _) & _)|[(e & ->) _]].
  - unfold record_of.
    destruct Hkey as [<-|[<-|[<-|[]]]]; destruct (f_languages f);
      eexists; (split; [reflexivity|]);
      by first [apply Hx|apply He|apply Hs].
  - destruct Hkey as [<-|[<-|[<-|[]]]]; by eexists.
Qed.

(** X14. For a URL that passes the validation the three list sections of
    the page never show their "No ... information found" note, and no
    [st.info] is shown at all: the record always has a non-empty
    [experience], [education] and [skills] list, and every entry of each
    is shown as a bullet, placeholders included. *)
Theorem list_sections_never_fall_back
    (w : world) (url : string) (h : history) :
  is_valid_linkedin_url url = true →
  ∃ d t,
    scrape_linkedin_profile w url h = (inr d, h ++ t) ∧
    Forall (λ x, ¬ Main.is_info x)
      (Main.page repr_list to_csv to_json w url h).1 ∧
    ∀ key, key ∈ ["experience"; "education"; "skills"] →
      ∃ l, d !! key = Some (VList l) ∧ l ≠ [] ∧
           ∀ x, x ∈ l →
                Main.st_markdown (VStr ("• " +:+ x))
                ∈ (Main.page repr_list to_csv to_json w url h).1.
Proof.
  intros Hvalid.
  destruct (get_profile_data_with_selenium_total w url h)
    as ([e|d] & t & Hr & _ & Hd); [done|].
  exists d, t.
  rewrite (page_of_valid_url w url h d (h ++ t)) by done.
  rewrite scrape_valid_is_browser by done.
  assert (d ≠ ∅) as Hne
    by by eapply core_keys_nonempty, completed_or_degraded_core_keys.
  destruct (core_lists w d "experience" Hd) as (lx & Hx & Hxne);
    [by apply list_elem_of_In; simpl; auto|].
  destruct (core_lists w d "education" Hd) as (le & He & Hene);
    [by apply list_elem_of_In; simpl; auto|].
  destruct (core_lists w d "skills" Hd) as (ls & Hs & Hsne);
    [by apply list_elem_of_In; simpl; auto|].
  cbv [fst]. unfold Main.show_profile.
  rewrite bool_decide_eq_false_2 by done.
  unfold Main.list_section. rewrite Hx, He, Hs. simpl Main.iterate.
  split_and!; [done| |].
  - unfold Main.before_scraping, Main.after_scraping, Main.basic_information,
      Main.export_options. widgets.
  - intros key Hkey. apply list_elem_of_In in Hkey. simpl in Hkey.
    destruct Hkey as [<-|[<-|[<-|[]]]].
    + exists lx. split_and!; [done..|]. intros x Hin.
      apply elem_of_app; right. apply elem_of_app; right.
      apply list_elem_of_further.
      apply elem_of_app; right. apply elem_of_app; left.
      apply list_elem_of_further, list_elem_of_fmap. by exists x.
    + exists le. split_and!; [done..|]. intros x Hin.
      apply elem_of_app; right. apply elem_of_app; right.
      apply list_elem_of_further.
      apply elem_of_app; right. apply elem_of_app; right.
      apply elem_of_app; left.
      apply list_elem_of_further, list_elem_of_fmap. by exists x.
    + exists ls. split_and!; [done..|]. intros x Hin.
      apply elem_of_app; right. apply elem_of_app; right.
      apply list_elem_of_further.
      apply elem_of_app; right. apply elem_of_app; right.
      apply elem_of_app; right. apply elem_of_app; left.
      apply list_elem_of_further, list_elem_of_fmap. by exists x.
Qed.

End PageProperties.

Lemma rejected_input_shows_format_error_witness :
  Main.page MoreSamples.repr_list MoreSamples.to_csv MoreSamples.to_json
    Samples.empty_world "linkedin.com/in/john-doe" []
  = ([ Main.st_error "Please enter a valid LinkedIn profile URL (e.g., https://www.linkedin.com/in/username)";
       Main.st_info "Make sure the URL follows the correct format and points to a LinkedIn profile." ],
     []).
Proof.
  apply (rejected_input_shows_format_error
           MoreSamples.repr_list MoreSamples.to_csv MoreSamples.to_json
           Samples.empty_world "linkedin.com/in/john-doe" []).
  reflexivity.
Defined.

Lemma valid_url_always_shows_success_witness :
  Main.st_markdown (VStr "### Error retrieving profile")
  ∈ (Main.page MoreSamples.repr_list MoreSamples.to_csv MoreSamples.to_json
       Samples.offline Samples.url []).1.
Proof.
  destruct (valid_url_always_shows_success
              MoreSamples.repr_list MoreSamples.to_csv MoreSamples.to_json
              Samples.offline Samples.url [])
    as (d & t & _ & _ & _ & _ & Hdegraded); [reflexivity|].
  apply (Hdegraded "Message: chromedriver not found"). reflexivity.
Defined.

Lemma list_sections_never_fall_back_witness :
  Forall (λ x, ¬ Main.is_info x)
    (Main.page MoreSamples.repr_list MoreSamples.to_csv MoreSamples.to_json
       Samples.empty_world Samples.url []).1.
Proof.
  destruct (list_sections_never_fall_back
              MoreSamples.repr_list MoreSamples.to_csv MoreSamples.to_json
              Samples.empty_world Samples.url [])
    as (d & t & _ & Hinfo & _); [reflexivity|].
  exact Hinfo.
Defined.

(** * The run of the browser-driven extractor, call by call *)

(** The log lists the calls of the run, in order. *)
Lemma annotate_calls w h t : (annotate w h t).*1 = t.
Proof.
  revert h. induction t as [|ev t IH]; intros h; simpl; [done|].
  by rewrite IH.
Qed.

Lemma annotate_app w h t1 t2 :
  annotate w h (t1 ++ t2) = annotate w h t1 ++ annotate w (h ++ t1) t2.
Proof.
  revert h. induction t1 as [|ev t1 IH]; intros h; simpl.
  - by rewrite app_nil_r.
  - by rewrite IH, <- app_assoc.
Qed.

Section Traced.

Context {A B : Type} (w : world).

Lemma traced_ret (a : A) (Q : exn + A → log → Prop) :
  Q (inr a) [] → traced w (mret a) Q.
Proof. intros Ha h. exists (inr a), []. by rewrite app_nil_r. Qed.

Lemma traced_weaken (m : M A) (Q Q' : exn + A → log → Prop) :
  traced w m Q → (∀ r l, Q r l → Q' r l) → traced w m Q'.
Proof.
  intros Hm HQ h. destruct (Hm h) as (r & t & Hr & Hq).
  exists r, t. auto.
Qed.

Lemma traced_of_outcome P (m : M A) (Q : A → Prop) (E : exn → Prop) :
  outcome P m Q E →
  traced w m (λ r _, match r with inr a => Q a | inl e => E e end).
Proof.
  intros Hm h. destruct (Hm h) as (r & t & Hr & _ & Hq). by exists r, t.
Qed.

Lemma traced_bind (m : M A) (f : A → M B)
    (Q1 : exn + A → log → Prop) (Q : exn + B → log → Prop) :
  traced w m Q1 →
  (∀ e l, Q1 (inl e) l → Q (inl e) l) →
  (∀ a l1, Q1 (inr a) l1 → traced w (f a) (λ r l2, Q r (l1 ++ l2))) →
  traced w (m ≫= f) Q.
Proof.
  intros Hm He Hf h. destruct (Hm h) as (r & t & Hr & Hq).
  unfold mbind, M_bind. rewrite Hr. destruct r as [e|a].
  - exists (inl e), t. auto.
  - destruct (Hf a _ Hq (h ++ t)) as (r' & t' & Hr' & Hq').
    exists r', (t ++ t'). by rewrite Hr', app_assoc, annotate_app.
Qed.

Lemma traced_try_except (m : M A) (handler : exn → M A)
    (Q1 Q : exn + A → log → Prop) :
  traced w m Q1 →
  (∀ a l, Q1 (inr a) l → Q (inr a) l) →
  (∀ e l1, Q1 (inl e) l1 → traced w (handler e) (λ r l2, Q r (l1 ++ l2))) →
  traced w (try_except m handler) Q.
Proof.
  intros Hm Ha Hh h. destruct (Hm h) as (r & t & Hr & Hq).
  unfold try_except. rewrite Hr. destruct r as [e|a].
  - destruct (Hh e _ Hq (h ++ t)) as (r' & t' & Hr' & Hq').
    exists r', (t ++ t'). by rewrite Hr', app_assoc, annotate_app.
  - exists (inr a), t. auto.
Qed.

(** A call to the browser: the log of the run is the call with its
    answer. *)
Lemma traced_browser_call (ev : event) (f : history → string + A)
    (inj : A → answer) :
  (∀ h, reply w h ev = of_browser inj (f h)) →
  traced w (call ev (λ h, browser (f h)))
    (λ r l, match r with
            | inr a => l = [(ev, inj a)]
            | inl _ => ∃ msg, l = [(ev, Raised msg)]
            end).
Proof.
  intros Hreply h. exists (browser (f h)), [ev]. split; [done|].
  simpl. rewrite Hreply. destruct (f h) as [msg|a]; simpl; eauto.
Qed.

End Traced.

(** ** Reading a log *)

Lemma went_through_not_aborted l : went_through l → ¬ aborted l.
Proof.
  unfold went_through, aborted. rewrite Forall_forall, Exists_exists.
  intros Hall (x & Hx & Hf). specialize (Hall x Hx). congruence.
Qed.

Local Ltac read_log :=
  unfold raises_in, answers_in, went_through, called in *;
  repeat match goal with
    | H : Forall _ (_ ++ _) |- _ => apply Forall_app in H as [? ?]
    | H : Forall _ (_ :: _) |- _ => apply Forall_cons in H as [? ?]
    | H : Forall _ [] |- _ => clear H
    end;
  simpl in *;
  repeat match goal with
    | H : ?x = ?x → _ |- _ => specialize (H eq_refl)
    | H : _ = _ |- _ => progress simplify_eq
    end.

Lemma called_app_r (l1 l2 : log) ev : called l2 ev → called (l1 ++ l2) ev.
Proof. unfold called. rewrite fmap_app, elem_of_app. by right. Qed.

Lemma called_app_l (l1 l2 : log) ev : called l1 ev → called (l1 ++ l2) ev.
Proof. unfold called. rewrite fmap_app, elem_of_app. by left. Qed.

Lemma called_here (l : log) ev a : called ((ev, a) :: l) ev.
Proof. apply list_elem_of_here. Qed.

(** ** The scalar fields *)

Lemma located_text_body w (key : string) ev
    (f : history → string + element) (d : dict) :
  (∀ h, reply w h ev = of_browser Found (f h)) →
  traced w (e ← call ev (λ h, browser (f h)); t ← elem_text w e;
            mret (<[key := VStr (Py.strip t)]> d))
    (located_shape key ev d).
Proof.
  intros Hreply.
  eapply traced_bind; [by apply traced_browser_call with (inj := Found)| |].
  - intros e l Hl. by left.
  - intros e ? ->.
    eapply traced_bind;
      [by apply traced_browser_call with (inj := Read)| |].
    + intros x l (msg & ->). right. by exists e, msg.
    + intros s ? ->. apply traced_ret. by exists e, s.
Qed.

Lemma located_text_close (key : string) ev (d : dict) (r : exn + dict) l1 l2 :
  located_shape key ev d r l2 →
  returns (located_text key ev d)
    (match r with
     | inr d' => inr d'
     | inl _ => inr (<[key := VStr "Not found"]> d)
     end) (l1 ++ l2).
Proof.
  unfold returns, located_text, located_shape.
  destruct r as [x|d'];
    [intros [(msg & ->)|(e & msg & ->)]|intros (e & s & -> & ->)];
    eexists; (split; [reflexivity|]); eexists; (split; [reflexivity|]);
    (split; [apply called_app_r, called_here|]);
    split; intros; read_log; done.
Qed.

Lemma name_run w d :
  traced w (extract_name w d)
    (returns (located_text "name"
                (WaitPresence 10 CSS_SELECTOR name_selector) d)).
Proof.
  unfold extract_name, wait_until_present.
  eapply traced_try_except;
    [apply (located_text_body w "name"
              (WaitPresence 10 CSS_SELECTOR name_selector)
              (λ h, wait_presence w h 10 CSS_SELECTOR name_selector));
     by intros| |].
  - intros d' l Hl.
    apply (located_text_close "name" _ d (inr d') [] l Hl).
  - intros e l Hl. apply traced_ret. rewrite app_nil_r.
    apply (located_text_close "name" _ d (inl e) [] l Hl).
Qed.

Lemma headline_run w d :
  traced w (extract_headline w d)
    (returns (located_text "headline"
                (WaitPresence 10 CSS_SELECTOR headline_selector) d)).
Proof.
  unfold extract_headline, wait_until_present.
  eapply traced_try_except;
    [apply (located_text_body w "headline"
              (WaitPresence 10 CSS_SELECTOR headline_selector)
              (λ h, wait_presence w h 10 CSS_SELECTOR headline_selector));
     by intros| |].
  - intros d' l Hl.
    apply (located_text_close "headline" _ d (inr d') [] l Hl).
  - intros e l Hl. apply traced_ret. rewrite app_nil_r.
    apply (located_text_close "headline" _ d (inl e) [] l Hl).
Qed.

Lemma click_show_more_run w selector :
  traced w (click_show_more w selector) (λ r _, r = inr ()).
Proof.
  eapply traced_weaken;
    [apply (traced_of_outcome w _ _ _ _ (click_show_more_total w selector))|].
  by intros [e|[]] l.
Qed.

Lemma about_run w d :
  traced w (extract_about w d)
    (returns (located_text "about" (FindElement None about_selector) d)).
Proof.
  unfold extract_about, driver_find_element.
  eapply traced_try_except
    with (Q1 := λ r l, ∃ l1 l2, l = l1 ++ l2 ∧
            located_shape "about" (FindElement None about_selector) d r l2).
  - eapply traced_bind; [apply click_show_more_run|done|].
    intros [] l1 _.
    eapply traced_weaken;
      [apply (located_text_body w "about"
                (FindElement None about_selector)
                (λ h, find_element w h None about_selector)); by intros|].
    intros r l2 Hl. by exists l1, l2.
  - intros d' l (l1 & l2 & -> & Hl).
    apply (located_text_close "about" _ d (inr d') l1 l2 Hl).
  - intros e l (l1 & l2 & -> & Hl). apply traced_ret. rewrite app_nil_r.
    apply (located_text_close "about" _ d (inl e) l1 l2 Hl).
Qed.

(** ** The loops over the items *)

Lemma skill_item_run w item acc :
  traced w (skill_item w item acc)
    (returns (λ r l, ∃ entries, r = acc ++ entries ∧
                ∀ s, answers_in l (ElementText item) (Read s) →
                     entries = if Py.truthy (Py.strip s)
                               then [Py.strip s] else [])).
Proof.
  unfold skill_item, elem_text.
  eapply traced_try_except
    with (Q1 := λ r l, match r with
                       | inr r' => ∃ s, l = [(ElementText item, Read s)] ∧
                                        r' = if Py.truthy (Py.strip s)
                                             then acc ++ [Py.strip s]
                                             else acc
                       | inl _ => ∃ msg, l = [(ElementText item, Raised msg)]
                       end).
  - eapply traced_bind;
      [by apply traced_browser_call with (inj := Read)|done|].
    intros s ? ->. apply traced_ret. by exists s.
  - intros r l (s & -> & ->). eexists. split; [reflexivity|].
    exists (if Py.truthy (Py.strip s) then [Py.strip s] else []).
    split; [destruct (Py.truthy _); by rewrite ?app_nil_r|].
    intros s' Hs'. by read_log.
  - intros e l (msg & ->). apply traced_ret.
    eexists. split; [reflexivity|]. exists []. rewrite app_nil_r.
    split; [done|]. intros s' Hs'. by read_log.
Qed.

Lemma skill_loop_run w items : ∀ acc,
  traced w (for_each items (skill_item w) acc)
    (returns (λ r l, ∃ entries, r = acc ++ entries ∧
                                skill_entries items l entries)).
Proof.
  induction items as [|item rest IH]; intros acc; simpl.
  - apply traced_ret. eexists. split; [reflexivity|]. exists [].
    rewrite app_nil_r. split; [done|]. by intros text_of _.
  - eapply traced_bind; [apply skill_item_run|by intros e l (? & ? & _)|].
    intros ? l1 (? & [= <-] & entries1 & -> & H1).
    eapply traced_weaken; [apply IH|].
    intros r l2 (r' & -> & entries2 & -> & H2).
    eexists. split; [reflexivity|]. exists (entries1 ++ entries2).
    split; [by rewrite app_assoc|].
    intros text_of Htext. rewrite fmap_cons, filter_cons.
    rewrite (H1 (text_of item)), (H2 text_of).
    + destruct (Py.truthy (Py.strip (text_of item))) eqn:Ht.
      * apply truthy_nonempty in Ht. by rewrite decide_True.
      * rewrite decide_False; [done|]. intros Hne.
        apply truthy_nonempty in Hne. congruence.
    + intros x Hx. specialize (Htext x (list_elem_of_further _ _ _ Hx)).
      by read_log.
    + specialize (Htext item (list_elem_of_here _ _)). by read_log.
Qed.

Lemma sub_text_run w item selector :
  traced w (sub_text w item selector) (sub_text_shape item selector).
Proof.
  unfold sub_text, elem_find_element, elem_text.
  eapply traced_bind; [by apply traced_browser_call with (inj := Found)| |].
  - intros e l Hl. by left.
  - intros e ? ->.
    eapply traced_bind;
      [by apply traced_browser_call with (inj := Read)| |].
    + intros x l (msg & ->). right. by exists e, msg.
    + intros s ? ->. apply traced_ret. by exists e, s.
Qed.

Lemma experience_item_run w item acc :
  traced w (experience_item w item acc)
    (returns (λ r l, ∃ entries, r = acc ++ entries ∧
       ∀ role_elem company_elem role company,
         answers_in l (FindElement (Some item) role_selector)
           (Found role_elem) →
         answers_in l (ElementText role_elem) (Read role) →
         answers_in l (FindElement (Some item) company_selector)
           (Found company_elem) →
         answers_in l (ElementText company_elem) (Read company) →
         entries = [Py.strip role +:+ " at " +:+ Py.strip company])).
Proof.
  unfold experience_item.
  eapply traced_try_except
    with (Q1 := λ r l, ∃ l1 l2 r1,
            l = l1 ++ l2 ∧ sub_text_shape item role_selector r1 l1 ∧
            match r1 with
            | inl _ => l2 = [] ∧ ∃ e, r = inl e
            | inr role =>
                ∃ r2, sub_text_shape item company_selector r2 l2 ∧
                      match r2 with
                      | inl e => r = inl e
                      | inr company =>
                          r = inr (acc ++ [role +:+ " at " +:+ company])
                      end
            end).
  - eapply traced_bind; [apply sub_text_run| |].
    + intros e l Hl. exists l, [], (inl e). rewrite app_nil_r.
      split_and!; [done..|]. by exists e.
    + intros role l1 H1.
      eapply traced_bind; [apply sub_text_run| |].
      * intros e l2 H2. exists l1, l2, (inr role). split_and!; [done..|].
        by exists (inl e).
      * intros company l2 H2. apply traced_ret. rewrite app_nil_r.
        exists l1, l2, (inr role). split_and!; [done..|].
        by exists (inr company).
  - intros r l (l1 & l2 & [e1|role] & -> & H1 & H2).
    { by destruct H2 as (_ & e & ?). }
    destruct H2 as ([e2|company] & H2 & Hr); [done|]. injection Hr as ->.
    destruct H1 as (re & rs & -> & ->), H2 as (ce & cs & -> & ->).
    eexists. split; [reflexivity|]. eexists. split; [reflexivity|].
    intros role_elem company_elem role company Hre Hrs Hce Hcs.
    by read_log.
  - intros e l (l1 & l2 & r1 & -> & H1 & H2). apply traced_ret.
    rewrite app_nil_r.
    eexists. split; [reflexivity|]. exists []. rewrite app_nil_r.
    split; [done|].
    intros role_elem company_elem role company Hre Hrs Hce Hcs.
    destruct r1 as [e1|role'].
    + destruct H2 as (-> & _).
      destruct H1 as [(msg & ->)|(re & msg & ->)]; by read_log.
    + destruct H2 as ([e2|company'] & H2 & Hr); [|done].
      destruct H1 as (re & rs & -> & ->).
      destruct H2 as [(msg & ->)|(ce & msg & ->)]; by read_log.
Qed.

Lemma experience_loop_run w items : ∀ acc,
  traced w (for_each items (experience_item w) acc)
    (returns (λ r l, ∃ entries, r = acc ++ entries ∧
                                experience_entries items l entries)).
Proof.
  induction items as [|item rest IH]; intros acc; simpl.
  - apply traced_ret. eexists. split; [reflexivity|]. exists [].
    rewrite app_nil_r. split; [done|]. by intros ? ? ? _ _ _.
  - eapply traced_bind;
      [apply experience_item_run|by intros e l (? & ? & _)|].
    intros ? l1 (? & [= <-] & entries1 & -> & H1).
    eapply traced_weaken; [apply IH|].
    intros r l2 (r' & -> & entries2 & -> & H2).
    eexists. split; [reflexivity|]. exists (entries1 ++ entries2).
    split; [by rewrite app_assoc|].
    intros role_elem company_elem text_of Hrole Hcompany Htext.
    rewrite fmap_cons.
    rewrite (H1 (role_elem item) (company_elem item)
               (text_of (role_elem item)) (text_of (company_elem item))),
      (H2 role_elem company_elem text_of); [done|..].
    + intros x Hx. specialize (Hrole x (list_elem_of_further _ _ _ Hx)).
      by read_log.
    + intros x Hx. specialize (Hcompany x (list_elem_of_further _ _ _ Hx)).
      by read_log.
    + intros x. specialize (Htext x). by read_log.
    + specialize (Hrole item (list_elem_of_here _ _)). by read_log.
    + specialize (Htext (role_elem item)). by read_log.
    + specialize (Hcompany item (list_elem_of_here _ _)). by read_log.
    + specialize (Htext (company_elem item)). by read_log.
Qed.

(** ** The sections *)

Lemma section_body_run w selector items_selector
    (body : element → list string → M (list string))
    (finish : list string → M dict) (d_with : list string → dict)
    (loop : list element → log → list string → Prop) :
  (∀ items, traced w (for_each items body [])
              (returns (λ entries l, loop items l entries))) →
  (∀ entries, finish entries = mret (d_with entries)) →
  traced w
    (section ← driver_find_element w selector;
     driver_execute_script w scroll_into_view section;;
     items ← elem_find_elements w section items_selector;
     entries ← for_each items body [];
     finish entries)
    (section_shape selector items_selector loop d_with).
Proof.
  intros Hloop Hfinish.
  unfold driver_find_element, driver_execute_script, elem_find_elements.
  eapply traced_bind; [by apply traced_browser_call with (inj := Found)| |].
  { intros e l Hl. by left. }
  intros section ? ->.
  eapply traced_bind;
    [by apply traced_browser_call with (inj := λ _, Returned)| |].
  { intros e l (msg & ->). right. left. by exists section, msg. }
  intros [] ? ->.
  eapply traced_bind;
    [by apply traced_browser_call with (inj := FoundAll)| |].
  { intros e l (msg & ->). right. right. by exists section, msg. }
  intros items ? ->.
  eapply traced_bind; [apply Hloop|by intros e l (? & ? & _)|].
  intros entries l' (? & [= <-] & Hentries).
  rewrite Hfinish. apply traced_ret. rewrite app_nil_r.
  by exists section, items, l', entries.
Qed.

Lemma section_close selector items_selector
    (loop : list element → log → list string → Prop)
    (d_missing : dict) (d_with : list string → dict)
    (r : exn + dict) (l1 l2 : log) :
  (∀ items la lb entries,
     loop items lb entries → loop items (la ++ lb) entries) →
  section_shape selector items_selector loop d_with r l2 →
  returns (section_read selector items_selector loop d_missing d_with)
    (match r with
     | inr d' => inr d'
     | inl _ => inr d_missing
     end) (l1 ++ l2).
Proof.
  intros Hmono. unfold returns, section_read, section_shape.
  destruct r as [x|d'].
  - intros [(msg & ->)|[(section & msg & ->)|(section & msg & ->)]];
      (eexists; split; [reflexivity|]);
      (split; [apply called_app_r, called_here|]);
      (split; [done|]); (split; [|by left]);
      intros section' items' H1 H2 H3; by read_log.
  - intros (section & items & l' & entries & -> & Hentries & ->).
    eexists. split; [reflexivity|].
    split; [apply called_app_r, called_here|].
    split; [intros H; by read_log|].
    split; [|right; by exists entries].
    intros section' items' H1 H2 H3. exists entries. split; [|done].
    apply Hmono.
    apply (Hmono _ [(FindElement None selector, Found section);
                    (ExecuteScript scroll_into_view section, Returned);
                    (FindElements section items_selector, FoundAll items)]).
    by read_log.
Qed.

Lemma skill_entries_app items la lb entries :
  skill_entries items lb entries → skill_entries items (la ++ lb) entries.
Proof.
  intros H text_of Htext. apply H. intros item Hitem.
  specialize (Htext item Hitem). by read_log.
Qed.

Lemma experience_entries_app items la lb entries :
  experience_entries items lb entries →
  experience_entries items (la ++ lb) entries.
Proof.
  intros H role_elem company_elem text_of Hrole Hcompany Htext. apply H.
  - intros item Hitem. specialize (Hrole item Hitem). by read_log.
  - intros item Hitem. specialize (Hcompany item Hitem). by read_log.
  - intros e. specialize (Htext e). by read_log.
Qed.

Lemma skills_run w d :
  traced w (extract_skills w d) (returns (skills_read d)).
Proof.
  unfold extract_skills, skills_read.
  eapply traced_try_except
    with (Q1 := λ r l, ∃ l1 l2, l = l1 ++ l2 ∧
            section_shape skills_selector skill_items_selector skill_entries
              (λ entries,
                 <["skills" := VList (or_placeholder entries
                                        "No skills information found")]> d)
              r l2).
  - eapply traced_bind; [apply click_show_more_run|done|].
    intros [] l1 _.
    eapply traced_weaken.
    + apply (section_body_run w skills_selector skill_items_selector
               (skill_item w)
               (λ skills,
                  match skills with
                  | _ :: _ => mret (<["skills" := VList skills]> d)
                  | [] => mret (<["skills" :=
                                    VList ["No skills information found"]]> d)
                  end)
               (λ entries,
                  <["skills" := VList (or_placeholder entries
                                         "No skills information found")]> d)
               skill_entries).
      * intros items. eapply traced_weaken; [apply skill_loop_run|].
        intros r l (? & -> & entries & -> & H). by exists entries.
      * by intros [|entry entries].
    + intros r l2 Hl. by exists l1, l2.
  - intros d' l (l1 & l2 & -> & Hl).
    apply (section_close _ _ _ _ _ (inr d') l1 l2 skill_entries_app Hl).
  - intros e l (l1 & l2 & -> & Hl). apply traced_ret. rewrite app_nil_r.
    apply (section_close _ _ _ _ _ (inl e) l1 l2 skill_entries_app Hl).
Qed.

Lemma experience_run w d :
  traced w (extract_experience w d) (returns (experience_read d)).
Proof.
  unfold extract_experience, experience_read.
  eapply traced_try_except.
  - apply (section_body_run w experience_selector experience_items_selector
             (experience_item w)
             (λ experiences,
                match experiences with
                | _ :: _ => mret (<["experience" := VList experiences]> d)
                | [] => mret (<["experience" :=
                                  VList ["No experience information found"]]> d)
                end)
             (λ entries,
                <["experience" := VList (or_placeholder entries
                                           "No experience information found")]> d)
             experience_entries).
    + intros items. eapply traced_weaken; [apply experience_loop_run|].
      intros r l (? & -> & entries & -> & H). by exists entries.
    + by intros [|entry entries].
  - intros d' l Hl.
    apply (section_close _ _ _ _ _ (inr d') [] l experience_entries_app Hl).
  - intros e l Hl. apply traced_ret. rewrite app_nil_r.
    apply (section_close _ _ _ _ _ (inl e) [] l experience_entries_app Hl).
Qed.

Lemma languages_run w d :
  traced w (extract_languages w d) (returns (languages_read d)).
Proof.
  unfold extract_languages, languages_read.
  eapply traced_try_except.
  - apply (section_body_run w languages_selector
             "li.language-entity, div.pvs-entity--padded"
             (language_item w)
             (λ languages,
                match languages with
                | _ :: _ => mret (<["languages" := VList languages]> d)
                | [] => mret d
                end)
             (λ entries,
                match entries with
                | _ :: _ => <["languages" := VList entries]> d
                | [] => d
                end)
             any_entries).
    + intros items.
      eapply traced_weaken;
        [apply (traced_of_outcome w browser_event _ (Forall (λ s, s ≠ ""))
                  (λ _, False))|].
      * apply outcome_for_each; [done|]. intros x s Hs.
        eapply outcome_weaken; [by apply language_item_total|done..].
      * intros [e|entries] l H; [done|]. by exists entries.
    + by intros [|entry entries].
  - intros d' l Hl.
    apply (section_close _ _ _ _ _ (inr d') [] l); [done|exact Hl].
  - intros e l Hl. apply traced_ret. rewrite app_nil_r.
    apply (section_close _ _ _ _ _ (inl e) [] l); [done|exact Hl].
Qed.

Lemma education_run w d :
  traced w (extract_education w d) (returns (λ d' _, sets_key "education" d d')).
Proof.
  eapply traced_weaken;
    [apply (traced_of_outcome w _ _ _ _ (extract_education_total w d))|].
  intros [e|d'] l H; [done|]. destruct H as (v & -> & _).
  exists (<["education" := VList v]> d). split; [done|]. by eexists.
Qed.

(** ** The whole run *)

Local Ltac find_abort :=
  unfold aborted; simpl;
  repeat first [ apply Exists_cons_hd; reflexivity
               | apply Exists_cons_tl
               | apply Exists_app; right ].

Lemma browse_run w url (Sn Sh Sa Sx Se Ss Sl : dict → dict → log → Prop) :
  (∀ d, traced w (extract_name w d) (returns (Sn d))) →
  (∀ d, traced w (extract_headline w d) (returns (Sh d))) →
  (∀ d, traced w (extract_about w d) (returns (Sa d))) →
  (∀ d, traced w (extract_experience w d) (returns (Sx d))) →
  (∀ d, traced w (extract_education w d) (returns (Se d))) →
  (∀ d, traced w (extract_skills w d) (returns (Ss d))) →
  (∀ d, traced w (extract_languages w d) (returns (Sl d))) →
  traced w (browse w url)
    (λ r l, match r with
            | inl _ => aborted l
            | inr d => seven_steps Sn Sh Sa Sx Se Ss Sl d l
            end).
Proof.
  intros Hn Hh Ha Hx He Hs Hl.
  unfold browse, driver_get_url, wait_until_present, driver_save_screenshot.
  eapply traced_bind;
    [by apply traced_browser_call with (inj := λ _, Returned)| |].
  { intros e l (msg & ->). find_abort. }
  intros [] ? ->.
  eapply traced_bind; [by apply traced_browser_call with (inj := Found)| |].
  { intros e l (msg & ->). find_abort. }
  intros body ? ->.
  eapply traced_bind; [apply Hn|by intros e l (? & ? & _)|].
  intros d1 l1 (? & [= <-] & H1).
  eapply traced_bind; [apply Hh|by intros e l (? & ? & _)|].
  intros d2 l2 (? & [= <-] & H2).
  eapply traced_bind; [apply Ha|by intros e l (? & ? & _)|].
  intros d3 l3 (? & [= <-] & H3).
  eapply traced_bind; [apply Hx|by intros e l (? & ? & _)|].
  intros d4 l4 (? & [= <-] & H4).
  eapply traced_bind; [apply He|by intros e l (? & ? & _)|].
  intros d5 l5 (? & [= <-] & H5).
  eapply traced_bind; [apply Hs|by intros e l (? & ? & _)|].
  intros d6 l6 (? & [= <-] & H6).
  eapply traced_bind; [apply Hl|by intros e l (? & ? & _)|].
  intros d7 l7 (? & [= <-] & H7).
  eapply traced_bind;
    [by apply traced_browser_call with (inj := λ _, Returned)| |].
  { intros e l (msg & ->). find_abort. }
  intros [] ? ->. apply traced_ret.
  exists d1, d2, d3, d4, d5, d6.
  by eexists [_; _], l1, l2, l3, l4, l5, l6, l7, _.
Qed.

Lemma quit_swallowed w h :
  try_except (quit w) (λ _, mret ()) h = (inr (), h ++ [DriverQuit]).
Proof.
  unfold try_except, quit, call.
  by destruct (browser (driver_quit w h)) as [e|[]].
Qed.

(** The run of the extractor: one of the calls outside the per-field
    handlers raised and the record is the degraded one, or the seven field
    steps were made. *)
Lemma selenium_run w url (Sn Sh Sa Sx Se Ss Sl : dict → dict → log → Prop) :
  (∀ d, traced w (extract_name w d) (returns (Sn d))) →
  (∀ d, traced w (extract_headline w d) (returns (Sh d))) →
  (∀ d, traced w (extract_about w d) (returns (Sa d))) →
  (∀ d, traced w (extract_experience w d) (returns (Sx d))) →
  (∀ d, traced w (extract_education w d) (returns (Se d))) →
  (∀ d, traced w (extract_skills w d) (returns (Ss d))) →
  (∀ d, traced w (extract_languages w d) (returns (Sl d))) →
  traced w (get_profile_data_with_selenium w url)
    (returns (λ d l, (aborted l ∧ degraded d) ∨
                     seven_steps Sn Sh Sa Sx Se Ss Sl d l)).
Proof.
  intros Hn Hh Ha Hx He Hs Hl h.
  unfold get_profile_data_with_selenium, mbind, M_bind, attempt, Chrome, call.
  destruct (chrome_start w h) as [msg|[]] eqn:Hstart; simpl.
  - eexists _, [ChromeStart]. split; [reflexivity|].
    eexists. split; [reflexivity|]. left. split; [|by eexists].
    unfold aborted. simpl. rewrite Hstart. by apply Exists_cons_hd.
  - destruct (browse_run w url Sn Sh Sa Sx Se Ss Sl Hn Hh Ha Hx He Hs Hl
                (h ++ [ChromeStart])) as (r & t & Hr & Hq).
    unfold try_finally, try_except at 1. rewrite Hr.
    assert (annotate w h (ChromeStart :: t ++ [DriverQuit])
            = (ChromeStart, Returned)
              :: annotate w (h ++ [ChromeStart]) t
              ++ [(DriverQuit, reply w ((h ++ [ChromeStart]) ++ t) DriverQuit)])
      as Hlog.
    { simpl. rewrite Hstart. simpl. by rewrite annotate_app. }
    destruct r as [e|d]; simpl; rewrite quit_swallowed;
      eexists _, (ChromeStart :: t ++ [DriverQuit]);
      (split; [by rewrite <- !app_assoc|]);
      (eexists; split; [reflexivity|]); rewrite Hlog.
    + left. split; [|by eexists].
      unfold aborted. apply Exists_cons_tl, Exists_app. by left.
    + right.
      destruct Hq as (d1 & d2 & d3 & d4 & d5 & d6 & l0 & l1 & l2 & l3 & l4
                      & l5 & l6 & l7 & l8 & -> & Hsteps).
      exists d1, d2, d3, d4, d5, d6, ((ChromeStart, Returned) :: l0),
        l1, l2, l3, l4, l5, l6, l7.
      eexists (l8 ++ [_]).
      split; [|exact Hsteps]. simpl. by rewrite <- !app_assoc.
Qed.

(** ** What a run shows of the record *)

Lemma section_read_sets selector items_selector loop (key : string)
    (d d' : dict) (with_entries : list string → value) placeholder l :
  section_read selector items_selector loop
    (<[key := placeholder]> d) (λ entries, <[key := with_entries entries]> d)
    d' l →
  sets_key key d d'.
Proof. intros (_ & _ & _ & [->|(entries & ->)]); by eexists. Qed.

Lemma experience_sets_run w d :
  traced w (extract_experience w d)
    (returns (λ d' _, sets_key "experience" d d')).
Proof.
  eapply traced_weaken; [apply experience_run|].
  intros r l (d' & -> & H). exists d'. split; [done|].
  exact (section_read_sets _ _ _ "experience" d d'
           (λ entries, VList (or_placeholder entries
                                "No experience information found")) _ l H).
Qed.

Lemma languages_read_other d d' l k :
  languages_read d d' l → k ≠ "languages" → d' !! k = d !! k.
Proof.
  intros (_ & _ & _ & [->|(entries & ->)]) Hk; [done|].
  destruct entries; [done|]. by rewrite lookup_insert_ne.
Qed.

(** C8, as the code has it. The record the browser-driven extractor
    returns always has a [skills] key. In a run in which none of the calls
    outside the per-field handlers raised (browser start, navigation, wait
    for the body, screenshot), the four lookups were made; when that of
    the skills section raised, [skills] is ["No skills information
    found"]; when the wait for the name, the wait for the headline or the
    lookup of the about section raised, the field is "Not found"; and the
    three scalar keys are present. The conditions are about the calls of
    this run and the answers they got. *)
Theorem browser_placeholder_policy (w : world) (url : string) (h : history) :
  ∃ d t, get_profile_data_with_selenium w url h = (inr d, h ++ t) ∧
    is_Some (d !! "skills") ∧
    (went_through (annotate w h t) →
     Forall (called (annotate w h t))
       [ FindElement None skills_selector;
         WaitPresence 10 CSS_SELECTOR name_selector;
         WaitPresence 10 CSS_SELECTOR headline_selector;
         FindElement None about_selector ] ∧
     (raises_in (annotate w h t) (FindElement None skills_selector) →
      d !! "skills" = Some (VList ["No skills information found"])) ∧
     (raises_in (annotate w h t) (WaitPresence 10 CSS_SELECTOR name_selector) →
      d !! "name" = Some (VStr "Not found")) ∧
     (raises_in (annotate w h t)
        (WaitPresence 10 CSS_SELECTOR headline_selector) →
      d !! "headline" = Some (VStr "Not found")) ∧
     (raises_in (annotate w h t) (FindElement None about_selector) →
      d !! "about" = Some (VStr "Not found")) ∧
     is_Some (d !! "name") ∧ is_Some (d !! "headline") ∧
     is_Some (d !! "about")).
Proof.
  destruct (selenium_run w url
              (located_text "name" (WaitPresence 10 CSS_SELECTOR name_selector))
              (located_text "headline"
                 (WaitPresence 10 CSS_SELECTOR headline_selector))
              (located_text "about" (FindElement None about_selector))
              (λ d d' _, sets_key "experience" d d')
              (λ d d' _, sets_key "education" d d')
              skills_read languages_read
              (name_run w) (headline_run w) (about_run w)
              (experience_sets_run w) (education_run w) (skills_run w)
              (languages_run w) h)
    as (r & t & Hr & d & -> & Hd).
  exists d, t. split; [done|].
  destruct Hd as [[Hab (e & ->)]|Hsteps].
  { split; [by eexists|]. intros Hgo.
    by apply went_through_not_aborted in Hgo. }
  destruct Hsteps as (d1 & d2 & d3 & d4 & d5 & d6 & l0 & l1 & l2 & l3 & l4
                      & l5 & l6 & l7 & l8 & -> & Hn & Hh & Ha & Hx & He
                      & Hs & Hl).
  destruct Hn as (vn & -> & Hnc & Hnr & _), Hh as (vh & -> & Hhc & Hhr & _),
    Ha as (va & -> & Hac & Har & _), Hx as (vx & ->), He as (ve & ->).
  pose proof (section_read_sets _ _ _ "skills" _ d6
                (λ entries, VList (or_placeholder entries
                                     "No skills information found")) _ l6 Hs)
    as (vs & Hvs).
  destruct Hs as (Hsc & Hsr & _).
  pose proof (λ k, languages_read_other _ _ _ k Hl) as Hother.
  rewrite !Hother by done.
  split; [rewrite Hvs, lookup_insert_eq; by eexists|].
  intros Hgo. split_and!.
  - repeat constructor.
    + do 6 apply called_app_r. by apply called_app_l.
    + apply called_app_r. by apply called_app_l.
    + do 2 apply called_app_r. by apply called_app_l.
    + do 3 apply called_app_r. by apply called_app_l.
  - intros Hraises. rewrite Hsr; [by rewrite lookup_insert_eq|].
    by read_log.
  - intros Hraises. rewrite Hvs, !lookup_insert_ne, lookup_insert_eq by done.
    rewrite Hnr; [done|]. by read_log.
  - intros Hraises. rewrite Hvs, !lookup_insert_ne, lookup_insert_eq by done.
    rewrite Hhr; [done|]. by read_log.
  - intros Hraises. rewrite Hvs, !lookup_insert_ne, lookup_insert_eq by done.
    rewrite Har; [done|]. by read_log.
  - rewrite Hvs, !lookup_insert_ne, lookup_insert_eq by done. by eexists.
  - rewrite Hvs, !lookup_insert_ne, lookup_insert_eq by done. by eexists.
  - rewrite Hvs, !lookup_insert_ne, lookup_insert_eq by done. by eexists.
Qed.

Local Ltac check_entry :=
  first [ reflexivity
        | let Heq := fresh in
          intros Heq;
          first [ discriminate Heq
                | reflexivity
                | injection Heq as <-; reflexivity ] ].

Local Ltac check_log :=
  vm_compute;
  repeat first [apply Forall_nil_2 | apply Forall_cons_2; [check_entry|]].

(** The calls of a run are those of its history. *)
Lemma run_calls {A} (m : M A) (h : history) (r : exn + A) (t : list event) :
  m h = (r, h ++ t) → h = [] → t = (m h).2.
Proof. intros -> ->. done. Qed.

Lemma browser_placeholder_policy_witness :
  ¬ cannot_find MoreSamples.late_world skills_selector ∧
  ∃ d t, get_profile_data_with_selenium MoreSamples.late_world
           Samples.url [] = (inr d, [] ++ t) ∧
         went_through (annotate MoreSamples.late_world [] t) ∧
         called (annotate MoreSamples.late_world [] t)
           (FindElement None skills_selector) ∧
         raises_in (annotate MoreSamples.late_world [] t)
           (FindElement None skills_selector) ∧
         d !! "skills" = Some (VList ["No skills information found"]) ∧
         d !! "name" = Some (VStr "Not found") ∧
         d !! "headline" = Some (VStr "Not found") ∧
         d !! "about" = Some (VStr "Not found").
Proof.
  split.
  { intros Hc. destruct (Hc []) as [msg Hmsg]. discriminate Hmsg. }
  destruct (browser_placeholder_policy MoreSamples.late_world Samples.url [])
    as (d & t & Hr & _ & Hd).
  exists d, t. split; [exact Hr|].
  rewrite (run_calls _ _ _ _ Hr eq_refl) in *.
  destruct Hd as (Hcalled & Hskills & Hname & Hheadline & Habout & _);
    [check_log|].
  split; [check_log|].
  split; [by apply Forall_cons_1 in Hcalled as [? _]|].
  split; [check_log|].
  split_and!; [apply Hskills|apply Hname|apply Hheadline|apply Habout];
    check_log.
Defined.

(** C8, as stated, fails: the lookup of the skills section raises, the
    session is lost before the screenshot, and the record returned is the
    degraded one, whose [skills] is another list and which has no [about]
    key. *)
Lemma skills_placeholder_lost_with_session :
  cannot_find Samples.session_lost skills_selector ∧
  ∃ d t, get_profile_data_with_selenium Samples.session_lost Samples.url []
         = (inr d, t) ∧
         called (annotate Samples.session_lost [] t)
           (FindElement None skills_selector) ∧
         raises_in (annotate Samples.session_lost [] t)
           (FindElement None skills_selector) ∧
         d !! "skills" = Some (VList ["Unable to retrieve skills information"]) ∧
         d !! "skills" ≠ Some (VList ["No skills information found"]) ∧
         d !! "about" = None.
Proof.
  split.
  - intros h. by eexists.
  - eexists _, _. split; [vm_compute; reflexivity|].
    split; [do 10 apply list_elem_of_further; apply list_elem_of_here|].
    split; [check_log|]. by vm_compute.
Qed.

(** The run of the extractor, with all that its steps show. *)
Lemma selenium_steps w url h :
  ∃ d t, get_profile_data_with_selenium w url h = (inr d, h ++ t) ∧
    ((aborted (annotate w h t) ∧ degraded d) ∨
     seven_steps
       (located_text "name" (WaitPresence 10 CSS_SELECTOR name_selector))
       (located_text "headline"
          (WaitPresence 10 CSS_SELECTOR headline_selector))
       (located_text "about" (FindElement None about_selector))
       experience_read
       (λ d d' _, sets_key "education" d d')
       skills_read languages_read d (annotate w h t)).
Proof.
  destruct (selenium_run w url _ _ _ _ _ _ _
              (name_run w) (headline_run w) (about_run w)
              (experience_run w) (education_run w) (skills_run w)
              (languages_run w) h)
    as (r & t & Hr & d & -> & Hd).
  by exists d, t.
Qed.

(** X8. The languages have no placeholder: in a run in which each lookup
    of the languages section raised, the record the browser-driven
    extractor returns has no [languages] key, be it the record of a
    completed run or the degraded one. *)
Theorem languages_are_optional (w : world) (url : string) (h : history) :
  ∃ d t, get_profile_data_with_selenium w url h = (inr d, h ++ t) ∧
         (raises_in (annotate w h t) (FindElement None languages_selector) →
          d !! "languages" = None).
Proof.
  destruct (selenium_steps w url h) as (d & t & Hr & Hd).
  exists d, t. split; [done|].
  destruct Hd as [[_ (e & ->)]|Hsteps]; [done|].
  destruct Hsteps as (d1 & d2 & d3 & d4 & d5 & d6 & l0 & l1 & l2 & l3 & l4
                      & l5 & l6 & l7 & l8 & -> & Hn & Hh & Ha & Hx & He
                      & Hs & Hl).
  intros Hraises.
  destruct Hl as (_ & Hlr & _). rewrite Hlr by (by read_log).
  destruct Hn as (vn & -> & _), Hh as (vh & -> & _), Ha as (va & -> & _),
    He as (ve & ->).
  destruct Hx as (_ & _ & _ & [->|(vx & ->)]),
    Hs as (_ & _ & _ & [->|(vs & ->)]); by rewrite !lookup_insert_ne.
Qed.

Lemma languages_are_optional_witness :
  ∃ d t, get_profile_data_with_selenium MoreSamples.live_world Samples.url []
         = (inr d, [] ++ t) ∧
         raises_in (annotate MoreSamples.live_world [] t)
           (FindElement None languages_selector) ∧
         d !! "languages" = None.
Proof.
  destruct (languages_are_optional MoreSamples.live_world Samples.url [])
    as (d & t & Hr & Hd).
  exists d, t. split; [exact Hr|].
  rewrite (run_calls _ _ _ _ Hr eq_refl) in *.
  split; [|apply Hd]; check_log.
Defined.

(** X15. The name and the headline of a page that answers: in a run in
    which none of the calls outside the per-field handlers raised, the
    wait for the name returned [name_elem], whose text read [name], and
    the wait for the headline returned [headline_elem], whose text read
    [headline], the record has [name] and [headline] equal to the two
    texts with the white space around them removed. *)
Theorem located_name_and_headline_are_trimmed
    (w : world) (url : string) (h : history)
    (name_elem headline_elem : element) (name headline : string) :
  ∃ d t, get_profile_data_with_selenium w url h = (inr d, h ++ t) ∧
    (went_through (annotate w h t) →
     answers_in (annotate w h t)
       (WaitPresence 10 CSS_SELECTOR name_selector) (Found name_elem) →
     answers_in (annotate w h t) (ElementText name_elem) (Read name) →
     answers_in (annotate w h t)
       (WaitPresence 10 CSS_SELECTOR headline_selector) (Found headline_elem) →
     answers_in (annotate w h t) (ElementText headline_elem) (Read headline) →
     d !! "name" = Some (VStr (Py.strip name)) ∧
     d !! "headline" = Some (VStr (Py.strip headline))).
Proof.
  destruct (selenium_steps w url h) as (d & t & Hr & Hd).
  exists d, t. split; [done|]. intros Hgo.
  destruct Hd as [[Hab _]|Hsteps];
    [by apply went_through_not_aborted in Hgo|].
  destruct Hsteps as (d1 & d2 & d3 & d4 & d5 & d6 & l0 & l1 & l2 & l3 & l4
                      & l5 & l6 & l7 & l8 & -> & Hn & Hh & Ha & Hx & He
                      & Hs & Hl).
  intros Hnw Hnt Hhw Hht.
  pose proof (λ k, languages_read_other _ _ _ k Hl) as Hother.
  rewrite !Hother by done.
  destruct Hn as (vn & -> & _ & _ & Hname),
    Hh as (vh & -> & _ & _ & Hheadline), Ha as (va & -> & _),
    He as (ve & ->).
  assert (vn = Py.strip name) as -> by (apply (Hname name_elem); by read_log).
  assert (vh = Py.strip headline) as ->
    by (apply (Hheadline headline_elem); by read_log).
  destruct Hx as (_ & _ & _ & [->|(vx & ->)]),
    Hs as (_ & _ & _ & [->|(vs & ->)]);
    split; by rewrite !lookup_insert_ne, ?lookup_insert_eq by done.
Qed.

Lemma located_name_and_headline_are_trimmed_witness :
  ∃ d t, get_profile_data_with_selenium MoreSamples.live_world Samples.url []
         = (inr d, [] ++ t) ∧
         d !! "name" = Some (VStr "Ada Lovelace") ∧
         d !! "headline" = Some (VStr "Analyst").
Proof.
  destruct (located_name_and_headline_are_trimmed
              MoreSamples.live_world Samples.url [] 1 2
              " Ada Lovelace " "Analyst ")
    as (d & t & Hr & Hd).
  exists d, t. split; [exact Hr|].
  rewrite (run_calls _ _ _ _ Hr eq_refl) in *.
  apply Hd; check_log.
Defined.

(** X16. The skills of a page that answers: in a run in which none of the
    calls outside the per-field handlers raised, the lookup of the skills
    section returned [section], the scroll to it returned, its items were
    listed as [items] and each item read [text_of item], [skills] is the
    list of the items' texts, trimmed, in order, without the blank ones;
    or the placeholder when none is left. *)
Theorem skills_are_the_nonblank_item_texts
    (w : world) (url : string) (h : history)
    (section : element) (items : list element) (text_of : element → string) :
  ∃ d t, get_profile_data_with_selenium w url h = (inr d, h ++ t) ∧
    (went_through (annotate w h t) →
     answers_in (annotate w h t)
       (FindElement None skills_selector) (Found section) →
     answers_in (annotate w h t)
       (ExecuteScript scroll_into_view section) Returned →
     answers_in (annotate w h t)
       (FindElements section skill_items_selector) (FoundAll items) →
     (∀ item, item ∈ items →
              answers_in (annotate w h t) (ElementText item)
                (Read (text_of item))) →
     d !! "skills"
     = Some (VList (or_placeholder
                      (filter (λ s, s ≠ "")
                         ((λ item, Py.strip (text_of item)) <$> items))
                      "No skills information found"))).
Proof.
  destruct (selenium_steps w url h) as (d & t & Hr & Hd).
  exists d, t. split; [done|]. intros Hgo.
  destruct Hd as [[Hab _]|Hsteps];
    [by apply went_through_not_aborted in Hgo|].
  destruct Hsteps as (d1 & d2 & d3 & d4 & d5 & d6 & l0 & l1 & l2 & l3 & l4
                      & l5 & l6 & l7 & l8 & -> & Hn & Hh & Ha & Hx & He
                      & Hs & Hl).
  intros Hfind Hscroll Hitems Htext.
  rewrite (languages_read_other _ _ _ "skills" Hl) by done.
  destruct Hs as (_ & _ & Hs & _).
  destruct (Hs section items) as (entries & Hentries & ->);
    [by read_log..|].
  rewrite lookup_insert_eq. do 3 f_equal. apply Hentries.
  intros item Hitem. specialize (Htext item Hitem). by read_log.
Qed.

Lemma skills_are_the_nonblank_item_texts_witness :
  ∃ d t, get_profile_data_with_selenium MoreSamples.live_world Samples.url []
         = (inr d, [] ++ t) ∧
         d !! "skills" = Some (VList ["Mathematics"; "Engines"]).
Proof.
  destruct (skills_are_the_nonblank_item_texts
              MoreSamples.live_world Samples.url [] 3 [31; 32; 33]
              MoreSamples.live_text)
    as (d & t & Hr & Hd).
  exists d, t. split; [exact Hr|].
  rewrite (run_calls _ _ _ _ Hr eq_refl) in *.
  apply Hd; try check_log.
  intros item Hitem.
  repeat (apply elem_of_cons in Hitem as [->|Hitem]; [check_log|]).
  by apply elem_of_nil in Hitem.
Defined.



(** * The item loops *)

(** A loop whose body keeps the list or adds one entry to it returns the
    list it was given, followed by at most one entry for each item. *)
Lemma for_each_extends {A} P (body : A → list string → M (list string)) items :
  (∀ x s, total P (body x s) (λ r, r = s ∨ ∃ entry, r = s ++ [entry])) →
  ∀ acc, total P (for_each items body acc)
           (λ r, ∃ new, r = acc ++ new ∧ length new ≤ length items).
Proof.
  intros Hbody. induction items as [|x rest IH]; intros acc; simpl.
  - apply outcome_ret. exists []. by rewrite app_nil_r.
  - eapply outcome_bind; [apply Hbody|]. intros acc' Hacc'.
    eapply outcome_weaken; [apply IH| |done].
    intros r (new & -> & Hlen).
    destruct Hacc' as [->|(entry & ->)].
    + exists new. split; [done|]. lia.
    + exists (entry :: new). rewrite <- app_assoc. split; [done|]. simpl. lia.
Qed.

Lemma experience_item_extends w item s :
  total browser_event (experience_item w item s)
    (λ r, r = s ∨ ∃ entry, r = s ++ [entry]).
Proof.
  unfold experience_item.
  eapply outcome_try_except with (E1 := λ _, True).
  - eapply outcome_bind; [apply sub_text_outcome|]. intros role _.
    eapply outcome_bind; [apply sub_text_outcome|]. intros company _.
    apply outcome_ret. right. by eexists.
  - intros e _. apply outcome_ret. by left.
Qed.

Lemma education_item_extends w item s :
  total browser_event (education_item w item s)
    (λ r, r = s ∨ ∃ entry, r = s ++ [entry]).
Proof.
  unfold education_item.
  eapply outcome_try_except with (E1 := λ _, True).
  - eapply outcome_bind; [apply sub_text_outcome|]. intros school _.
    eapply outcome_bind; [apply sub_text_outcome|]. intros degree _.
    apply outcome_ret. right. by eexists.
  - intros e _. apply outcome_ret. by left.
Qed.

Lemma skill_item_extends w item s :
  total browser_event (skill_item w item s)
    (λ r, r = s ∨ ∃ entry, r = s ++ [entry]).
Proof.
  unfold skill_item.
  eapply outcome_try_except with (E1 := λ _, True).
  - eapply outcome_bind with (Q1 := λ _, True);
      [apply outcome_browser_call; [exact I|done]|]. intros t _.
    apply outcome_ret. destruct (Py.truthy (Py.strip t)); [right|left]; eauto.
  - intros e _. apply outcome_ret. by left.
Qed.

Lemma language_item_extends w item s :
  total browser_event (language_item w item s)
    (λ r, r = s ∨ ∃ entry, r = s ++ [entry]).
Proof.
  unfold language_item.
  eapply outcome_try_except with (E1 := λ _, True).
  - eapply outcome_bind; [apply sub_text_outcome|]. intros language _.
    eapply outcome_bind with (Q1 := λ _, True).
    { eapply outcome_try_except; [apply sub_text_outcome|].
      intros e _. by apply outcome_ret. }
    intros proficiency _. apply outcome_ret. right. by eexists.
  - intros e _. apply outcome_ret. by left.
Qed.

(** X18. A failure on one item never ends a section nor loses what was
    read before: in every world, each of the four item loops of the
    browser-driven extractor returns, and its result is the list it
    started from followed by at most one entry per item. *)
Theorem item_failures_are_isolated
    (w : world) (items : list element) (acc : list string) (h : history) :
  Forall (λ body : element → list string → M (list string),
            ∃ new t, for_each items body acc h = (inr (acc ++ new), h ++ t) ∧
                     length new ≤ length items)
    [experience_item w; education_item w; skill_item w; language_item w].
Proof.
  assert (∀ body : element → list string → M (list string),
            (∀ x s, total browser_event (body x s)
                      (λ r, r = s ∨ ∃ entry, r = s ++ [entry])) →
            ∃ new t, for_each items body acc h = (inr (acc ++ new), h ++ t) ∧
                     length new ≤ length items) as Hloop.
  { intros body Hbody.
    destruct (for_each_extends browser_event body items Hbody acc h)
      as ([e|r] & t & Hr & _ & Hq); [done|].
    destruct Hq as (new & -> & Hlen). by exists new, t. }
  repeat constructor; apply Hloop; intros x s.
  - apply experience_item_extends.
  - apply education_item_extends.
  - apply skill_item_extends.
  - apply language_item_extends.
Qed.
